(** * PastUSB: a shallow embedding of src/PastUSB.py

    Python [str] values are modelled as [string] (the log files and registry
    names handled here are ASCII / ISO-8859-1 text), Python exceptions as the
    [exn] type below and fallible code as the [result] monad.  Registry trees
    and log files are plain data passed to the functions that read them. *)

From Stdlib Require Import String Ascii List Bool ZArith Lia.
Import ListNotations.
Open Scope string_scope.

(* ------------------------------------------------------------------ *)
(** ** Python exceptions and the error monad *)

Inductive exn : Type :=
| ValueError
| IndexError
| KeyError
| TypeError
| StopIteration
| RuntimeError
| URLError        (** [urllib.error.URLError] *)
| HTTPError       (** [urllib.error.HTTPError], a subclass of [URLError] *)
| TimeoutError    (** [socket.timeout] raised while reading a response *)
| ConnectionResetError
| RemoteDisconnected
| UnicodeDecodeError.

(** [except urllib.error.URLError] also catches the subclass [HTTPError]. *)
Definition is_URLError (e : exn) : bool :=
  match e with URLError | HTTPError => true | _ => false end.

Inductive result (A : Type) : Type :=
| Ok (a : A)
| Raise (e : exn).
Arguments Ok {A} a.
Arguments Raise {A} e.

Definition bind {A B} (m : result A) (k : A -> result B) : result B :=
  match m with Ok a => k a | Raise e => Raise e end.

Notation "'let*' x := m 'in' k" := (bind m (fun x => k))
  (at level 200, x name, m at level 100, k at level 200).

(* ------------------------------------------------------------------ *)
(** ** Python [str] operations *)

Module Py.

(** [s.startswith(p)] *)
Definition startswith (p s : string) : bool := String.prefix p s.

(** Position of the first occurrence of [sub] in [s]. *)
Fixpoint find0 (sub s : string) : option nat :=
  if String.prefix sub s then Some 0
  else match s with
       | EmptyString => None
       | String _ s' => option_map S (find0 sub s')
       end.

(** [sub in s] *)
Definition contains (sub s : string) : bool :=
  match find0 sub s with Some _ => true | None => false end.

(** [s.find(sub, start)] for a non-negative [start]. *)
Definition find_from (s sub : string) (start : nat) : Z :=
  if Nat.ltb (String.length s) start then (-1)%Z
  else match find0 sub (substring start (String.length s - start) s) with
       | Some k => Z.of_nat (start + k)
       | None => (-1)%Z
       end.

Definition find (s sub : string) : Z := find_from s sub 0.

(** [s.index(sub, start)]: like [find] but raises [ValueError]. *)
Definition index_from (s sub : string) (start : nat) : result nat :=
  let i := find_from s sub start in
  if (i <? 0)%Z then Raise ValueError else Ok (Z.to_nat i).

Definition index (s sub : string) : result nat := index_from s sub 0.

(** Position of the last occurrence of [sub] in [s]. *)
Fixpoint rfind0 (sub s : string) : option nat :=
  match s with
  | EmptyString => if String.prefix sub s then Some 0 else None
  | String _ s' =>
      match rfind0 sub s' with
      | Some k => Some (S k)
      | None => if String.prefix sub s then Some 0 else None
      end
  end.

(** [s.rindex(sub)] *)
Definition rindex (s sub : string) : result nat :=
  match rfind0 sub s with Some k => Ok k | None => Raise ValueError end.

(** Normalisation of a slice bound, as CPython does it. *)
Definition slice_bound (len : nat) (i : Z) : nat :=
  if (i <? 0)%Z then Z.to_nat (Z.max 0 (i + Z.of_nat len))
  else Nat.min (Z.to_nat i) len.

(** [s[a:b]] *)
Definition slice (s : string) (a b : Z) : string :=
  let n := String.length s in
  let a' := slice_bound n a in
  let b' := slice_bound n b in
  substring a' (b' - a') s.

(** [s[a:]] *)
Definition slice_from (s : string) (a : Z) : string :=
  slice s a (Z.of_nat (String.length s)).

(** Characters for which [str.isspace()] holds, in the ISO-8859-1 range:
    the ASCII white space 9..13 and 28..32, NEL (133) and NO-BREAK SPACE
    (160).  [str.split()] and [str.strip()] use the same test. *)
Definition is_space (c : ascii) : bool :=
  let n := nat_of_ascii c in
  ((9 <=? n) && (n <=? 13))%nat || ((28 <=? n) && (n <=? 32))%nat
  || (n =? 133)%nat || (n =? 160)%nat.

Fixpoint lstrip (s : string) : string :=
  match s with
  | EmptyString => EmptyString
  | String c s' => if is_space c then lstrip s' else s
  end.

Fixpoint rev_string (s : string) : string :=
  match s with
  | EmptyString => EmptyString
  | String c s' => rev_string s' ++ String c EmptyString
  end.

Definition rstrip (s : string) : string := rev_string (lstrip (rev_string s)).

(** [s.strip()] *)
Definition strip (s : string) : string := rstrip (lstrip s).

(** Splits off the first run of non-space characters. *)
Fixpoint take_token (s : string) : string * string :=
  match s with
  | EmptyString => (EmptyString, EmptyString)
  | String c s' =>
      if is_space c then (EmptyString, s)
      else let (t, r) := take_token s' in (String c t, r)
  end.

(** [s.split(maxsplit=1)] *)
Definition split_max1 (s : string) : list string :=
  match lstrip s with
  | EmptyString => []
  | s1 =>
      let (tok, rest) := take_token s1 in
      match lstrip rest with
      | EmptyString => [tok]
      | r => [tok; r]
      end
  end.

(** [xs[-1]] *)
Definition last_item {A} (xs : list A) : result A :=
  match rev xs with x :: _ => Ok x | [] => Raise IndexError end.

(** [xs[i]] for a non-negative [i]. *)
Definition get_item {A} (xs : list A) (i : nat) : result A :=
  match nth_error xs i with Some x => Ok x | None => Raise IndexError end.

(** [s.replace(old, new)] for a non-empty [old]: every non-overlapping
    occurrence, scanned from the left.  [fuel] bounds the scan. *)
Fixpoint replace_fuel (fuel : nat) (old new s : string) : string :=
  match fuel with
  | O => s
  | S fuel' =>
      if String.prefix old s
      then new ++ replace_fuel fuel' old new
                    (substring (String.length old)
                       (String.length s - String.length old) s)
      else match s with
           | EmptyString => EmptyString
           | String c s' => String c (replace_fuel fuel' old new s')
           end
  end.

Definition replace (s old new : string) : string :=
  replace_fuel (S (String.length s)) old new s.

(** [s.split(sep)] for a one-character separator. *)
Fixpoint split_on (sep : ascii) (s : string) : list string :=
  match s with
  | EmptyString => [EmptyString]
  | String c s' =>
      if Ascii.eqb c sep then EmptyString :: split_on sep s'
      else match split_on sep s' with
           | t :: ts => String c t :: ts
           | [] => [String c EmptyString]
           end
  end.

(** [s.split()]: the maximal runs of non-space characters. *)
Fixpoint split_ws_fuel (fuel : nat) (s : string) : list string :=
  match fuel with
  | O => []
  | S fuel' =>
      match lstrip s with
      | EmptyString => []
      | s1 => let (tok, rest) := take_token s1 in tok :: split_ws_fuel fuel' rest
      end
  end.

Definition split_ws (s : string) : list string :=
  split_ws_fuel (S (String.length s)) s.

(** [xs[-n:]] *)
Definition last_n {A} (n : nat) (xs : list A) : list A :=
  skipn (length xs - n) xs.

(** [sep.join(xs)] *)
Fixpoint join (sep : string) (xs : list string) : string :=
  match xs with
  | [] => EmptyString
  | [x] => x
  | x :: xs' => x ++ sep ++ join sep xs'
  end.

(** [str.isdigit()] on ASCII text, and the value of a digit string. *)
Definition is_digit (c : ascii) : bool :=
  let n := nat_of_ascii c in ((48 <=? n) && (n <=? 57))%nat.

Fixpoint all_digits (s : string) : bool :=
  match s with
  | EmptyString => true
  | String c s' => is_digit c && all_digits s'
  end.

Fixpoint digits_value_acc (acc : Z) (s : string) : Z :=
  match s with
  | EmptyString => acc
  | String c s' =>
      digits_value_acc (acc * 10 + Z.of_nat (nat_of_ascii c - 48)) s'
  end.

Definition digits_value (s : string) : Z := digits_value_acc 0 s.

End Py.

(* ------------------------------------------------------------------ *)
(** ** Log-section generators *)

(** How a generator run ends: exhausted normally, or with an exception that
    reaches the consumer.  A [StopIteration] raised inside a generator body
    (here by [next(log_file)] at end of file) is turned into [RuntimeError]
    by the interpreter (PEP 479). *)
Inductive gen_end : Type :=
| Finished
| Raised (e : exn).

(** [parse_windows_log_file], with the file given as its list of lines and
    [log_section] the generator's buffer.  The result lists the sections
    yielded, each as the buffer's contents at the moment of the [yield] (its
    only consumer, [__set_first_connect_dates], reads every section before
    asking for the next one), followed by how the run ends.  [next(log_file)]
    takes the following line off the same iterator the [for] loop reads. *)
Fixpoint parse_windows_log_file (log_section : list string) (lines : list string)
  : list (list string) * gen_end :=
  match lines with
  | [] => ([], Finished)
  | line :: rest =>
      if Nat.eqb (length log_section) 0 && Py.startswith ">>>" line then
        match rest with
        | [] => ([], Raised RuntimeError)
        | next_line :: rest' =>
            if Py.startswith ">>>" next_line then
              parse_windows_log_file (log_section ++ [line; next_line])%list rest'
            else
              (* the two remaining tests need a non-empty buffer *)
              parse_windows_log_file log_section rest'
        end
      else if Nat.ltb 0 (length log_section) && Py.startswith "<<<" line then
        match rest with
        | [] => ([], Raised RuntimeError)
        | next_line :: rest' =>
            if Py.startswith "<<<" next_line then
              let (ys, e) := parse_windows_log_file [] rest' in
              ((log_section ++ [line; next_line])%list :: ys, e)
            else
              (* falls through to [if len(log_section) > 0] *)
              parse_windows_log_file (log_section ++ [line])%list rest'
        end
      else if Nat.ltb 0 (length log_section) then
        parse_windows_log_file (log_section ++ [line])%list rest
      else parse_windows_log_file log_section rest
  end.

Definition parse_windows_log (lines : list string) :=
  parse_windows_log_file [] lines.

(** [parse_linux_log_file], with the same conventions; reading a text file
    raises nothing here, so the run always ends normally. *)
Fixpoint parse_linux_log_file (section : list string) (lines : list string)
  : list (list string) :=
  match lines with
  | [] => []
  | line :: rest =>
      if Py.contains "New USB device found" line then
        if Nat.eqb (length section) 0 then
          parse_linux_log_file (section ++ [line])%list rest          (* continue *)
        else
          let section := [line] in                 (* clear(); append(line) *)
          let section := (section ++ [line])%list in      (* if len(section) > 0 *)
          if Py.contains "Mounted /dev/sd" line
          then section :: parse_linux_log_file [] rest
          else parse_linux_log_file section rest
      else if Nat.ltb 0 (length section) then
        let section := (section ++ [line])%list in
        if Py.contains "Mounted /dev/sd" line
        then section :: parse_linux_log_file [] rest
        else parse_linux_log_file section rest
      else parse_linux_log_file section rest
  end.

Definition parse_linux_log (lines : list string) := parse_linux_log_file [] lines.

(** A well-formed section of the setupapi log: two start-marker lines, a
    body in which no line starts with the end marker, two end-marker lines. *)
Definition win_block (b : list string) : Prop :=
  exists s1 s2 body e1 e2,
    b = ([s1; s2] ++ body ++ [e1; e2])%list /\
    Py.startswith ">>>" s1 = true /\ Py.startswith ">>>" s2 = true /\
    Py.startswith "<<<" e1 = true /\ Py.startswith "<<<" e2 = true /\
    Forall (fun l => Py.startswith "<<<" l = false) body.

(* ------------------------------------------------------------------ *)
(** ** Device records *)

(** A naive [datetime] value. *)
Record datetime := mkdatetime {
  dt_year : Z; dt_month : Z; dt_day : Z;
  dt_hour : Z; dt_minute : Z; dt_second : Z
}.

(** The dataclass [USBDevice]. *)
Record USBDevice := mkUSBDevice {
  version : option string;
  serial_number : option string;
  friendly_name : option string;
  vendor_id : option string;
  product_id : option string;
  first_connect_date : option datetime;
  last_connect_date : option datetime;
  vendor_name : option string;
  product_description : option string
}.

(** [USBDevice()] with every field at its default [None]. *)
Definition USBDevice_default : USBDevice :=
  mkUSBDevice None None None None None None None None None.

(** The subclasses extend the base fields; [l_base] and [w_base] hold the
    fields inherited from [USBDevice]. *)
Record USBDeviceLinux := mkUSBDeviceLinux {
  l_base : USBDevice;
  syslog_manufacturer : option string;
  syslog_product : option string;
  device_size : option string
}.

(** Access to the inherited fields of a subclass instance, which is all that
    [BaseViewer._set_devices_info] uses. *)
Class HasBase (T : Type) := {
  base : T -> USBDevice;
  with_base : USBDevice -> T -> T
}.

#[global] Instance HasBase_Linux : HasBase USBDeviceLinux := {
  base := l_base;
  with_base b d := mkUSBDeviceLinux b (syslog_manufacturer d) (syslog_product d)
                                     (device_size d)
}.

(** Field assignments [device.f = x] on the base fields. *)
Definition set_last_connect_date (t : option datetime) (b : USBDevice) : USBDevice :=
  mkUSBDevice (version b) (serial_number b) (friendly_name b) (vendor_id b)
    (product_id b) (first_connect_date b) t (vendor_name b)
    (product_description b).

Definition set_vendor_info (vn pd : option string) (b : USBDevice) : USBDevice :=
  mkUSBDevice (version b) (serial_number b) (friendly_name b) (vendor_id b)
    (product_id b) (first_connect_date b) (last_connect_date b) vn pd.

Definition set_first_connect_date (t : option datetime) (b : USBDevice) : USBDevice :=
  mkUSBDevice (version b) (serial_number b) (friendly_name b) (vendor_id b)
    (product_id b) t (last_connect_date b) (vendor_name b)
    (product_description b).

Definition set_ids (vid pid : option string) (b : USBDevice) : USBDevice :=
  mkUSBDevice (version b) (serial_number b) (friendly_name b) vid pid
    (first_connect_date b) (last_connect_date b) (vendor_name b)
    (product_description b).

(** Mutating the [i]-th object of a list in place. *)
Fixpoint update_nth {A} (i : nat) (f : A -> A) (xs : list A) : list A :=
  match xs, i with
  | [], _ => []
  | x :: xs', O => f x :: xs'
  | x :: xs', S i' => x :: update_nth i' f xs'
  end.

(** Python [==] on [Optional[str]]. *)
Definition opt_str_eqb (a b : option string) : bool :=
  match a, b with
  | Some x, Some y => String.eqb x y
  | None, None => true
  | _, _ => false
  end.

(* ------------------------------------------------------------------ *)
(** ** [LinuxViewer] *)

Module LinuxViewer.

(** [__get_device_id_by_type] *)
Definition get_device_id_by_type (string id_type : String.string)
  : result String.string :=
  let* index_start := Py.index string id_type in
  let* index_end :=
    if Py.contains "," (Py.slice_from string (Z.of_nat index_start))
    then Py.index_from string "," index_start
    else Ok (String.length string) in
  let device_id := Py.slice string (Z.of_nat index_start) (Z.of_nat index_end) in
  let device_id := Py.replace device_id (id_type ++ "=") "" in
  Ok (Py.strip device_id).

(** [__get_device_info_from_section] *)
Fixpoint get_device_info_from_section (section : list string) (info_type : string)
  : result (option string) :=
  match section with
  | [] => Ok None
  | line :: rest =>
      if Py.contains info_type line then
        let* start_index := Py.index line info_type in
        let* v := Py.last_item
                    (Py.split_max1
                       (Py.slice_from line
                          (Z.of_nat (start_index + String.length info_type)))) in
        Ok (Some (Py.strip v))
      else get_device_info_from_section rest info_type
  end.

(** [__get_device_size] *)
Fixpoint get_device_size (section : list string) : result (option string) :=
  match section with
  | [] => Ok None
  | line :: rest =>
      if Py.contains "logical blocks" line then
        let* index_start := Py.rindex line "]" in
        Ok (Some (Py.strip (Py.slice_from line (Z.of_nat (index_start + 1)))))
      else get_device_size rest
  end.

(** [__get_device_if_exist], returning the position of the object found. *)
Fixpoint get_device_if_exist (usb_devices : list USBDeviceLinux)
  (serial : option string) : option nat :=
  match usb_devices with
  | [] => None
  | d :: ds =>
      if opt_str_eqb (serial_number (l_base d)) serial then Some 0
      else option_map S (get_device_if_exist ds serial)
  end.

Section Viewer.

(** [self.__get_device_connect_time]: reads the syslog time stamp in front of
    the host name ([str.index], [datetime.strptime]); it may raise. *)
Variable get_device_connect_time : string -> Z -> result datetime.

(** One iteration of the loop of [__get_base_device_info], on the section
    [section] read from a file last modified in [year]. *)
Definition add_section (usb_devices : list USBDeviceLinux)
  (section_year : list string * Z) : result (list USBDeviceLinux) :=
  let (section, year) := section_year in
  let* serial_number := get_device_info_from_section section "SerialNumber:" in
  let* section0 := Py.get_item section 0 in
  let* connect_time := get_device_connect_time section0 year in
  match get_device_if_exist usb_devices serial_number with
  | Some i =>
      Ok (update_nth i (fun d => with_base (set_last_connect_date (Some connect_time)
                                                                (base d)) d)
                     usb_devices)
  | None =>
      let* vid := get_device_id_by_type section0 "idVendor" in
      let* pid := get_device_id_by_type section0 "idProduct" in
      let* ver := get_device_id_by_type section0 "bcdDevice" in
      let* sprod := get_device_info_from_section section "Product:" in
      let* smanu := get_device_info_from_section section "Manufacturer:" in
      let* sn := get_device_info_from_section section "SerialNumber:" in
      let* fname := get_device_info_from_section section "Direct-Access" in
      let* dsize := get_device_size section in
      let device :=
        mkUSBDeviceLinux
          (mkUSBDevice (Some ver) sn fname (Some vid) (Some pid)
             (Some connect_time) (Some connect_time) None None)
          smanu sprod dsize in
      Ok (usb_devices ++ [device])%list
  end.

(** [__get_log_sections]: the log files in the order they are read, each as
    its lines and its last-modification year. *)
Definition get_log_sections (files : list (list string * Z))
  : list (list string * Z) :=
  concat (map (fun '(lines, year) =>
                 map (fun s => (s, year)) (parse_linux_log lines)) files).

(** [__get_base_device_info] *)
Definition get_base_device_info (files : list (list string * Z))
  : result (list USBDeviceLinux) :=
  fold_left (fun acc s => let* devs := acc in add_section devs s)
            (get_log_sections files) (Ok []).

End Viewer.

End LinuxViewer.

(** The values present in a list of optional values. *)
Fixpoint somes {A} (xs : list (option A)) : list A :=
  match xs with
  | [] => []
  | Some x :: xs' => x :: somes xs'
  | None :: xs' => somes xs'
  end.

(* ------------------------------------------------------------------ *)
(** ** [datetime.strptime(s, '%Y/%m/%d %H:%M:%S')] *)

Definition is_leap (y : Z) : bool :=
  (Z.eqb (y mod 4) 0 && negb (Z.eqb (y mod 100) 0)) || Z.eqb (y mod 400) 0.

Definition days_in_month (y m : Z) : Z :=
  if Z.eqb m 2 then (if is_leap y then 29 else 28)
  else if Z.eqb m 4 || Z.eqb m 6 || Z.eqb m 9 || Z.eqb m 11 then 30
  else 31.

(** A one- or two-digit directive ([%m], [%d], [%H], [%M], [%S]) whose
    regular expression admits exactly the values [lo..hi]. *)
Definition two_digit_field (lo hi : Z) (f : string) : option Z :=
  let v := Py.digits_value f in
  if Py.all_digits f && (1 <=? String.length f)%nat && (String.length f <=? 2)%nat
     && (lo <=? v)%Z && (v <=? hi)%Z
  then Some v else None.

(** The format used by [__set_first_connect_dates], on strings with at most
    one space (the caller joins two space-free tokens).  The regular
    expression of [_strptime] bounds each field ([%S] up to 61); the
    [datetime] constructor then checks the year, the day of the month and
    [second <= 59].  Any failure is a [ValueError]. *)
Definition strptime_ymd_hms (s : string) : result datetime :=
  match Py.split_on " " s with
  | [date; time] =>
      match Py.split_on "/" date, Py.split_on ":" time with
      | [y; mo; d], [h; mi; se] =>
          if Py.all_digits y && (String.length y =? 4)%nat then
            match two_digit_field 1 12 mo, two_digit_field 1 31 d,
                  two_digit_field 0 23 h, two_digit_field 0 59 mi,
                  two_digit_field 0 61 se with
            | Some mo', Some d', Some h', Some mi', Some se' =>
                let y' := Py.digits_value y in
                if (1 <=? y')%Z && (d' <=? days_in_month y' mo')%Z && (se' <=? 59)%Z
                then Ok (mkdatetime y' mo' d' h' mi' se')
                else Raise ValueError
            | _, _, _, _, _ => Raise ValueError
            end
          else Raise ValueError
      | _, _ => Raise ValueError
      end
  | _ => Raise ValueError
  end.

(* ------------------------------------------------------------------ *)
(** ** Python dicts with string keys, in insertion order *)

(** [d[k] = v]: an existing key keeps its position and takes the new value. *)
Fixpoint dict_set {V} (k : string) (v : V) (d : list (string * V))
  : list (string * V) :=
  match d with
  | [] => [(k, v)]
  | (k', v') :: d' =>
      if String.eqb k k' then (k', v) :: d' else (k', v') :: dict_set k v d'
  end.

(** [k in d] *)
Definition dict_mem {V} (k : string) (d : list (string * V)) : bool :=
  existsb (fun kv => String.eqb k (fst kv)) d.

(** [d[k]] on a [defaultdict(lambda: None)]. *)
Fixpoint dict_get {V} (k : string) (d : list (string * V)) : option V :=
  match d with
  | [] => None
  | (k', v) :: d' => if String.eqb k k' then Some v else dict_get k d'
  end.

(** [__get_registry_values]: the values of a key, read in enumeration order. *)
Definition registry_values {V} (vals : list (string * V)) : list (string * V) :=
  fold_left (fun d '(name, value) => dict_set name value d) vals [].

(** [convert_binary_to_ascii_string] *)
Definition convert_binary_to_ascii_string (b : list Byte.byte) : string :=
  string_of_list_ascii
    (map ascii_of_byte
       (filter (fun x => (0 <? Byte.to_nat x)%nat && (Byte.to_nat x <? 128)%nat) b)).

(* ------------------------------------------------------------------ *)
(** ** [WindowsViewer] *)

Record USBDeviceWindows := mkUSBDeviceWindows {
  w_base : USBDevice;
  usbstor_vendor : option string;
  usbstor_product : option string;
  parent_prefix_id : option string;
  guid : option string;
  drive_letter : option string
}.

#[global] Instance HasBase_Windows : HasBase USBDeviceWindows := {
  base := w_base;
  with_base b d := mkUSBDeviceWindows b (usbstor_vendor d) (usbstor_product d)
                     (parent_prefix_id d) (guid d) (drive_letter d)
}.

Definition set_guid (g : option string) (d : USBDeviceWindows) : USBDeviceWindows :=
  mkUSBDeviceWindows (w_base d) (usbstor_vendor d) (usbstor_product d)
    (parent_prefix_id d) g (drive_letter d).

Definition set_drive_letter (l : option string) (d : USBDeviceWindows)
  : USBDeviceWindows :=
  mkUSBDeviceWindows (w_base d) (usbstor_vendor d) (usbstor_product d)
    (parent_prefix_id d) (guid d) l.

(** [x in s] for an [Optional[str]] needle: [None in s] raises [TypeError]. *)
Definition opt_in (x : option string) (s : string) : result bool :=
  match x with Some x' => Ok (Py.contains x' s) | None => Raise TypeError end.

(** The registry data the viewer reads.  Subkeys are listed in [EnumKey]
    order and values in [EnumValue] order; the string values read here
    ([FriendlyName], [ParentPrefixId]) are [REG_SZ] and the values under
    [MountedDevices] are [REG_BINARY]. *)
Record Registry := mkRegistry {
  (** [SYSTEM\CurrentControlSet\Enum\USBSTOR]: each key with its device
      subkeys and their values. *)
  reg_usbstor : list (string * list (string * list (string * string)));
  (** [SYSTEM\CurrentControlSet\Enum\USB]: each key with its subkey names. *)
  reg_usb : list (string * list string);
  (** [SYSTEM\MountedDevices]: value names and binary data. *)
  reg_mounted_devices : list (string * list Byte.byte);
  (** [SOFTWARE\Microsoft\Windows Portable Devices\Devices]: each key with
      its values. *)
  reg_portable_devices : list (string * list (string * string))
}.

Module WindowsViewer.

(** [__parse_device_name] *)
Definition parse_device_name (device_name : string)
  : option (string * string * string) :=
  match Py.split_on "&" device_name with
  | [n0; n1; n2; n3] =>
      if String.eqb n0 "Disk" then
        Some (Py.replace n1 "Ven_" "", Py.replace n2 "Prod_" "",
              Py.replace n3 "Rev_" "")
      else None
  | _ => None
  end.

(** The body of the inner loop of [__get_base_device_info]: one device
    subkey [device] with its values. *)
Definition device_record (vendor product version : string)
  (device : string) (vals : list (string * string)) : USBDeviceWindows :=
  let device_values := registry_values vals in
  let serial_number := hd EmptyString (Py.split_on "&" device) in
  let friendly_name := dict_get "FriendlyName" device_values in
  let parent_prefix_id :=
    if dict_mem "ParentPrefixId" device_values
    then dict_get "ParentPrefixId" device_values
    else Some device in
  mkUSBDeviceWindows
    {| version := Some version; serial_number := Some serial_number;
       friendly_name := friendly_name; vendor_id := None; product_id := None;
       first_connect_date := None; last_connect_date := None;
       vendor_name := None; product_description := None |}
    (Some vendor) (Some product) parent_prefix_id None None.

(** [__get_base_device_info] *)
Definition get_base_device_info (usbstor : list (string * list (string * list (string * string))))
  : list USBDeviceWindows :=
  concat (map (fun '(key_str, devices_keys) =>
                 match parse_device_name key_str with
                 | None => []
                 | Some (vendor, product, version) =>
                     map (fun '(device, vals) =>
                            device_record vendor product version device vals)
                         devices_keys
                 end) usbstor).

(** [for device in usb_devices: ...] over a list of devices. *)
Fixpoint map_result {A B} (f : A -> result B) (xs : list A) : result (list B) :=
  match xs with
  | [] => Ok []
  | x :: xs' => let* y := f x in let* ys := map_result f xs' in Ok (y :: ys)
  end.

Definition set_base_vendor_id (v : option string) (d : USBDeviceWindows) :=
  with_base (set_ids v (product_id (base d)) (base d)) d.

Definition set_base_product_id (p : option string) (d : USBDeviceWindows) :=
  with_base (set_ids (vendor_id (base d)) p (base d)) d.

(** The body of the inner loop of [__set_vendor_and_product_ids] once the
    serial number matched. *)
Definition assign_ids (device_id : string) (d : USBDeviceWindows)
  : result USBDeviceWindows :=
  let device_info := Py.split_on "&" device_id in
  let* i0 := Py.get_item device_info 0 in
  let d := set_base_vendor_id (Some (Py.replace i0 "VID_" "")) d in
  let* i1 := Py.get_item device_info 1 in
  Ok (set_base_product_id (Some (Py.replace i1 "PID_" "")) d).

(** [for serial_number, device_id in device_dict.items(): ...] *)
Fixpoint ids_loop (items : list (string * string)) (d : USBDeviceWindows)
  : result USBDeviceWindows :=
  match items with
  | [] => Ok d
  | (sn, device_id) :: rest =>
      if negb (opt_str_eqb (serial_number (w_base d)) (Some sn))
      then ids_loop rest d
      else let* d := assign_ids device_id d in ids_loop rest d
  end.

(** The [device_dict] of [__set_vendor_and_product_ids]: each key of [USB]
    whose name contains [VID] and [PID], filed under its first subkey. *)
Definition usb_device_dict (usb : list (string * list string))
  : result (list (string * string)) :=
  fold_left (fun acc '(device_id, subkeys) =>
               let* dd := acc in
               if negb (Py.contains "VID" device_id) || negb (Py.contains "PID" device_id)
               then Ok dd
               else let* serial_number := Py.get_item subkeys 0 in
                    Ok (dict_set serial_number device_id dd))
            usb (Ok []).

(** [__set_vendor_and_product_ids] *)
Definition set_vendor_and_product_ids (usb : list (string * list string))
  (usb_devices : list USBDeviceWindows) : result (list USBDeviceWindows) :=
  let* device_dict := usb_device_dict usb in
  map_result (ids_loop device_dict) usb_devices.

(** [for key, value in registry_values.items(): ...] of [__set_guids]. *)
Fixpoint guid_loop (vals : list (string * list Byte.byte)) (d : USBDeviceWindows)
  : result USBDeviceWindows :=
  match vals with
  | [] => Ok d
  | (key, value) :: rest =>
      let value := convert_binary_to_ascii_string value in
      let* found := opt_in (parent_prefix_id d) value in
      if negb found then guid_loop rest d
      else if Py.contains "\Volume" key then
        let* guid_start_index := Py.index key "{" in
        guid_loop rest (set_guid (Some (Py.slice_from key (Z.of_nat guid_start_index))) d)
      else guid_loop rest d
  end.

(** [__set_guids] *)
Definition set_guids (mounted : list (string * list Byte.byte))
  (usb_devices : list USBDeviceWindows) : result (list USBDeviceWindows) :=
  map_result (guid_loop (registry_values mounted)) usb_devices.

(** [for key in registry_keys: ...] of [__set_drive_letters]. *)
Fixpoint drive_loop (keys : list (string * list (string * string)))
  (d : USBDeviceWindows) : result USBDeviceWindows :=
  match keys with
  | [] => Ok d
  | (key, vals) :: rest =>
      let* found := opt_in (parent_prefix_id d) key in
      if negb found then drive_loop rest d
      else let values := registry_values vals in
           drive_loop rest (set_drive_letter (dict_get "FriendlyName" values) d)
  end.

(** [__set_drive_letters] *)
Definition set_drive_letters (portable : list (string * list (string * string)))
  (usb_devices : list USBDeviceWindows) : result (list USBDeviceWindows) :=
  map_result (drive_loop portable) usb_devices.

(** [xs[-n]] for [n >= 1]. *)
Definition get_item_from_end {A} (xs : list A) (n : nat) : result A :=
  if (length xs <? n)%nat then Raise IndexError
  else Py.get_item xs (length xs - n).

(** The body of the loop over the sections of one log file in
    [__set_first_connect_dates]. *)
Definition add_install_time (time_dict : list (string * datetime))
  (section : list string) : result (list (string * datetime)) :=
  let* s0 := Py.get_item section 0 in
  let* slast := Py.last_item section in
  if Py.contains "Device Install " s0 && Py.contains "SUCCESS" slast then
    let* s2 := get_item_from_end section 2 in
    let install_time := Py.last_n 2 (Py.split_ws s2) in
    let install_time := Py.join " " install_time in
    let install_time := hd EmptyString (Py.split_on "." install_time) in
    let* install_time := strptime_ymd_hms install_time in
    Ok (dict_set s0 install_time time_dict)
  else Ok time_dict.

(** The [time_dict] of [__set_first_connect_dates], the setupapi logs given
    as their lines in the order [glob] lists them.  The [for] loop runs over
    the sections the generator yields; an exception ending the generator
    then propagates. *)
Definition install_time_dict (logs : list (list string))
  : result (list (string * datetime)) :=
  fold_left (fun acc lines =>
               let* td := acc in
               let (sections, e) := parse_windows_log lines in
               let* td := fold_left (fun acc s => let* td := acc in
                                                  add_install_time td s)
                                    sections (Ok td) in
               match e with Finished => Ok td | Raised ex => Raise ex end)
            logs (Ok []).

(** [for key, install_time in time_dict.items(): ...] *)
Fixpoint first_date_loop (items : list (string * datetime)) (d : USBDeviceWindows)
  : result USBDeviceWindows :=
  match items with
  | [] => Ok d
  | (key, install_time) :: rest =>
      let* found := opt_in (serial_number (w_base d)) key in
      if found
      then first_date_loop rest
             (with_base (set_first_connect_date (Some install_time) (base d)) d)
      else first_date_loop rest d
  end.

(** [__set_first_connect_dates] *)
Definition set_first_connect_dates (logs : list (list string))
  (usb_devices : list USBDeviceWindows) : result (list USBDeviceWindows) :=
  let* time_dict := install_time_dict logs in
  map_result (first_date_loop time_dict) usb_devices.

End WindowsViewer.

(* ------------------------------------------------------------------ *)
(** ** Matching entries of the Windows correlation passes *)

(** The last element of a list, if any. *)
Definition last_opt {A} (xs : list A) : option A :=
  match rev xs with x :: _ => Some x | [] => None end.

(** The keys of [USB] that [__set_vendor_and_product_ids] files under the
    serial number [sn], in scan order. *)
Definition usb_candidates (sn : string) (usb : list (string * list string))
  : list (string * list string) :=
  filter (fun '(device_id, subkeys) =>
            Py.contains "VID" device_id && Py.contains "PID" device_id &&
            match subkeys with s0 :: _ => String.eqb s0 sn | [] => false end) usb.

(** The [MountedDevices] values from which [__set_guids] takes a GUID for a
    device with parent prefix id [p], in scan order. *)
Definition guid_candidates (p : string) (mounted : list (string * list Byte.byte))
  : list (string * list Byte.byte) :=
  filter (fun '(key, value) =>
            Py.contains p (convert_binary_to_ascii_string value) &&
            Py.contains "\Volume" key) mounted.

(** The [Portable Devices] keys from which [__set_drive_letters] takes a
    drive name for a device with parent prefix id [p], in scan order. *)
Definition drive_candidates (p : string)
  (portable : list (string * list (string * string)))
  : list (string * list (string * string)) :=
  filter (fun '(key, _) => Py.contains p key) portable.

(* ------------------------------------------------------------------ *)
(** ** Sample registry and log data *)

(** A [REG_BINARY] value holding a string in UTF-16LE, as the values under
    [MountedDevices] do. *)
Definition utf16le (s : string) : list Byte.byte :=
  flat_map (fun b => [b; Byte.x00]) (list_byte_of_string s).

(** A device subkey [1234&0] of [USBSTOR\Disk&Ven_Kingston&Prod_DataTraveler&Rev_1.00]
    without a [ParentPrefixId] value. *)
Definition sample_device : USBDeviceWindows :=
  WindowsViewer.device_record "Kingston" "DataTraveler" "1.00" "1234&0" [].

(** Three [USB] keys, two of which have the subkey [1234]. *)
Definition sample_usb : list (string * list string) :=
  [("VID_0951&PID_1666", ["1234"]); ("VID_0781&PID_5567", ["9999"]);
   ("VID_090C&PID_1000", ["1234"])].

(** A drive-letter value and two volume values for the same device. *)
Definition sample_mounted : list (string * list Byte.byte) :=
  [("\DosDevices\E:", utf16le "_??_USBSTOR#Disk&Ven_Kingston#1234&0#{53f56307}");
   ("\??\Volume{11111111-aaaa}", utf16le "_??_USBSTOR#Disk&Ven_Kingston#1234&0#{53f56307}");
   ("\??\Volume{22222222-bbbb}", utf16le "_??_USBSTOR#Disk&Ven_Kingston#1234&0#{53f56307}")].

(** Two [Portable Devices] keys for the same device. *)
Definition sample_portable : list (string * list (string * string)) :=
  [("SWD#WPDBUSENUM#_??_USBSTOR#Disk&Ven_Kingston#1234&0#{53f56307}",
    [("FriendlyName", "KINGSTON (E:)")]);
   ("SWD#WPDBUSENUM#{a1}#0000000000007E00#1234&0",
    [("FriendlyName", "KINGSTON (F:)")])].

(** A successful device-install section of a setupapi log for the device
    [hdr], ending on [2023/day] at 10:00:01. *)
Definition setupapi_section (hdr day : string) : list string :=
  [">>>  [Device Install (Hardware initiated) - " ++ hdr ++ "]";
   ">>>  Section start 2023/" ++ day ++ " 10:00:00.123";
   "     dvi: body";
   "<<<  Section end 2023/" ++ day ++ " 10:00:01.456";
   "<<<  [Exit status: SUCCESS]"].

Definition sample_usbstor_header : string :=
  "USBSTOR\Disk&Ven_Kingston&Prod_DataTraveler&Rev_1.00\1234&0".

Definition sample_usb_header : string := "USB\VID_090C&PID_1000\1234".

(** The device installed on January 1, again through its [USB] key on
    February 1, and again through its [USBSTOR] key on March 1. *)
Definition sample_setupapi_log : list string :=
  (setupapi_section sample_usbstor_header "01/01" ++
   setupapi_section sample_usb_header "02/01" ++
   setupapi_section sample_usbstor_header "03/01")%list.

(* ------------------------------------------------------------------ *)
(** ** [get_device_info_from_web] and [BaseViewer._set_devices_info] *)

Module Web.

(** The double quote and ['>\n'], written with their codes. *)
Definition dq : string := String (ascii_of_nat 34) EmptyString.

Definition gt_newline : string := String ">" (String (ascii_of_nat 10) EmptyString).

(** The page that stands in for the response when [urlopen] fails with
    [URLError]: [{ "vendor" : "Error to fetch",  "device" : "Error to fetch"}]. *)
Definition error_html : string :=
  "{ " ++ dq ++ "vendor" ++ dq ++ " : " ++ dq ++ "Error to fetch" ++ dq ++ ",  "
  ++ dq ++ "device" ++ dq ++ " : " ++ dq ++ "Error to fetch" ++ dq ++ "}".

(** The text of the heading after [marker], or [None] when [marker] is not
    in the page. *)
Definition extract_heading (html marker : string) : option string :=
  let start := Py.find html marker in
  if (start =? -1)%Z then None
  else
    let start := (Py.find_from html "details__heading" (Z.to_nat start) + 17)%Z in
    let end_ := Py.find_from html "<" (Z.to_nat start) in
    Some (Py.replace (Py.strip (Py.slice html start end_)) gt_newline "").

Section Lookup.

(** [urlopen(url)] for the devicehunt page of a vendor and product id,
    followed by [response.read().decode('utf-8')]: the page text, or the
    exception one of these steps raises. *)
Variable fetch : string -> string -> result string.

(** [get_device_info_from_web] *)
Definition get_device_info_from_web (vendor_id product_id : string)
  (max_attempts : Z) : result (option string * option string) :=
  if (max_attempts <=? 0)%Z then Ok (None, None)
  else
    let* html := match fetch vendor_id product_id with
                 | Ok h => Ok h
                 | Raise e => if is_URLError e then Ok error_html else Raise e
                 end in
    Ok (extract_heading html "--type-vendor", extract_heading html "--type-device").

Context {D : Type} `{HasBase D}.

(** The loop body of [_set_devices_info]. *)
Definition set_device_info (device : D) : result D :=
  match vendor_id (base device), product_id (base device) with
  | Some v, Some p =>
      let* info := get_device_info_from_web v p 3 in
      let (vendor_name, product_description) := info in
      Ok (with_base (set_vendor_info vendor_name product_description (base device))
                    device)
  | _, _ => Ok device
  end.

(** [_set_devices_info]: the devices after the loop, or the exception that
    leaves it. *)
Definition set_devices_info (usb_devices : list D) : result (list D) :=
  WindowsViewer.map_result set_device_info usb_devices.

End Lookup.

End Web.

(* ------------------------------------------------------------------ *)
(** ** [convert_windows_time_to_unix] over binary64 *)

(** Python floats are IEEE binary64.  A finite double is written as
    [(m, e)] for the value [m * 2^e]; no value met here overflows or is
    subnormal, so only the 53-bit significand and round-to-nearest-even
    matter. *)
Module Float64.

(** [n / d] rounded to the nearest integer, ties to even ([d > 0]). *)
Definition round_half_even_div (n d : Z) : Z :=
  let q := (n / d)%Z in
  match Z.compare (2 * (n mod d))%Z d with
  | Lt => q
  | Gt => (q + 1)%Z
  | Eq => if Z.even q then q else (q + 1)%Z
  end.

(** The double nearest to the rational [n / d] ([d > 0]), ties to even: the
    exponent [e] puts [|n| / (d * 2^e)] in [[2^52, 2^53)]. *)
Definition of_ratio (n d : Z) : Z * Z :=
  if (n =? 0)%Z then (0%Z, 0%Z)
  else
    let a := Z.abs n in
    let e0 := (Z.log2 a - Z.log2 d - 53)%Z in
    let e := if (2 ^ 53 * d * 2 ^ Z.max 0 e0 <=? a * 2 ^ Z.max 0 (- e0))%Z
             then (e0 + 1)%Z else e0 in
    ((Z.sgn n * round_half_even_div (a * 2 ^ Z.max 0 (- e)) (d * 2 ^ Z.max 0 e))%Z, e).

(** The value of a double as a fraction with a positive denominator. *)
Definition to_ratio (x : Z * Z) : Z * Z :=
  let (m, e) := x in
  if (0 <=? e)%Z then ((m * 2 ^ e)%Z, 1%Z) else (m, (2 ^ (- e))%Z).

(** [a / b] on two [int]s: CPython rounds the exact quotient once. *)
Definition true_div (a b : Z) : Z * Z := of_ratio a b.

(** [x - c] for a double [x] and an [int] [c] below [2^53], which converts
    to a double exactly: the exact difference rounded once. *)
Definition sub_int (x : Z * Z) (c : Z) : Z * Z :=
  let (n, d) := to_ratio x in of_ratio (n - c * d)%Z d.

(** [int(x)]: truncation toward zero. *)
Definition trunc (x : Z * Z) : Z :=
  let (n, d) := to_ratio x in Z.quot n d.

End Float64.

(** [convert_windows_time_to_unix] *)
Definition convert_windows_time_to_unix (windows_timestamp : Z) : Z :=
  let windows_tick := 10000000%Z in
  let seconds_to_unix_epoch := 11644473600%Z in
  Float64.trunc (Float64.sub_int (Float64.true_div windows_timestamp windows_tick)
                                 seconds_to_unix_epoch).

(* ------------------------------------------------------------------ *)
(** ** The last-connect pass and the two scans *)

(** A string whose characters all have codes 1 to 127. *)
Definition is_ascii_text (s : string) : bool :=
  forallb (fun c => (0 <? nat_of_ascii c)%nat && (nat_of_ascii c <? 128)%nat)
          (list_ascii_of_string s).

Module WindowsViewerScan.

(** [__get_registry_timestamp], given the last-write time of the key
    ([QueryInfoKey(key)[2]], a FILETIME). *)
Definition get_registry_timestamp (last_write_time : Z) : Z :=
  convert_windows_time_to_unix last_write_time.

Section Scan.

(** [datetime.fromtimestamp]: the local time of a unix timestamp, which
    depends on the time zone and may raise. *)
Variable fromtimestamp : Z -> result datetime.

(** [for guid in guids: ...] of [__set_last_connect_dates], each subkey of
    [MountPoints2] given with the last-write time of its key. *)
Fixpoint last_date_loop (guids : list (string * Z)) (d : USBDeviceWindows)
  : result USBDeviceWindows :=
  match guids with
  | [] => Ok d
  | (g, last_write_time) :: rest =>
      if negb (opt_str_eqb (guid d) (Some g)) then last_date_loop rest d
      else
        let timestamp := get_registry_timestamp last_write_time in
        let* t := fromtimestamp timestamp in
        last_date_loop rest (with_base (set_last_connect_date (Some t) (base d)) d)
  end.

(** [__set_last_connect_dates] *)
Definition set_last_connect_dates (mount_points : list (string * Z))
  (usb_devices : list USBDeviceWindows) : result (list USBDeviceWindows) :=
  WindowsViewer.map_result (last_date_loop mount_points) usb_devices.

Variable fetch : string -> string -> result string.

(** [WindowsViewer.get_usb_devices]: the registry of the machine, the
    [MountPoints2] subkeys of the user, and the setupapi logs. *)
Definition get_usb_devices (reg : Registry) (mount_points : list (string * Z))
  (logs : list (list string)) : result (list USBDeviceWindows) :=
  let usb_devices := WindowsViewer.get_base_device_info (reg_usbstor reg) in
  let* usb_devices := WindowsViewer.set_vendor_and_product_ids (reg_usb reg) usb_devices in
  let* usb_devices := WindowsViewer.set_guids (reg_mounted_devices reg) usb_devices in
  let* usb_devices := WindowsViewer.set_drive_letters (reg_portable_devices reg) usb_devices in
  let* usb_devices := WindowsViewer.set_first_connect_dates logs usb_devices in
  let* usb_devices := set_last_connect_dates mount_points usb_devices in
  Web.set_devices_info fetch usb_devices.

End Scan.

End WindowsViewerScan.

Module LinuxViewerScan.

Section Scan.

Variable get_device_connect_time : string -> Z -> result datetime.

Variable fetch : string -> string -> result string.

(** [LinuxViewer.get_usb_devices] on the syslog files in the order they are
    read. *)
Definition get_usb_devices (files : list (list string * Z))
  : result (list USBDeviceLinux) :=
  let* usb_devices := LinuxViewer.get_base_device_info get_device_connect_time files in
  Web.set_devices_info fetch usb_devices.

End Scan.

End LinuxViewerScan.

(* ------------------------------------------------------------------ *)
(** ** Buffers of the two log readers *)

(** The buffer of [parse_windows_log_file] is empty or opens with two
    start-marker lines. *)
Definition win_buffer_ok (ls : list string) : Prop :=
  ls = [] \/ exists s1 s2 r, ls = s1 :: s2 :: r /\
                  Py.startswith ">>>" s1 = true /\ Py.startswith ">>>" s2 = true.

Definition win_section_shape (sec : list string) : Prop :=
  exists s1 s2 body e1 e2,
    sec = ([s1; s2] ++ body ++ [e1; e2])%list /\
    Py.startswith ">>>" s1 = true /\ Py.startswith ">>>" s2 = true /\
    Py.startswith "<<<" e1 = true /\ Py.startswith "<<<" e2 = true.

(** The buffer of [parse_linux_log_file] is empty or opens with an
    announcement line. *)
Definition linux_buffer_ok (ls : list string) : Prop :=
  ls = [] \/ exists first r, ls = first :: r /\
                  Py.contains "New USB device found" first = true.

(** The [time_dict] entries from which [__set_first_connect_dates] takes a
    first connect date for the serial number [sn], in dict order. *)
Definition time_candidates (sn : string) (time_dict : list (string * datetime))
  : list (string * datetime) :=
  filter (fun '(key, _) => Py.contains sn key) time_dict.

(** The fields of a Windows record that come from its [USBSTOR] key: serial
    number, version, friendly name, vendor, product and parent prefix id. *)
Definition identity_fields (d : USBDeviceWindows)
  : option string * option string * option string * option string *
    option string * option string :=
  (serial_number (w_base d), version (w_base d), friendly_name (w_base d),
   usbstor_vendor d, usbstor_product d, parent_prefix_id d).

(** Strings made only of white space, strings without white space, and
    strings whose first character is not white space ([str.isspace]). *)
Definition all_space (s : string) : bool :=
  forallb Py.is_space (list_ascii_of_string s).

Definition no_space (s : string) : bool :=
  forallb (fun c => negb (Py.is_space c)) (list_ascii_of_string s).

Definition starts_non_space (s : string) : bool :=
  match s with String c _ => negb (Py.is_space c) | EmptyString => false end.

(** A section that [add_install_time] files under its header line [k]: it
    starts with [k], [k] holds [Device Install ] and its last line holds
    [SUCCESS]. *)
Definition installed_header (sec : list string) (k : string) : Prop :=
  hd_error sec = Some k /\ Py.contains "Device Install " k = true /\
  exists l, Py.last_item sec = Ok l /\ Py.contains "SUCCESS" l = true.

(** A record with its two looked-up fields, [vendor_name] and
    [product_description], reset to [None]. *)
Definition without_info {D} `{HasBase D} (d : D) : D :=
  with_base (set_vendor_info None None (base d)) d.

(** A syslog session of a USB drive on January 1 at [hh]:00:00, on port
    [port], with vendor id [vid] and serial number [sn], mounted as [dev]. *)
Definition syslog_session (hh port vid sn dev : string) : list string :=
  ["Jan  1 " ++ hh ++ ":00:00 host kernel: usb " ++ port ++
     ": New USB device found, idVendor=" ++ vid ++ ", idProduct=5567, bcdDevice= 1.00";
   "Jan  1 " ++ hh ++ ":00:00 host kernel: usb " ++ port ++ ": SerialNumber: " ++ sn;
   "Jan  1 " ++ hh ++ ":00:02 host udisksd: Mounted /dev/" ++ dev].

(** Three sessions: the drive [AAAA] at 10:00, the drive [BBBB] at 11:00 and
    the drive [AAAA] again at 12:00. *)
Definition sample_syslog : list string :=
  (syslog_session "10" "1-1" "0781" "AAAA" "sdb1" ++
   syslog_session "11" "1-2" "090c" "BBBB" "sdc1" ++
   syslog_session "12" "1-1" "0781" "AAAA" "sdb1")%list.

(** A stand-in for [__get_device_connect_time] on the sample: January 1 of
    [year], at the hour of the time stamp. *)
Definition sample_connect_time (line : string) (year : Z) : result datetime :=
  Ok (mkdatetime year 1 1
        (if Py.contains " 10:" line then 10 else if Py.contains " 11:" line then 11 else 12)
        0 0).

(** The records built from the first two sessions of [sample_syslog]. *)
Definition sample_linux_devs : list USBDeviceLinux :=
  match LinuxViewer.get_base_device_info sample_connect_time
          [(firstn 6 sample_syslog, 2023%Z)] with
  | Ok devs => devs
  | Raise _ => []
  end.

(** Two [USB] keys filed under the serial number [1234]; the name of the
    second one has no ['&']. *)
Definition sample_usb_no_amp : list (string * list string) :=
  [("VID_0951&PID_1666", ["1234"]); ("VID_090C_PID_1000", ["1234"])].

(** Two volume values for the device [1234&0]; the name of the second one
    has no ['{']. *)
Definition sample_mounted_no_brace : list (string * list Byte.byte) :=
  [("\??\Volume{11111111-aaaa}", utf16le "_??_USBSTOR#Disk&Ven_Kingston#1234&0#{53f56307}");
   ("\??\Volume-22222222-bbbb", utf16le "_??_USBSTOR#Disk&Ven_Kingston#1234&0#{53f56307}")].

(* ================================================================== *)
(** * Theorems *)

Example win_log_ex :
  parse_windows_log [">>>  [Device Install"; ">>>  Section start"; "body";
                     "<<<  Section end"; "<<<  [Exit status: SUCCESS]"; "x"]
  = ([[">>>  [Device Install"; ">>>  Section start"; "body";
       "<<<  Section end"; "<<<  [Exit status: SUCCESS]"]], Finished).
Proof. reflexivity. Qed.

Example linux_log_ex :
  parse_linux_log ["a New USB device found, idVendor=1"; "SerialNumber: X";
                   "Mounted /dev/sdb1"]
  = [["a New USB device found, idVendor=1"; "SerialNumber: X";
      "Mounted /dev/sdb1"]].
Proof. reflexivity. Qed.

(* ------------------------------------------------------------------ *)
(** ** The Windows section extractor *)

Section WindowsLog.

Lemma parse_windows_body (body rest log_section : list string) :
  log_section <> [] ->
  Forall (fun l => Py.startswith "<<<" l = false) body ->
  parse_windows_log_file log_section (body ++ rest)
  = parse_windows_log_file (log_section ++ body) rest.
Proof.
  intros Hne Hb. revert log_section Hne.
  induction Hb as [|l body Hl Hb IH]; intros log_section Hne.
  - now rewrite app_nil_r.
  - simpl.
    assert (Hlen : Nat.eqb (length log_section) 0 = false /\
                   Nat.ltb 0 (length log_section) = true).
    { destruct log_section; [congruence|]. split; reflexivity. }
    destruct Hlen as [-> ->]. rewrite Hl. simpl.
    rewrite IH by (intros H; apply app_eq_nil in H; destruct H; congruence).
    now rewrite <- app_assoc.
Qed.

Lemma parse_windows_block (b rest : list string) :
  win_block b ->
  parse_windows_log_file [] (b ++ rest)
  = (b :: fst (parse_windows_log_file [] rest),
     snd (parse_windows_log_file [] rest)).
Proof.
  intros (s1 & s2 & body & e1 & e2 & -> & Hs1 & Hs2 & He1 & He2 & Hb).
  simpl. rewrite Hs1, Hs2. simpl.
  rewrite <- app_assoc.
  rewrite parse_windows_body by (discriminate || assumption).
  simpl. rewrite He1, He2. simpl.
  destruct (parse_windows_log_file [] rest) as [ys e]. simpl.
  now rewrite ?app_assoc.
Qed.

Lemma parse_windows_blocks (bs : list (list string)) (rest : list string) :
  Forall win_block bs ->
  parse_windows_log_file [] (concat bs ++ rest)
  = (bs ++ fst (parse_windows_log_file [] rest),
     snd (parse_windows_log_file [] rest))%list.
Proof.
  induction 1 as [|b bs Hb Hbs IH].
  - simpl. now destruct (parse_windows_log_file [] rest).
  - simpl. rewrite <- app_assoc, parse_windows_block by assumption.
    now rewrite IH.
Qed.

End WindowsLog.

(** Claim C2: on a stream made only of well-formed doubled-marker sections,
    [parse_windows_log_file] yields exactly those sections, one per pair of
    doubled markers, each holding its two start-marker lines, the lines in
    between in order and its two end-marker lines, and it ends normally. *)
Theorem parse_windows_log_sections (bs : list (list string)) :
  Forall win_block bs ->
  parse_windows_log (concat bs) = (bs, Finished).
Proof.
  intros H. unfold parse_windows_log.
  rewrite <- (app_nil_r (concat bs)), parse_windows_blocks by exact H.
  simpl. now rewrite app_nil_r.
Qed.

Lemma parse_windows_log_sections_witness :
  Forall win_block [[">>> a"; ">>> b"; "body"; "<<< c"; "<<< d"]] /\
  parse_windows_log (concat [[">>> a"; ">>> b"; "body"; "<<< c"; "<<< d"]])
  = ([[">>> a"; ">>> b"; "body"; "<<< c"; "<<< d"]], Finished).
Proof.
  assert (Hw : Forall win_block [[">>> a"; ">>> b"; "body"; "<<< c"; "<<< d"]]).
  { constructor; [|constructor].
    exists ">>> a", ">>> b", ["body"], "<<< c", "<<< d".
    repeat split; repeat constructor. }
  split; [exact Hw|].
  apply parse_windows_log_sections. exact Hw.
Defined.

(** Claim C10: the doubled-marker lookahead [next(log_file)] is unguarded.
    When the stream ends right after a line starting with [>>>] read while no
    section is open, or right after a line starting with [<<<] read inside a
    section, the generator stops with [RuntimeError] (the [StopIteration] of
    [next] converted by the interpreter) instead of ending normally; in
    particular a stream of well-formed sections followed by one [>>>] line
    yields those sections and then raises. *)
Theorem parse_windows_log_eof_after_marker :
  (forall log_section line,
     (log_section = [] /\ Py.startswith ">>>" line = true) \/
     (log_section <> [] /\ Py.startswith "<<<" line = true) ->
     parse_windows_log_file log_section [line] = ([], Raised RuntimeError)) /\
  (forall bs line,
     Forall win_block bs -> Py.startswith ">>>" line = true ->
     parse_windows_log (concat bs ++ [line]) = (bs, Raised RuntimeError)).
Proof.
  assert (Hstep : forall log_section line,
     (log_section = [] /\ Py.startswith ">>>" line = true) \/
     (log_section <> [] /\ Py.startswith "<<<" line = true) ->
     parse_windows_log_file log_section [line] = ([], Raised RuntimeError)).
  { intros log_section line [[-> H] | [Hne H]]; simpl.
    - now rewrite H.
    - destruct log_section as [|x xs]; [congruence|]. simpl. now rewrite H. }
  split; [exact Hstep|].
  intros bs line Hbs Hl. unfold parse_windows_log.
  rewrite parse_windows_blocks by exact Hbs.
  rewrite Hstep by (left; split; [reflexivity | exact Hl]).
  simpl. now rewrite app_nil_r.
Qed.

Lemma parse_windows_log_eof_after_marker_witness :
  ([] : list string) = [] /\ Py.startswith ">>>" ">>> [Device Install" = true /\
  parse_windows_log_file [] [">>> [Device Install"] = ([], Raised RuntimeError).
Proof.
  split; [reflexivity|]. split; [reflexivity|].
  apply (proj1 parse_windows_log_eof_after_marker).
  left. split; reflexivity.
Defined.

(* ------------------------------------------------------------------ *)
(** ** The Linux section extractor *)

(** A "New USB device found" line read while a section is open restarts the
    buffer with that line, and then the fall-through [if len(section) > 0]
    appends it a second time. *)
Lemma parse_linux_restart (section rest : list string) (line : string) :
  section <> [] ->
  Py.contains "New USB device found" line = true ->
  Py.contains "Mounted /dev/sd" line = false ->
  parse_linux_log_file section (line :: rest)
  = parse_linux_log_file [line; line] rest.
Proof.
  intros Hne Hn Hm. simpl. rewrite Hn.
  destruct section as [|x xs]; [congruence|]. simpl. now rewrite Hm.
Qed.

(** Claim C3: two consecutive announcements followed by a mount line.  The
    first announcement yields nothing and the second yields one section, but
    that section starts with the second announcement line twice. *)
Theorem parse_linux_log_two_announcements :
  parse_linux_log ["Jan  1 10:00:00 host kernel: usb 1-1: New USB device found, idVendor=0781";
                   "Jan  1 10:00:05 host kernel: usb 1-2: New USB device found, idVendor=090c";
                   "Jan  1 10:00:09 host udisksd: Mounted /dev/sdb1 at /media/usb"]
  = [["Jan  1 10:00:05 host kernel: usb 1-2: New USB device found, idVendor=090c";
      "Jan  1 10:00:05 host kernel: usb 1-2: New USB device found, idVendor=090c";
      "Jan  1 10:00:09 host udisksd: Mounted /dev/sdb1 at /media/usb"]].
Proof. reflexivity. Qed.

(* ------------------------------------------------------------------ *)
(** ** String facts *)

Lemma substring_0_length (s : string) : substring 0 (String.length s) s = s.
Proof. induction s as [|c s IH]; simpl; congruence. Qed.

Lemma prefix_append (s t : string) : String.prefix s (s ++ t) = true.
Proof.
  induction s as [|c s IH]; [destruct t; reflexivity|]. simpl.
  destruct (ascii_dec c c); [exact IH | congruence].
Qed.

Lemma length_append (s t : string) :
  String.length (s ++ t) = String.length s + String.length t.
Proof. induction s as [|c s IH]; simpl; congruence. Qed.

Lemma substring_append (s t : string) :
  substring (String.length s) (String.length (s ++ t) - String.length s) (s ++ t)
  = t.
Proof.
  rewrite length_append, Nat.add_comm, Nat.add_sub.
  induction s as [|c s IH]; simpl; [|exact IH].
  apply substring_0_length.
Qed.

Lemma find0_None_cons (sub : string) (c : ascii) (s : string) :
  Py.find0 sub (String c s) = None ->
  String.prefix sub (String c s) = false /\ Py.find0 sub s = None.
Proof.
  intros H.
  change (Py.find0 sub (String c s)) with
    (if String.prefix sub (String c s) then Some 0
     else option_map S (Py.find0 sub s)) in H.
  destruct (String.prefix sub (String c s)); [discriminate|].
  destruct (Py.find0 sub s); [discriminate|]. auto.
Qed.

Lemma replace_fuel_absent (n : nat) (old new s : string) :
  Py.find0 old s = None -> Py.replace_fuel n old new s = s.
Proof.
  revert s; induction n as [|n IH]; intros s H; [reflexivity|].
  destruct s as [|c s].
  - cbn [Py.find0] in H. cbn [Py.replace_fuel].
    destruct (String.prefix old ""); [discriminate|reflexivity].
  - apply find0_None_cons in H. destruct H as [Hp Hs].
    cbn [Py.replace_fuel]. rewrite Hp. f_equal. now apply IH.
Qed.

Lemma replace_leading (old v : string) :
  Py.contains old v = false -> Py.replace (old ++ v) old "" = v.
Proof.
  unfold Py.contains, Py.replace. intros H. cbn [Py.replace_fuel].
  rewrite prefix_append, substring_append. cbn [String.append].
  apply replace_fuel_absent.
  destruct (Py.find0 old v); [discriminate|reflexivity].
Qed.

Lemma split_on_amp_append (a w : string) :
  Py.contains "&" a = false ->
  Py.split_on "&" (a ++ String "&" w) = a :: Py.split_on "&" w.
Proof.
  unfold Py.contains. induction a as [|c a IH]; intros H; [reflexivity|].
  destruct (Py.find0 "&" (String c a)) eqn:E; [discriminate|].
  apply find0_None_cons in E. destruct E as [Hp Ha].
  assert (Hneq : Ascii.eqb c "&" = false).
  { apply Ascii.eqb_neq. intros ->.
    change (String "&" a) with ("&" ++ a) in Hp.
    rewrite prefix_append in Hp. discriminate. }
  simpl. rewrite Hneq, IH by now rewrite Ha. reflexivity.
Qed.

Lemma append_assoc_str (a b c : string) : (a ++ b) ++ c = a ++ (b ++ c).
Proof. induction a as [|x a IH]; simpl; congruence. Qed.

Lemma contains_char_append (c : ascii) (a b : string) :
  Py.contains (String c "") a = false -> Py.contains (String c "") b = false ->
  Py.contains (String c "") (a ++ b) = false.
Proof.
  unfold Py.contains. induction a as [|x a IH]; intros Ha Hb; [exact Hb|].
  destruct (Py.find0 (String c "") (String x a)) eqn:E; [discriminate|].
  apply find0_None_cons in E. destruct E as [Hp Ha'].
  cbn [String.append].
  change (Py.find0 (String c "") (String x (a ++ b))) with
    (if String.prefix (String c "") (String x (a ++ b)) then Some 0
     else option_map S (Py.find0 (String c "") (a ++ b))).
  assert (Hp' : String.prefix (String c "") (String x (a ++ b)) = false).
  { simpl in Hp |- *. destruct (ascii_dec c x); [|reflexivity].
    destruct a; simpl in Hp; discriminate. }
  rewrite Hp'.
  specialize (IH (ltac:(now rewrite Ha')) Hb).
  destruct (Py.find0 (String c "") (a ++ b)); [discriminate|reflexivity].
Qed.

Lemma split_on_amp_single (a : string) :
  Py.contains "&" a = false -> Py.split_on "&" a = [a].
Proof.
  unfold Py.contains. induction a as [|c a IH]; intros H; [reflexivity|].
  destruct (Py.find0 "&" (String c a)) eqn:E; [discriminate|].
  apply find0_None_cons in E. destruct E as [Hp Ha].
  assert (Hneq : Ascii.eqb c "&" = false).
  { apply Ascii.eqb_neq. intros ->.
    change (String "&" a) with ("&" ++ a) in Hp.
    rewrite prefix_append in Hp. discriminate. }
  simpl. rewrite Hneq, IH by now rewrite Ha. reflexivity.
Qed.

(* ------------------------------------------------------------------ *)
(** ** Record bookkeeping on the Linux path *)

Lemma opt_str_eqb_eq (a b : option string) : opt_str_eqb a b = true <-> a = b.
Proof.
  destruct a as [x|], b as [y|]; simpl; split; intros H; try congruence.
  - apply String.eqb_eq in H. now subst.
  - inversion H; subst. apply String.eqb_refl.
Qed.

Lemma update_nth_length {A} (i : nat) (f : A -> A) (xs : list A) :
  length (update_nth i f xs) = length xs.
Proof.
  revert i; induction xs as [|x xs IH]; intros [|i]; simpl; auto.
Qed.

Lemma nth_error_update_nth {A} (i j : nat) (f : A -> A) (xs : list A) :
  nth_error (update_nth i f xs) j
  = if Nat.eqb j i then option_map f (nth_error xs j) else nth_error xs j.
Proof.
  revert i j; induction xs as [|x xs IH]; intros [|i] [|j]; simpl;
    try reflexivity; try (destruct (Nat.eqb j i); reflexivity).
  apply IH.
Qed.

Lemma map_update_nth {A B} (g : A -> B) (i : nat) (f : A -> A) (xs : list A) :
  (forall x, g (f x) = g x) -> map g (update_nth i f xs) = map g xs.
Proof.
  intros Hg. revert i; induction xs as [|x xs IH]; intros [|i]; simpl;
    rewrite ?Hg, ?IH; auto.
Qed.

Lemma NoDup_somes {A} (xs : list (option A)) : NoDup xs -> NoDup (somes xs).
Proof.
  induction 1 as [|[x|] xs Hnin Hnd IH]; simpl; try constructor; auto.
  intros Hin. apply Hnin. clear -Hin. induction xs as [|[y|] xs IHx]; simpl in *.
  - contradiction.
  - destruct Hin as [-> | Hin]; auto.
  - auto.
Qed.

Module LinuxFacts.
Import LinuxViewer.

Definition serials (devs : list USBDeviceLinux) : list (option string) :=
  map (fun d => serial_number (l_base d)) devs.

Lemma get_device_if_exist_None (devs : list USBDeviceLinux) (s : option string) :
  get_device_if_exist devs s = None ->
  Forall (fun d => serial_number (l_base d) <> s) devs.
Proof.
  induction devs as [|d ds IH]; simpl; intros H; constructor.
  - destruct (opt_str_eqb (serial_number (l_base d)) s) eqn:E; [discriminate|].
    intros Heq. apply opt_str_eqb_eq in Heq. congruence.
  - apply IH. destruct (opt_str_eqb _ s); [discriminate|].
    destruct (get_device_if_exist ds s); [discriminate|reflexivity].
Qed.

Lemma get_device_if_exist_Some (devs : list USBDeviceLinux) (s : option string)
  (i : nat) :
  get_device_if_exist devs s = Some i ->
  exists d, nth_error devs i = Some d /\ serial_number (l_base d) = s /\
    (forall j d', j < i -> nth_error devs j = Some d' ->
                  serial_number (l_base d') <> s).
Proof.
  revert i; induction devs as [|d ds IH]; simpl; intros i H; [discriminate|].
  destruct (opt_str_eqb (serial_number (l_base d)) s) eqn:E.
  - inversion H; subst. exists d. split; [reflexivity|].
    split; [now apply opt_str_eqb_eq|]. intros j d' Hj. lia.
  - destruct (get_device_if_exist ds s) as [k|] eqn:Ek; [|discriminate].
    inversion H; subst. destruct (IH k eq_refl) as (d0 & Hn & Hs & Hbefore).
    exists d0. split; [exact Hn|]. split; [exact Hs|].
    intros [|j] d' Hj Hj'.
    + inversion Hj'; subst. intros Heq. apply opt_str_eqb_eq in Heq. congruence.
    + apply (Hbefore j d'); [lia | exact Hj'].
Qed.

Lemma serial_in_serials (devs : list USBDeviceLinux) (s : option string) :
  Forall (fun d => serial_number (l_base d) <> s) devs -> ~ In s (serials devs).
Proof.
  unfold serials. intros H Hin. apply in_map_iff in Hin.
  destruct Hin as (d & Hd & Hin). rewrite Forall_forall in H.
  exact (H d Hin Hd).
Qed.

Section Viewer.
Variable get_device_connect_time : string -> Z -> result datetime.

Lemma add_section_serials_NoDup (devs devs' : list USBDeviceLinux)
  (sy : list string * Z) :
  NoDup (serials devs) ->
  add_section get_device_connect_time devs sy = Ok devs' ->
  NoDup (serials devs').
Proof.
  intros Hnd. destruct sy as [section year]. unfold add_section, bind.
  destruct (get_device_info_from_section section "SerialNumber:") as [sn|] eqn:Esn;
    [|discriminate].
  destruct (Py.get_item section 0) as [s0|]; [|discriminate].
  destruct (get_device_connect_time s0 year) as [t|]; [|discriminate].
  destruct (get_device_if_exist devs sn) as [i|] eqn:Ex.
  - intros Hok. inversion Hok; subst. unfold serials.
    rewrite map_update_nth by reflexivity. exact Hnd.
  - repeat match goal with
           | |- context [match ?m with Ok _ => _ | Raise _ => _ end] =>
               destruct m; [|discriminate]
           end.
    intros Hok. inversion Hok; subst. unfold serials. rewrite map_app. simpl.
    apply NoDup_app; [exact Hnd | repeat constructor; simpl; tauto |].
    intros x Hx [Hb | []]. subst x.
    apply (serial_in_serials devs sn); [now apply get_device_if_exist_None|].
    exact Hx.
Qed.

(** Claim C7: one iteration of the Linux correlation pass.  The serial number
    [sn] of the section is looked up by exact equality; when the first record
    carrying it is at position [i], the new list has the same length, differs
    from the old one only at [i], and there holds the same record with only
    [last_connect_date] replaced.  When no record carries [sn], the new list
    is the old one with one record of serial [sn] appended. *)
Theorem add_section_frame (devs devs' : list USBDeviceLinux) (section : list string)
  (year : Z) :
  add_section get_device_connect_time devs (section, year) = Ok devs' ->
  exists sn, get_device_info_from_section section "SerialNumber:" = Ok sn /\
  ((exists i d t,
       get_device_if_exist devs sn = Some i /\
       nth_error devs i = Some d /\ serial_number (l_base d) = sn /\
       (forall j d', j < i -> nth_error devs j = Some d' ->
                     serial_number (l_base d') <> sn) /\
       length devs' = length devs /\
       nth_error devs' i
         = Some (with_base (set_last_connect_date (Some t) (base d)) d) /\
       (forall j, j <> i -> nth_error devs' j = nth_error devs j)) \/
   (Forall (fun d => serial_number (l_base d) <> sn) devs /\
    exists d, devs' = (devs ++ [d])%list /\ serial_number (l_base d) = sn)).
Proof.
  unfold add_section, bind.
  destruct (get_device_info_from_section section "SerialNumber:") as [sn|] eqn:Esn;
    [|discriminate].
  destruct (Py.get_item section 0) as [s0|]; [|discriminate].
  destruct (get_device_connect_time s0 year) as [t|]; [|discriminate].
  destruct (get_device_if_exist devs sn) as [i|] eqn:Ex.
  - intros Hok. exists sn. split; [reflexivity|].
    inversion Hok; subst. left.
    destruct (get_device_if_exist_Some devs sn i Ex) as (d & Hn & Hs & Hb).
    exists i, d, t. repeat split; auto.
    + apply update_nth_length.
    + rewrite nth_error_update_nth, Nat.eqb_refl, Hn. reflexivity.
    + intros j Hj. rewrite nth_error_update_nth.
      apply Nat.eqb_neq in Hj. now rewrite Hj.
  - repeat match goal with
           | |- context [match ?m with Ok _ => _ | Raise _ => _ end] =>
               destruct m; [|discriminate]
           end.
    intros Hok. exists sn. split; [reflexivity|].
    inversion Hok; subst. right. split.
    + now apply get_device_if_exist_None.
    + eexists. split; [reflexivity|]. reflexivity.
Qed.

(** One section of the Linux pass in terms of serial numbers: it is merged
    into the first record carrying its serial number, which keeps every
    serial number in place, or it appends one record. *)
Lemma add_section_merge (devs devs' : list USBDeviceLinux) (section : list string)
  (year : Z) :
  add_section get_device_connect_time devs (section, year) = Ok devs' ->
  exists sn, get_device_info_from_section section "SerialNumber:" = Ok sn /\
  ((exists i d,
       nth_error devs i = Some d /\ serial_number (l_base d) = sn /\
       (forall j d', j < i -> nth_error devs j = Some d' ->
                     serial_number (l_base d') <> sn) /\
       serials devs' = serials devs /\
       (forall j, j <> i -> nth_error devs' j = nth_error devs j)) \/
   (Forall (fun d => serial_number (l_base d) <> sn) devs /\
    serials devs' = (serials devs ++ [sn])%list)).
Proof.
  unfold add_section, bind.
  destruct (get_device_info_from_section section "SerialNumber:") as [sn|] eqn:Esn;
    [|discriminate].
  destruct (Py.get_item section 0) as [s0|]; [|discriminate].
  destruct (get_device_connect_time s0 year) as [t|]; [|discriminate].
  destruct (get_device_if_exist devs sn) as [i|] eqn:Ex.
  - intros Hok. exists sn. split; [reflexivity|].
    inversion Hok; subst. left.
    destruct (get_device_if_exist_Some devs sn i Ex) as (d & Hn & Hs & Hb).
    exists i, d. repeat split; auto.
    + unfold serials. rewrite map_update_nth by reflexivity. reflexivity.
    + intros j Hj. rewrite nth_error_update_nth.
      apply Nat.eqb_neq in Hj. now rewrite Hj.
  - repeat match goal with
           | |- context [match ?m with Ok _ => _ | Raise _ => _ end] =>
               destruct m; [|discriminate]
           end.
    intros Hok. exists sn. split; [reflexivity|].
    inversion Hok; subst. right. split.
    + now apply get_device_if_exist_None.
    + unfold serials. rewrite map_app. reflexivity.
Qed.

Lemma get_base_device_info_NoDup (files : list (list string * Z))
  (devs : list USBDeviceLinux) :
  get_base_device_info get_device_connect_time files = Ok devs ->
  NoDup (serials devs).
Proof.
  unfold get_base_device_info.
  assert (Hgen : forall secs acc,
    (forall d0, acc = Ok d0 -> NoDup (serials d0)) ->
    fold_left (fun acc s => let* devs := acc in
                            add_section get_device_connect_time devs s)
              secs acc = Ok devs -> NoDup (serials devs)).
  { induction secs as [|s secs IH]; simpl; intros acc Hacc Hf.
    - now apply Hacc.
    - eapply IH; [|exact Hf].
      intros d0 Hd0. destruct acc as [d1|e]; simpl in Hd0; [|discriminate].
      apply (add_section_serials_NoDup d1 d0 s); [now apply Hacc | exact Hd0]. }
  apply Hgen. intros d0 Hd0. inversion Hd0. constructor.
Qed.

End Viewer.

(** On the two records of the first two sessions of [sample_syslog]: the
    third session carries the serial number [AAAA] of the first record, so
    only that record is updated; a session of a new drive [CCCC] appends a
    third record. *)
Lemma add_section_frame_witness :
  length sample_linux_devs = 2 /\
  get_device_if_exist sample_linux_devs (Some "AAAA") = Some 0 /\
  get_device_if_exist sample_linux_devs (Some "CCCC") = None /\
  (exists devs',
    add_section sample_connect_time sample_linux_devs
      (skipn 6 sample_syslog, 2023%Z) = Ok devs' /\
    exists sn, get_device_info_from_section (skipn 6 sample_syslog) "SerialNumber:" = Ok sn /\
      ((exists i d t,
          get_device_if_exist sample_linux_devs sn = Some i /\
          nth_error sample_linux_devs i = Some d /\ serial_number (l_base d) = sn /\
          (forall j d', j < i -> nth_error sample_linux_devs j = Some d' ->
                        serial_number (l_base d') <> sn) /\
          length devs' = length sample_linux_devs /\
          nth_error devs' i
            = Some (with_base (set_last_connect_date (Some t) (base d)) d) /\
          (forall j, j <> i -> nth_error devs' j = nth_error sample_linux_devs j)) \/
       (Forall (fun d => serial_number (l_base d) <> sn) sample_linux_devs /\
        exists d, devs' = (sample_linux_devs ++ [d])%list /\ serial_number (l_base d) = sn))) /\
  (exists devs',
    add_section sample_connect_time sample_linux_devs
      (syslog_session "13" "1-3" "0951" "CCCC" "sdd1", 2023%Z) = Ok devs' /\
    exists sn, get_device_info_from_section (syslog_session "13" "1-3" "0951" "CCCC" "sdd1") "SerialNumber:" = Ok sn /\
      ((exists i d t,
          get_device_if_exist sample_linux_devs sn = Some i /\
          nth_error sample_linux_devs i = Some d /\ serial_number (l_base d) = sn /\
          (forall j d', j < i -> nth_error sample_linux_devs j = Some d' ->
                        serial_number (l_base d') <> sn) /\
          length devs' = length sample_linux_devs /\
          nth_error devs' i
            = Some (with_base (set_last_connect_date (Some t) (base d)) d) /\
          (forall j, j <> i -> nth_error devs' j = nth_error sample_linux_devs j)) \/
       (Forall (fun d => serial_number (l_base d) <> sn) sample_linux_devs /\
        exists d, devs' = (sample_linux_devs ++ [d])%list /\ serial_number (l_base d) = sn))).
Proof.
  split; [vm_compute; reflexivity|].
  split; [vm_compute; reflexivity|].
  split; [vm_compute; reflexivity|].
  split.
  - destruct (add_section sample_connect_time sample_linux_devs
                (skipn 6 sample_syslog, 2023%Z)) as [devs'|e] eqn:H;
      [|vm_compute in H; discriminate].
    exists devs'. split; [reflexivity|].
    exact (add_section_frame sample_connect_time _ _ _ _ H).
  - destruct (add_section sample_connect_time sample_linux_devs
                (syslog_session "13" "1-3" "0951" "CCCC" "sdd1", 2023%Z))
      as [devs'|e] eqn:H; [|vm_compute in H; discriminate].
    exists devs'. split; [reflexivity|].
    exact (add_section_frame sample_connect_time _ _ _ _ H).
Defined.

Lemma index_absent (line sub : string) :
  Py.contains sub line = false -> Py.index line sub = Raise ValueError.
Proof.
  unfold Py.contains, Py.index, Py.index_from, Py.find_from. simpl.
  rewrite Nat.sub_0_r, substring_0_length.
  destruct (Py.find0 sub line); [discriminate|reflexivity].
Qed.

(** Claim C4 (amended): a label missing from every line of a section makes
    [__get_device_info_from_section] and [__get_device_size] return [None]
    without raising, while [__get_device_id_by_type] requires its label on
    the announcement line and raises [ValueError] ([str.index]) without it. *)
Theorem label_extraction_absent :
  (forall section info_type,
     Forall (fun l => Py.contains info_type l = false) section ->
     get_device_info_from_section section info_type = Ok None) /\
  (forall section,
     Forall (fun l => Py.contains "logical blocks" l = false) section ->
     get_device_size section = Ok None) /\
  (forall line id_type,
     Py.contains id_type line = false ->
     get_device_id_by_type line id_type = Raise ValueError).
Proof.
  split; [|split].
  - intros section info_type H. induction H as [|l section Hl H IH]; simpl.
    + reflexivity.
    + now rewrite Hl.
  - intros section H. induction H as [|l section Hl H IH]; simpl.
    + reflexivity.
    + now rewrite Hl.
  - intros line id_type H. unfold get_device_id_by_type.
    now rewrite index_absent.
Qed.

Lemma label_extraction_absent_witness :
  Forall (fun l => Py.contains "SerialNumber:" l = false)
         ["usb 1-1: New USB device found, idVendor=0781"] /\
  get_device_info_from_section ["usb 1-1: New USB device found, idVendor=0781"]
    "SerialNumber:" = Ok None /\
  get_device_size ["usb 1-1: New USB device found, idVendor=0781"] = Ok None /\
  get_device_id_by_type "usb 1-1: New USB device found" "idVendor"
    = Raise ValueError.
Proof.
  assert (H1 : Forall (fun l => Py.contains "SerialNumber:" l = false)
                 ["usb 1-1: New USB device found, idVendor=0781"])
    by (repeat constructor).
  assert (H2 : Forall (fun l => Py.contains "logical blocks" l = false)
                 ["usb 1-1: New USB device found, idVendor=0781"])
    by (repeat constructor).
  split; [exact H1|]. split; [exact (proj1 label_extraction_absent _ _ H1)|].
  split; [exact (proj1 (proj2 label_extraction_absent) _ H2)|].
  apply (proj2 (proj2 label_extraction_absent)). reflexivity.
Defined.

(** Claim C4, as stated, fails: an announcement line without [idVendor]
    makes the extractor raise instead of returning an absent field. *)
Lemma label_extraction_raises :
  get_device_id_by_type "Jan  1 10:00:00 host kernel: usb 1-1: New USB device found"
    "idVendor" = Raise ValueError.
Proof. vm_compute. reflexivity. Qed.

End LinuxFacts.

(* ------------------------------------------------------------------ *)
(** ** The Windows device records *)

Module WindowsFacts.
Import WindowsViewer.

Lemma parse_device_name_fields (name n1 n2 n3 : string) :
  Py.split_on "&" name = ["Disk"; n1; n2; n3] ->
  parse_device_name name
  = Some (Py.replace n1 "Ven_" "", Py.replace n2 "Prod_" "", Py.replace n3 "Rev_" "").
Proof. intros H. unfold parse_device_name. now rewrite H. Qed.

Lemma parse_device_name_reject (name : string) :
  (forall n1 n2 n3, Py.split_on "&" name <> ["Disk"; n1; n2; n3]) ->
  parse_device_name name = None.
Proof.
  intros H. unfold parse_device_name.
  destruct (Py.split_on "&" name) as [|n0 [|n1 [|n2 [|n3 [|n4 rest]]]]] eqn:E;
    try reflexivity.
  destruct (String.eqb n0 "Disk") eqn:E0; [|reflexivity].
  apply String.eqb_eq in E0. subst n0. exfalso. exact (H n1 n2 n3 eq_refl).
Qed.

Lemma parse_device_name_tagged_values (v p r : string) :
  Py.contains "Ven_" v = false -> Py.contains "Prod_" p = false ->
  Py.contains "Rev_" r = false ->
  (Py.replace ("Ven_" ++ v) "Ven_" "", Py.replace ("Prod_" ++ p) "Prod_" "",
   Py.replace ("Rev_" ++ r) "Rev_" "") = (v, p, r).
Proof. intros. now rewrite !replace_leading. Qed.

Lemma parse_device_name_tagged (v p r : string) :
  Py.contains "&" v = false -> Py.contains "&" p = false ->
  Py.contains "&" r = false ->
  Py.contains "Ven_" v = false -> Py.contains "Prod_" p = false ->
  Py.contains "Rev_" r = false ->
  parse_device_name ("Disk&Ven_" ++ v ++ "&Prod_" ++ p ++ "&Rev_" ++ r)
  = Some (v, p, r).
Proof.
  intros Hv Hp Hr Hv' Hp' Hr'.
  assert (Hs : "Disk&Ven_" ++ v ++ "&Prod_" ++ p ++ "&Rev_" ++ r
               = "Disk" ++ String "&" (("Ven_" ++ v) ++ String "&"
                   (("Prod_" ++ p) ++ String "&" ("Rev_" ++ r)))).
  { simpl. rewrite ?append_assoc_str. reflexivity. }
  rewrite Hs, <- (parse_device_name_tagged_values v p r Hv' Hp' Hr').
  apply parse_device_name_fields.
  rewrite split_on_amp_append by reflexivity.
  rewrite split_on_amp_append by (apply contains_char_append; [reflexivity | exact Hv]).
  rewrite split_on_amp_append by (apply contains_char_append; [reflexivity | exact Hp]).
  rewrite split_on_amp_single by (apply contains_char_append; [reflexivity | exact Hr]).
  reflexivity.
Qed.

(** Claim C8 (amended): [__parse_device_name] accepts exactly the names whose
    ['&']-split has four fields with first field [Disk] (the tags of the
    other fields are not checked), returning fields 2 to 4 with every
    occurrence of [Ven_], [Prod_] and [Rev_] removed; so a tagged name
    [Disk&Ven_v&Prod_p&Rev_r] whose parts contain neither ['&'] nor their tag
    gives [(v, p, r)], and every other name gives [None], which
    [__get_base_device_info] skips.  The Kingston key with one device subkey
    gives exactly the one record of the scenario. *)
Theorem parse_device_name_convention :
  (forall name n1 n2 n3,
     Py.split_on "&" name = ["Disk"; n1; n2; n3] ->
     parse_device_name name
     = Some (Py.replace n1 "Ven_" "", Py.replace n2 "Prod_" "",
             Py.replace n3 "Rev_" "")) /\
  (forall name,
     (forall n1 n2 n3, Py.split_on "&" name <> ["Disk"; n1; n2; n3]) ->
     parse_device_name name = None /\
     (forall devices, get_base_device_info [(name, devices)] = [])) /\
  (forall v p r,
     Py.contains "&" v = false -> Py.contains "&" p = false ->
     Py.contains "&" r = false ->
     Py.contains "Ven_" v = false -> Py.contains "Prod_" p = false ->
     Py.contains "Rev_" r = false ->
     parse_device_name ("Disk&Ven_" ++ v ++ "&Prod_" ++ p ++ "&Rev_" ++ r)
     = Some (v, p, r)) /\
  get_base_device_info
    [("Disk&Ven_Kingston&Prod_DataTraveler&Rev_1.00",
      [("1234567890AB&0", [("FriendlyName", "Kingston DataTraveler")])])]
  = [mkUSBDeviceWindows
       {| version := Some "1.00"; serial_number := Some "1234567890AB";
          friendly_name := Some "Kingston DataTraveler";
          vendor_id := None; product_id := None;
          first_connect_date := None; last_connect_date := None;
          vendor_name := None; product_description := None |}
       (Some "Kingston") (Some "DataTraveler") (Some "1234567890AB&0") None None].
Proof.
  split; [exact parse_device_name_fields|].
  split.
  { intros name H. split; [now apply parse_device_name_reject|].
    intros devices. unfold get_base_device_info. simpl.
    rewrite parse_device_name_reject by exact H. reflexivity. }
  split; [exact parse_device_name_tagged|].
  vm_compute. reflexivity.
Qed.

Lemma parse_device_name_convention_witness :
  Py.split_on "&" "Disk&Ven_Kingston&Prod_DataTraveler&Rev_1.00"
    = ["Disk"; "Ven_Kingston"; "Prod_DataTraveler"; "Rev_1.00"] /\
  parse_device_name "Disk&Ven_Kingston&Prod_DataTraveler&Rev_1.00"
    = Some ("Kingston", "DataTraveler", "1.00") /\
  parse_device_name "CdRom&Ven_X&Prod_Y&Rev_1" = None /\
  parse_device_name ("Disk&Ven_" ++ "SanDisk" ++ "&Prod_" ++ "Cruzer" ++ "&Rev_" ++ "1.26")
    = Some ("SanDisk", "Cruzer", "1.26").
Proof.
  split; [reflexivity|]. split.
  { rewrite (proj1 parse_device_name_convention _ "Ven_Kingston"
               "Prod_DataTraveler" "Rev_1.00") by reflexivity.
    reflexivity. }
  split.
  { apply (proj1 (proj1 (proj2 parse_device_name_convention) "CdRom&Ven_X&Prod_Y&Rev_1"
             ltac:(intros n1 n2 n3 H; discriminate H))). }
  apply (proj1 (proj2 (proj2 parse_device_name_convention)));
    vm_compute; reflexivity.
Defined.

(** Claim C8, as stated, fails: a four-field name starting with [Disk] whose
    other fields carry no [Ven_]/[Prod_]/[Rev_] tag is accepted, and a tag
    is removed wherever it occurs, not only as a prefix. *)
Lemma parse_device_name_untagged :
  parse_device_name "Disk&Foo&Bar&Baz" = Some ("Foo", "Bar", "Baz") /\
  parse_device_name "Disk&Ven_AVen_B&Prod_P&Rev_1" = Some ("AB", "P", "1").
Proof. split; vm_compute; reflexivity. Qed.

Lemma get_base_device_info_length
  (usbstor : list (string * list (string * list (string * string)))) :
  length (get_base_device_info usbstor)
  = list_sum (map (fun '(key_str, devices_keys) =>
                     match parse_device_name key_str with
                     | Some _ => length devices_keys
                     | None => 0
                     end) usbstor).
Proof.
  unfold get_base_device_info.
  induction usbstor as [|[key_str devices_keys] usbstor IH]; [reflexivity|].
  simpl. rewrite length_app, IH.
  destruct (parse_device_name key_str) as [[[vendor product] version]|];
    [|reflexivity].
  now rewrite length_map.
Qed.

End WindowsFacts.

(* ------------------------------------------------------------------ *)
(** ** Keying of the device records *)

(** Claim C1 (amended): on the Linux path each section is looked up by
    exact equality of its serial number (an [Optional[str]], [None] when the
    section has no [SerialNumber:] line) and merged into the first record
    carrying it: the serial numbers of the records stay as they were and the
    other records are unchanged; only a section whose serial number no record
    carries appends a record.  So no two records of a Linux run carry the
    same present serial number.  On the Windows path records are not merged
    at all: every device subkey of an accepted USBSTOR key gives its own
    record. *)
Theorem device_records_keying :
  (forall get_device_connect_time devs section year devs',
     LinuxViewer.add_section get_device_connect_time devs (section, year) = Ok devs' ->
     exists sn,
       LinuxViewer.get_device_info_from_section section "SerialNumber:" = Ok sn /\
       ((exists i d,
           nth_error devs i = Some d /\ serial_number (l_base d) = sn /\
           (forall j d', j < i -> nth_error devs j = Some d' ->
                         serial_number (l_base d') <> sn) /\
           LinuxFacts.serials devs' = LinuxFacts.serials devs /\
           (forall j, j <> i -> nth_error devs' j = nth_error devs j)) \/
        (Forall (fun d => serial_number (l_base d) <> sn) devs /\
         LinuxFacts.serials devs' = (LinuxFacts.serials devs ++ [sn])%list))) /\
  (forall get_device_connect_time files devs,
     LinuxViewer.get_base_device_info get_device_connect_time files = Ok devs ->
     NoDup (somes (LinuxFacts.serials devs))) /\
  (forall usbstor,
     length (WindowsViewer.get_base_device_info usbstor)
     = list_sum (map (fun '(key_str, devices_keys) =>
                        match WindowsViewer.parse_device_name key_str with
                        | Some _ => length devices_keys
                        | None => 0
                        end) usbstor)).
Proof.
  split; [|split].
  - intros f devs section year devs' H.
    exact (LinuxFacts.add_section_merge f devs devs' section year H).
  - intros f files devs H. apply NoDup_somes.
    exact (LinuxFacts.get_base_device_info_NoDup f files devs H).
  - exact WindowsFacts.get_base_device_info_length.
Qed.

(** The third session of [sample_syslog] repeats the serial number [AAAA] of
    the first: it is merged into the first record (position 0) and the run
    gives two records. *)
Lemma device_records_keying_witness :
  LinuxViewer.get_device_if_exist sample_linux_devs (Some "AAAA") = Some 0 /\
  length sample_linux_devs = 2 /\
  (exists devs',
     LinuxViewer.add_section sample_connect_time sample_linux_devs
       (skipn 6 sample_syslog, 2023%Z) = Ok devs' /\
     exists sn,
       LinuxViewer.get_device_info_from_section (skipn 6 sample_syslog) "SerialNumber:"
         = Ok sn /\
       ((exists i d,
           nth_error sample_linux_devs i = Some d /\ serial_number (l_base d) = sn /\
           (forall j d', j < i -> nth_error sample_linux_devs j = Some d' ->
                         serial_number (l_base d') <> sn) /\
           LinuxFacts.serials devs' = LinuxFacts.serials sample_linux_devs /\
           (forall j, j <> i -> nth_error devs' j = nth_error sample_linux_devs j)) \/
        (Forall (fun d => serial_number (l_base d) <> sn) sample_linux_devs /\
         LinuxFacts.serials devs' = (LinuxFacts.serials sample_linux_devs ++ [sn])%list))) /\
  (exists devs,
     LinuxViewer.get_base_device_info sample_connect_time [(sample_syslog, 2023%Z)]
       = Ok devs /\
     LinuxFacts.serials devs = [Some "AAAA"; Some "BBBB"] /\
     NoDup (somes (LinuxFacts.serials devs))).
Proof.
  destruct device_records_keying as [H1 [H2 _]].
  split; [vm_compute; reflexivity|]. split; [vm_compute; reflexivity|]. split.
  - destruct (LinuxViewer.add_section sample_connect_time sample_linux_devs
                (skipn 6 sample_syslog, 2023%Z)) as [devs'|e] eqn:H;
      [|vm_compute in H; discriminate].
    exists devs'. split; [reflexivity|].
    exact (H1 _ _ _ _ _ H).
  - destruct (LinuxViewer.get_base_device_info sample_connect_time
                [(sample_syslog, 2023%Z)]) as [devs|e] eqn:H;
      [|vm_compute in H; discriminate].
    exists devs. split; [reflexivity|]. split.
    + vm_compute in H. injection H as <-. reflexivity.
    + exact (H2 _ _ _ H).
Defined.

(** Claim C1, as stated, fails on both paths.  On Windows, two device subkeys
    of one USBSTOR key sharing the serial token before the first ['&'] give
    two records with the same serial number.  On Linux the serial numbers are
    compared with Python [==], so two sections without a [SerialNumber:] line
    both carry [None] and the second one only updates the record of the
    first: one record, not two. *)
Lemma windows_same_serial_two_records :
  map (fun d => serial_number (w_base d))
    (WindowsViewer.get_base_device_info
       [("Disk&Ven_Kingston&Prod_DataTraveler&Rev_1.00",
         [("1234567890AB&0", [("FriendlyName", "Kingston DataTraveler")]);
          ("1234567890AB&1", [("FriendlyName", "Kingston DataTraveler")])])])
  = [Some "1234567890AB"; Some "1234567890AB"] /\
  match LinuxViewer.get_base_device_info
          (fun line _ => Ok (mkdatetime 2023 1 (if Py.contains "10:00" line then 1 else 2) 0 0 0))
          [(["Jan  1 10:00:00 host kernel: usb 1-1: New USB device found, idVendor=0781, idProduct=5567, bcdDevice= 1.00";
             "Jan  1 10:00:02 host udisksd: Mounted /dev/sdb1";
             "Jan  2 11:00:00 host kernel: usb 1-2: New USB device found, idVendor=090c, idProduct=1000, bcdDevice= 2.00";
             "Jan  2 11:00:02 host udisksd: Mounted /dev/sdc1"], 2023%Z)] with
  | Ok devs =>
      map (fun d => (serial_number (l_base d), vendor_id (l_base d),
                     last_connect_date (l_base d))) devs
      = [(None, Some "0781", Some (mkdatetime 2023 1 2 0 0 0))]
  | Raise _ => False
  end.
Proof. split; vm_compute; reflexivity. Qed.

(* ------------------------------------------------------------------ *)
(** ** Dicts and loops of the Windows correlation passes *)

Lemma last_opt_cons {A} (x : A) (xs : list A) :
  last_opt (x :: xs) = match last_opt xs with Some y => Some y | None => Some x end.
Proof. unfold last_opt. simpl. destruct (rev xs); reflexivity. Qed.

Lemma dict_get_set {V} (k k' : string) (v : V) (d : list (string * V)) :
  dict_get k (dict_set k' v d) = if String.eqb k k' then Some v else dict_get k d.
Proof.
  induction d as [|[k0 v0] d IH]; simpl.
  - reflexivity.
  - destruct (String.eqb k' k0) eqn:E1.
    + apply String.eqb_eq in E1. subst k0. simpl.
      destruct (String.eqb k k'); reflexivity.
    + simpl. rewrite IH.
      destruct (String.eqb k k0) eqn:E2; [|reflexivity].
      apply String.eqb_eq in E2. subst k0.
      destruct (String.eqb k k') eqn:E3; [|reflexivity].
      apply String.eqb_eq in E3. subst k'. rewrite String.eqb_refl in E1.
      discriminate.
Qed.

Lemma dict_set_keys {V} (k : string) (v : V) (d : list (string * V)) :
  map fst (dict_set k v d)
  = if dict_mem k d then map fst d else (map fst d ++ [k])%list.
Proof.
  unfold dict_mem. induction d as [|[k0 v0] d IH]; simpl; [reflexivity|].
  destruct (String.eqb k k0) eqn:E; simpl.
  - apply String.eqb_eq in E. now subst.
  - rewrite IH. now destruct (existsb _ d).
Qed.

Lemma dict_mem_false {V} (k : string) (d : list (string * V)) :
  dict_mem k d = false -> ~ In k (map fst d).
Proof.
  unfold dict_mem. intros H Hin. apply in_map_iff in Hin.
  destruct Hin as ([k0 v0] & Hk & Hin). simpl in Hk. subst k0.
  assert (Hex : existsb (fun kv => String.eqb k (fst kv)) d = true).
  { apply existsb_exists. exists (k, v0). split; [exact Hin|].
    apply String.eqb_refl. }
  congruence.
Qed.

Lemma dict_set_NoDup {V} (k : string) (v : V) (d : list (string * V)) :
  NoDup (map fst d) -> NoDup (map fst (dict_set k v d)).
Proof.
  intros H. rewrite dict_set_keys.
  destruct (dict_mem k d) eqn:E; [exact H|].
  apply NoDup_app; [exact H | repeat constructor; simpl; tauto |].
  intros x Hx [<- | []]. exact (dict_mem_false k d E Hx).
Qed.

Lemma dict_set_fresh {V} (k : string) (v : V) (d : list (string * V)) :
  ~ In k (map fst d) -> dict_set k v d = (d ++ [(k, v)])%list.
Proof.
  induction d as [|[k0 v0] d IH]; simpl; intros H; [reflexivity|].
  destruct (String.eqb k k0) eqn:E.
  - apply String.eqb_eq in E. subst. exfalso. apply H. now left.
  - rewrite IH; [reflexivity|]. intros Hin. apply H. now right.
Qed.

Lemma registry_values_unique {V} (vals : list (string * V)) :
  NoDup (map fst vals) -> registry_values vals = vals.
Proof.
  unfold registry_values.
  assert (Hgen : forall (vals acc : list (string * V)),
            NoDup (map fst (acc ++ vals)) ->
            fold_left (fun d '(name, value) => dict_set (V:=V) name value d) vals acc
            = (acc ++ vals)%list).
  { induction vals0 as [|[k v] vals0 IH]; intros acc H; simpl.
    - now rewrite app_nil_r.
    - rewrite dict_set_fresh.
      + rewrite IH; [now rewrite <- app_assoc|]. now rewrite <- app_assoc.
      + rewrite map_app in H. simpl in H.
        apply NoDup_remove_2 in H. intros Hin. apply H.
        apply in_or_app. now left. }
  intros H. apply (Hgen vals []). exact H.
Qed.

Lemma map_result_nth {A B} (f : A -> result B) (xs : list A) (ys : list B)
  (i : nat) (x : A) :
  WindowsViewer.map_result f xs = Ok ys -> nth_error xs i = Some x ->
  exists y, nth_error ys i = Some y /\ f x = Ok y.
Proof.
  revert ys i. induction xs as [|x0 xs IH]; intros ys i H Hi.
  - destruct i; discriminate.
  - simpl in H. destruct (f x0) as [y0|e] eqn:E0; [|discriminate]. simpl in H.
    destruct (WindowsViewer.map_result f xs) as [ys0|e] eqn:E1; [|discriminate].
    simpl in H. inversion H; subst ys. destruct i as [|i].
    + inversion Hi; subst x0. exists y0. split; [reflexivity | exact E0].
    + simpl in Hi. destruct (IH ys0 i eq_refl Hi) as (y & Hy & Hf).
      exists y. split; [exact Hy | exact Hf].
Qed.

Module WindowsPasses.

Lemma usb_device_dict_fold (usb : list (string * list string))
  (dd0 dd : list (string * string)) :
  fold_left (fun acc '(device_id, subkeys) =>
               let* dd := acc in
               if negb (Py.contains "VID" device_id) || negb (Py.contains "PID" device_id)
               then Ok dd
               else let* serial_number := Py.get_item subkeys 0 in
                    Ok (dict_set serial_number device_id dd))
            usb (Ok dd0) = Ok dd ->
  NoDup (map fst dd0) ->
  NoDup (map fst dd) /\
  forall sn, dict_get sn dd = match last_opt (usb_candidates sn usb) with
                              | Some (did, _) => Some did
                              | None => dict_get sn dd0 end.
Proof.
  assert (Hraise : forall usb e,
    fold_left (fun acc '(device_id, subkeys) =>
               let* dd := acc in
               if negb (Py.contains "VID" device_id) || negb (Py.contains "PID" device_id)
               then Ok dd
               else let* serial_number := Py.get_item subkeys 0 in
                    Ok (dict_set serial_number device_id dd))
            usb (Raise e) = Raise e).
  { induction usb0 as [|[a b] usb0 IH]; intros e; simpl; auto. }
  revert dd0 dd.
  induction usb as [|[did subs] usb IH]; intros dd0 dd H Hnd.
  - simpl in H. inversion H; subst dd. split; [exact Hnd|]. reflexivity.
  - simpl in H. unfold usb_candidates. simpl filter.
    destruct (Py.contains "VID" did) eqn:Ev; destruct (Py.contains "PID" did) eqn:Ep;
      simpl in H; simpl;
      try (apply IH; assumption).
    destruct subs as [|s0 subs]; simpl in H.
    + rewrite Hraise in H. discriminate.
    + destruct (IH _ _ H (dict_set_NoDup s0 did dd0 Hnd)) as [Hn Hg].
      split; [exact Hn|]. intros sn. rewrite Hg. fold (usb_candidates sn usb).
      rewrite dict_get_set, String.eqb_sym.
      destruct (String.eqb s0 sn); [rewrite last_opt_cons|];
        destruct (last_opt (usb_candidates sn usb)) as [[x y]|]; reflexivity.
Qed.

Lemma usb_device_dict_spec (usb : list (string * list string))
  (dd : list (string * string)) :
  WindowsViewer.usb_device_dict usb = Ok dd ->
  NoDup (map fst dd) /\
  forall sn, dict_get sn dd = option_map fst (last_opt (usb_candidates sn usb)).
Proof.
  intros H. destruct (usb_device_dict_fold usb [] dd H (NoDup_nil _)) as [Hn Hg].
  split; [exact Hn|]. intros sn. rewrite Hg.
  destruct (last_opt (usb_candidates sn usb)) as [[x y]|]; reflexivity.
Qed.

Lemma assign_ids_spec (did : string) (d d' : USBDeviceWindows) :
  WindowsViewer.assign_ids did d = Ok d' ->
  exists i0 i1 r, Py.split_on "&" did = i0 :: i1 :: r /\
    d' = with_base (set_ids (Some (Py.replace i0 "VID_" ""))
                            (Some (Py.replace i1 "PID_" "")) (base d)) d.
Proof.
  unfold WindowsViewer.assign_ids. destruct (Py.split_on "&" did) as [|i0 [|i1 r]];
    simpl; intros H; try discriminate.
  inversion H; subst d'. exists i0, i1, r. split; reflexivity.
Qed.

Lemma ids_loop_nomatch (items : list (string * string)) (d : USBDeviceWindows) :
  (forall k, In k (map fst items) -> serial_number (w_base d) <> Some k) ->
  WindowsViewer.ids_loop items d = Ok d.
Proof.
  induction items as [|[k v] items IH]; intros H; simpl; [reflexivity|].
  destruct (opt_str_eqb (serial_number (w_base d)) (Some k)) eqn:E; simpl.
  - apply opt_str_eqb_eq in E. exfalso. apply (H k); [now left | exact E].
  - apply IH. intros k' Hk. apply H. now right.
Qed.

Lemma ids_loop_spec (items : list (string * string)) (d d' : USBDeviceWindows) :
  NoDup (map fst items) ->
  WindowsViewer.ids_loop items d = Ok d' ->
  match serial_number (w_base d) with
  | Some sn => match dict_get sn items with
               | Some did => WindowsViewer.assign_ids did d = Ok d'
               | None => d' = d end
  | None => d' = d end.
Proof.
  revert d. induction items as [|[k v] items IH]; intros d Hnd H; simpl in H.
  - inversion H; subst d'. destruct (serial_number (w_base d)); reflexivity.
  - inversion Hnd as [|? ? Hk Hnd']; subst.
    destruct (opt_str_eqb (serial_number (w_base d)) (Some k)) eqn:E; simpl in H.
    + apply opt_str_eqb_eq in E. rewrite E. simpl. rewrite String.eqb_refl.
      destruct (WindowsViewer.assign_ids v d) as [d1|e] eqn:Ea; [|discriminate].
      simpl in H.
      destruct (assign_ids_spec v d d1 Ea) as (i0 & i1 & r & _ & ->).
      rewrite ids_loop_nomatch in H.
      * inversion H; subst d'. reflexivity.
      * intros k' Hk' Heq. simpl in Heq. rewrite E in Heq. inversion Heq; subst k'.
        exact (Hk Hk').
    + specialize (IH d Hnd' H).
      destruct (serial_number (w_base d)) as [sn|] eqn:Es; [|exact IH].
      simpl. destruct (String.eqb sn k) eqn:E2; [|exact IH].
      apply String.eqb_eq in E2. subst k. simpl in E. rewrite String.eqb_refl in E.
      discriminate.
Qed.

Lemma guid_loop_spec (vals : list (string * list Byte.byte)) (p : string)
  (d d' : USBDeviceWindows) :
  parent_prefix_id d = Some p ->
  WindowsViewer.guid_loop vals d = Ok d' ->
  match last_opt (guid_candidates p vals) with
  | Some (key, _) => exists gi, Py.index key "{" = Ok gi /\
                       d' = set_guid (Some (Py.slice_from key (Z.of_nat gi))) d
  | None => d' = d end.
Proof.
  revert d. induction vals as [|[key value] vals IH]; intros d Hp H; simpl in H.
  - inversion H; subst d'. reflexivity.
  - rewrite Hp in H. simpl in H. unfold guid_candidates. simpl filter.
    fold (guid_candidates p vals).
    destruct (Py.contains p (convert_binary_to_ascii_string value)) eqn:Ec;
      simpl in H; simpl; [|exact (IH d Hp H)].
    destruct (Py.contains "\Volume" key) eqn:Ev; simpl; [|exact (IH d Hp H)].
    rewrite last_opt_cons.
    destruct (Py.index key "{") as [gi|e] eqn:Ei; simpl in H; [|discriminate].
    specialize (IH (set_guid (Some (Py.slice_from key (Z.of_nat gi))) d) Hp H).
    destruct (last_opt (guid_candidates p vals)) as [[k v]|].
    + destruct IH as (gi' & Hi & ->). exists gi'. split; [exact Hi | reflexivity].
    + exists gi. split; [exact Ei | exact IH].
Qed.

Lemma drive_loop_spec (keys : list (string * list (string * string))) (p : string)
  (d d' : USBDeviceWindows) :
  parent_prefix_id d = Some p ->
  WindowsViewer.drive_loop keys d = Ok d' ->
  match last_opt (drive_candidates p keys) with
  | Some (_, vals) =>
      d' = set_drive_letter (dict_get "FriendlyName" (registry_values vals)) d
  | None => d' = d end.
Proof.
  revert d. induction keys as [|[key vals] keys IH]; intros d Hp H; simpl in H.
  - inversion H; subst d'. reflexivity.
  - rewrite Hp in H. simpl in H. unfold drive_candidates. simpl filter.
    fold (drive_candidates p keys).
    destruct (Py.contains p key) eqn:Ec; simpl in H; simpl; [|exact (IH d Hp H)].
    rewrite last_opt_cons.
    specialize (IH (set_drive_letter (dict_get "FriendlyName" (registry_values vals)) d)
                  Hp H).
    destruct (last_opt (drive_candidates p keys)) as [[k v]|]; exact IH.
Qed.

End WindowsPasses.

(* ------------------------------------------------------------------ *)
(** ** The web lookup *)

Module WebFacts.

Lemma error_html_no_headings :
  Web.extract_heading Web.error_html "--type-vendor" = None /\
  Web.extract_heading Web.error_html "--type-device" = None.
Proof. split; vm_compute; reflexivity. Qed.

Lemma get_device_info_from_web_raise (fetch : string -> string -> result string)
  (v p : string) (e : exn) :
  fetch v p = Raise e ->
  Web.get_device_info_from_web fetch v p 3
  = if is_URLError e then Ok (None, None) else Raise e.
Proof.
  intros Hf. unfold Web.get_device_info_from_web. simpl. rewrite Hf.
  destruct (is_URLError e); simpl; [|reflexivity].
  destruct error_html_no_headings as [-> ->]. reflexivity.
Qed.

(** The record after a lookup that failed with [URLError]. *)
Definition cleared {D} `{HasBase D} (d : D) : D :=
  match vendor_id (base d), product_id (base d) with
  | Some _, Some _ => with_base (set_vendor_info None None (base d)) d
  | _, _ => d
  end.

Lemma set_devices_info_url_errors {D} `{HasBase D}
  (fetch : string -> string -> result string) (devs : list D) :
  (forall v p, exists e, fetch v p = Raise e /\ is_URLError e = true) ->
  Web.set_devices_info fetch devs = Ok (map cleared devs).
Proof.
  intros Hf. unfold Web.set_devices_info.
  induction devs as [|d devs IH]; [reflexivity|]. simpl. rewrite IH.
  unfold Web.set_device_info, cleared.
  destruct (vendor_id (base d)) as [v|]; destruct (product_id (base d)) as [p|];
    simpl; try reflexivity.
  destruct (Hf v p) as (e & He & Hu).
  rewrite (get_device_info_from_web_raise fetch v p e He), Hu. reflexivity.
Qed.

Lemma set_devices_info_raises {D} `{HasBase D}
  (fetch : string -> string -> result string) (devs : list D) (d : D)
  (v p : string) (e : exn) :
  In d devs -> vendor_id (base d) = Some v -> product_id (base d) = Some p ->
  fetch v p = Raise e -> is_URLError e = false ->
  exists e', Web.set_devices_info fetch devs = Raise e'.
Proof.
  intros Hin Hv Hp Hf Hu. unfold Web.set_devices_info.
  induction devs as [|d0 devs IH]; [destruct Hin|]. simpl.
  destruct Hin as [<- | Hin].
  - unfold Web.set_device_info. rewrite Hv, Hp.
    rewrite (get_device_info_from_web_raise fetch v p e Hf), Hu. simpl.
    exists e. reflexivity.
  - destruct (Web.set_device_info fetch d0) as [d0'|e0]; simpl;
      [|exists e0; reflexivity].
    destruct (IH Hin) as (e' & He'). rewrite He'. exists e'. reflexivity.
Qed.

End WebFacts.

(** Claim C6: a failed lookup is absorbed only when it fails with
    [urllib.error.URLError] (or its subclass [HTTPError]): then both fields
    become [None] and every record is kept with its other fields unchanged.
    Any other failure of the fetch, such as a [TimeoutError] while reading
    the response or a [RemoteDisconnected] from [getresponse], leaves
    [get_device_info_from_web] and [_set_devices_info], and no device list
    comes back. *)
Theorem web_lookup_failure :
  (forall fetch v p e, fetch v p = Raise e ->
     Web.get_device_info_from_web fetch v p 3
     = if is_URLError e then Ok (None, None) else Raise e) /\
  (forall (D : Type) (HD : HasBase D) fetch (devs : list D),
     (forall v p, exists e, fetch v p = Raise e /\ is_URLError e = true) ->
     Web.set_devices_info fetch devs = Ok (map WebFacts.cleared devs)) /\
  (forall (D : Type) (HD : HasBase D) fetch (devs : list D) d v p e,
     In d devs -> vendor_id (base d) = Some v -> product_id (base d) = Some p ->
     fetch v p = Raise e -> is_URLError e = false ->
     exists e', Web.set_devices_info fetch devs = Raise e').
Proof.
  split; [|split].
  - exact WebFacts.get_device_info_from_web_raise.
  - intros D HD. exact WebFacts.set_devices_info_url_errors.
  - intros D HD. exact WebFacts.set_devices_info_raises.
Qed.

Lemma web_lookup_failure_witness :
  let dev := with_base (set_ids (Some "090C") (Some "1000") (base sample_device))
                       sample_device in
  Web.get_device_info_from_web (fun _ _ => Raise HTTPError) "090C" "1000" 3
    = Ok (None, None) /\
  Web.set_devices_info (fun _ _ => Raise URLError) [dev]
    = Ok [with_base (set_vendor_info None None (base dev)) dev] /\
  (exists e', Web.set_devices_info (fun _ _ => Raise RemoteDisconnected) [dev]
              = Raise e').
Proof.
  intros dev. destruct web_lookup_failure as [H1 [H2 H3]].
  split; [|split].
  - exact (H1 (fun _ _ => Raise HTTPError) "090C" "1000" HTTPError eq_refl).
  - exact (H2 _ _ (fun _ _ => Raise URLError) [dev]
             (fun _ _ => ex_intro _ URLError (conj eq_refl eq_refl))).
  - exact (H3 _ _ (fun _ _ => Raise RemoteDisconnected) [dev] dev "090C" "1000"
             RemoteDisconnected (or_introl eq_refl) eq_refl eq_refl eq_refl eq_refl).
Defined.

(* ------------------------------------------------------------------ *)
(** ** Windows timestamps *)

Module WindowsTime.

Local Open Scope Z_scope.

Lemma round_half_even_div_lower (n d k : Z) :
  0 < d -> k * d <= n -> k <= Float64.round_half_even_div n d.
Proof.
  intros Hd Hk. unfold Float64.round_half_even_div.
  assert (Hq : k <= n / d) by (apply Z.div_le_lower_bound; lia).
  destruct (Z.compare _ _); [destruct (Z.even _)|..]; lia.
Qed.

Lemma round_half_even_div_upper (n d k : Z) :
  0 < d -> n <= k * d -> Float64.round_half_even_div n d <= k.
Proof.
  intros Hd Hk. unfold Float64.round_half_even_div.
  pose proof (Z.div_mod n d ltac:(lia)) as Hdm.
  pose proof (Z.mod_pos_bound n d Hd) as Hr.
  assert (Hq : n / d <= k) by (apply Z.div_le_upper_bound; lia).
  assert (Hq1 : 0 < n mod d -> n / d + 1 <= k) by nia.
  destruct (Z.compare_spec (2 * (n mod d)) d) as [Hc|Hc|Hc];
    [destruct (Z.even _)|..]; lia.
Qed.

Lemma to_ratio_nonpos (m e : Z) :
  e <= 0 -> Float64.to_ratio (m, e) = (m, 2 ^ (- e)).
Proof.
  intros He. unfold Float64.to_ratio.
  destruct (Z.leb_spec 0 e) as [He'|He'].
  - assert (e = 0) by lia. subst e. simpl. now rewrite Z.mul_1_r.
  - reflexivity.
Qed.

Lemma of_ratio_bounds (n d k1 k2 : Z) :
  0 < d -> Z.abs n < 2 ^ 52 * d -> k1 * d <= n -> n <= k2 * d ->
  let (m, e) := Float64.of_ratio n d in
  e <= 0 /\ k1 * 2 ^ (- e) <= m <= k2 * 2 ^ (- e).
Proof.
  intros Hd Hn H1 H2. unfold Float64.of_ratio.
  destruct (Z.eqb_spec n 0) as [->|Hn0].
  - simpl. nia.
  - set (a := Z.abs n). set (e0 := Z.log2 a - Z.log2 d - 53).
    assert (He0 : e0 <= -1).
    { assert (Hl : Z.log2 a <= Z.log2 (d * 2 ^ 52)).
      { apply Z.log2_le_mono. unfold a. lia. }
      rewrite Z.log2_mul_pow2 in Hl by lia. unfold e0. lia. }
    set (e := if 2 ^ 53 * d * 2 ^ Z.max 0 e0 <=? a * 2 ^ Z.max 0 (- e0)
              then e0 + 1 else e0).
    assert (He : e <= 0) by (unfold e; destruct (_ <=? _); lia).
    rewrite (Z.max_l 0 e) by lia. rewrite (Z.max_r 0 (- e)) by lia.
    rewrite Z.pow_0_r, Z.mul_1_r.
    assert (HP : 0 < 2 ^ (- e)) by (apply Z.pow_pos_nonneg; lia).
    set (P := 2 ^ (- e)) in *.
    split; [exact He|].
    destruct (Z.lt_trichotomy n 0) as [Hneg|[Hz|Hpos]]; [|lia|].
    + rewrite (Z.sgn_neg n Hneg). unfold a. rewrite (Z.abs_neq n) by lia.
      assert (L : - k2 * P <= Float64.round_half_even_div (- n * P) d)
        by (apply round_half_even_div_lower; nia).
      assert (U : Float64.round_half_even_div (- n * P) d <= - k1 * P)
        by (apply round_half_even_div_upper; nia).
      lia.
    + rewrite (Z.sgn_pos n Hpos). unfold a. rewrite (Z.abs_eq n) by lia.
      assert (L : k1 * P <= Float64.round_half_even_div (n * P) d)
        by (apply round_half_even_div_lower; nia).
      assert (U : Float64.round_half_even_div (n * P) d <= k2 * P)
        by (apply round_half_even_div_upper; nia).
      lia.
Qed.

Lemma quot_bounds (m P k1 k2 : Z) :
  0 < P -> k1 * P <= m <= k2 * P -> k1 <= Z.quot m P <= k2.
Proof.
  intros HP Hm. destruct (Z.leb_spec 0 m) as [Hm0|Hm0].
  - rewrite Z.quot_div_nonneg by lia.
    split; [apply Z.div_le_lower_bound | apply Z.div_le_upper_bound]; lia.
  - replace m with (- (- m)) by lia. rewrite Z.quot_opp_l by lia.
    rewrite Z.quot_div_nonneg by lia.
    assert (- k2 <= - m / P) by (apply Z.div_le_lower_bound; lia).
    assert (- m / P <= - k1) by (apply Z.div_le_upper_bound; lia).
    lia.
Qed.


(** Claim C5: for a FILETIME tick count [0 <= V < 2^64], the value [U]
    that [convert_windows_time_to_unix] returns lies between the floor and
    the ceiling of [V / 10^7] minus 11644473600 seconds.  Hence
    [V' = (U + 11644473600) * 10^7] is within one second of [V] on either
    side: [-10^7 < V - V' < 10^7]. *)
Theorem convert_windows_time_to_unix_bounds (V : Z) :
  0 <= V < 2 ^ 64 ->
  let U := convert_windows_time_to_unix V in
  V / 10000000 - 11644473600 <= U <= - (- V / 10000000) - 11644473600 /\
  - 10000000 < V - (U + 11644473600) * 10000000 < 10000000.
Proof.
  intros HV U.
  set (a := V / 10000000). set (a' := - (- V / 10000000)).
  pose proof (Z.div_mod V 10000000 ltac:(lia)) as Hdm.
  pose proof (Z.mod_pos_bound V 10000000 ltac:(lia)) as Hr.
  pose proof (Z.div_mod (- V) 10000000 ltac:(lia)) as Hdm'.
  pose proof (Z.mod_pos_bound (- V) 10000000 ltac:(lia)) as Hr'.
  fold a in Hdm. assert (Ha' : - V / 10000000 = - a') by (unfold a'; lia).
  rewrite Ha' in Hdm'.
  assert (Hbounds : a * 10000000 <= V <= a' * 10000000 /\ a' <= a + 1 /\
                    V < a' * 10000000 + 10000000 /\ 0 <= a /\ a' < 2 ^ 41) by lia.
  unfold U, convert_windows_time_to_unix, Float64.true_div.
  pose proof (of_ratio_bounds V 10000000 a a' ltac:(lia) ltac:(lia)
                ltac:(lia) ltac:(lia)) as H1.
  destruct (Float64.of_ratio V 10000000) as [m1 e1].
  destruct H1 as (He1 & Hm1).
  unfold Float64.sub_int. rewrite to_ratio_nonpos by exact He1.
  assert (HP1 : 0 < 2 ^ (- e1)) by (apply Z.pow_pos_nonneg; lia).
  set (P1 := 2 ^ (- e1)) in *.
  pose proof (of_ratio_bounds (m1 - 11644473600 * P1) P1
                (a - 11644473600) (a' - 11644473600) HP1
                ltac:(apply Z.abs_lt; nia) ltac:(nia) ltac:(nia)) as H2.
  destruct (Float64.of_ratio (m1 - 11644473600 * P1) P1) as [m2 e2].
  destruct H2 as (He2 & Hm2).
  unfold Float64.trunc. rewrite to_ratio_nonpos by exact He2.
  pose proof (quot_bounds m2 (2 ^ (- e2)) _ _
                ltac:(apply Z.pow_pos_nonneg; lia) Hm2) as Hq.
  split; [exact Hq|]. nia.
Qed.

Lemma convert_windows_time_to_unix_bounds_witness :
  0 <= 133444735999999999 < 2 ^ 64 /\
  let U := convert_windows_time_to_unix 133444735999999999 in
  133444735999999999 / 10000000 - 11644473600 <= U
    <= - (- 133444735999999999 / 10000000) - 11644473600 /\
  - 10000000 < 133444735999999999 - (U + 11644473600) * 10000000 < 10000000.
Proof.
  split; [lia|].
  apply (convert_windows_time_to_unix_bounds 133444735999999999). lia.
Defined.

(** [V / 10^7] is rounded to a double before [int()] truncates it: for
    [V = 133444735999999999] the quotient rounds up to the whole second
    1700000000 and [V - V' = -1].  Before 1970 [int()] truncates toward
    zero: for [V = 116444735995000000], half a second before the epoch,
    [U = 0] and [V - V' = -5000000]. *)
Lemma convert_windows_time_to_unix_off_window :
  convert_windows_time_to_unix 133444735999999999 = 1700000000 /\
  133444735999999999 - (1700000000 + 11644473600) * 10000000 = -1 /\
  convert_windows_time_to_unix 116444735995000000 = 0 /\
  116444735995000000 - (0 + 11644473600) * 10000000 = -5000000.
Proof. repeat split; vm_compute; reflexivity. Qed.

End WindowsTime.

(* ------------------------------------------------------------------ *)
(** ** [convert_binary_to_ascii_string] *)

Module BinaryFacts.

Lemma to_nat_byte_of_ascii (c : ascii) :
  Byte.to_nat (byte_of_ascii c) = nat_of_ascii c.
Proof. destruct c as [[] [] [] [] [] [] [] []]; reflexivity. Qed.

Lemma nat_of_ascii_of_byte (b : Byte.byte) :
  nat_of_ascii (ascii_of_byte b) = Byte.to_nat b.
Proof. destruct b; reflexivity. Qed.

Lemma convert_cons_kept (c : ascii) (bs : list Byte.byte) :
  (0 < nat_of_ascii c < 128)%nat ->
  convert_binary_to_ascii_string (byte_of_ascii c :: bs)
  = String c (convert_binary_to_ascii_string bs).
Proof.
  intros Hc. unfold convert_binary_to_ascii_string. simpl.
  rewrite to_nat_byte_of_ascii.
  replace ((0 <? nat_of_ascii c)%nat && (nat_of_ascii c <? 128)%nat) with true
    by (symmetry; apply andb_true_intro; split; apply Nat.ltb_lt; lia).
  simpl. rewrite ascii_of_byte_of_ascii. reflexivity.
Qed.

Lemma convert_cons_nul (bs : list Byte.byte) :
  convert_binary_to_ascii_string (Byte.x00 :: bs) = convert_binary_to_ascii_string bs.
Proof. reflexivity. Qed.

(** The result holds only characters with codes 1 to 127, whatever the
    input, and the ASCII text without NUL comes back unchanged from its
    bytes and from its UTF-16LE encoding. *)
Theorem convert_binary_to_ascii_string_round_trip :
  (forall bs, is_ascii_text (convert_binary_to_ascii_string bs) = true) /\
  (forall s, is_ascii_text s = true ->
     convert_binary_to_ascii_string (list_byte_of_string s) = s /\
     convert_binary_to_ascii_string (utf16le s) = s).
Proof.
  split.
  - intros bs. unfold convert_binary_to_ascii_string, is_ascii_text.
    rewrite list_ascii_of_string_of_list_ascii.
    apply forallb_forall. intros c Hc.
    apply in_map_iff in Hc. destruct Hc as (b & <- & Hb).
    apply filter_In in Hb. destruct Hb as [_ Hb].
    rewrite nat_of_ascii_of_byte. exact Hb.
  - intros s. unfold is_ascii_text, utf16le, list_byte_of_string.
    induction s as [|c s IH]; intros H; [split; reflexivity|].
    simpl in H. apply andb_prop in H. destruct H as [Hc Hs].
    apply andb_prop in Hc. destruct Hc as [H0 H1].
    apply Nat.ltb_lt in H0. apply Nat.ltb_lt in H1.
    destruct (IH Hs) as [IH1 IH2]. simpl.
    rewrite !convert_cons_kept by lia. rewrite convert_cons_nul, IH1, IH2.
    split; reflexivity.
Qed.

Lemma convert_binary_to_ascii_string_round_trip_witness :
  is_ascii_text "_??_USBSTOR#Disk" = true /\
  convert_binary_to_ascii_string (utf16le "_??_USBSTOR#Disk") = "_??_USBSTOR#Disk".
Proof.
  split; [reflexivity|].
  apply (proj2 (proj2 convert_binary_to_ascii_string_round_trip "_??_USBSTOR#Disk"
                  eq_refl)).
Defined.

End BinaryFacts.

(* ------------------------------------------------------------------ *)
(** ** [__get_registry_values] *)

Module RegistryFacts.

Lemma registry_values_fold {V} (vals acc : list (string * V)) (k : string) :
  dict_get k (fold_left (fun d '(name, value) => dict_set name value d) vals acc)
  = match last_opt (filter (fun kv => String.eqb (fst kv) k) vals) with
    | Some (_, v) => Some v
    | None => dict_get k acc
    end.
Proof.
  revert acc. induction vals as [|[n v] vals IH]; intros acc; [reflexivity|].
  simpl. rewrite IH, dict_get_set, String.eqb_sym.
  destruct (String.eqb n k); [rewrite last_opt_cons|];
    destruct (last_opt (filter (fun kv => String.eqb (fst kv) k) vals)) as [[x y]|];
    reflexivity.
Qed.

Lemma registry_values_keys {V} (vals acc : list (string * V)) :
  NoDup (map fst acc) ->
  NoDup (map fst (fold_left (fun d '(name, value) => dict_set name value d) vals acc)).
Proof.
  revert acc. induction vals as [|[n v] vals IH]; intros acc H; [exact H|].
  simpl. apply IH, dict_set_NoDup, H.
Qed.

(** Reading the values of a key gives each value name once; looking a name
    up gives the value of its last entry in enumeration order, and [None]
    (the [defaultdict] default) for a name the key does not have. *)
Theorem registry_values_lookup {V} (vals : list (string * V)) :
  NoDup (map fst (registry_values vals)) /\
  forall k, dict_get k (registry_values vals)
            = option_map snd (last_opt (filter (fun kv => String.eqb (fst kv) k) vals)).
Proof.
  split.
  - apply registry_values_keys, NoDup_nil.
  - intros k. unfold registry_values. rewrite registry_values_fold.
    destruct (last_opt _) as [[x y]|]; reflexivity.
Qed.

End RegistryFacts.

(* ------------------------------------------------------------------ *)
(** ** What the two log readers yield *)

Module LogFacts.

Lemma win_buffer_ok_app (ls xs : list string) :
  win_buffer_ok ls -> 0 < length ls -> win_buffer_ok (ls ++ xs)%list.
Proof.
  intros [->|(s1 & s2 & r & -> & H1 & H2)] Hl; [simpl in Hl; lia|].
  right. exists s1, s2, (r ++ xs)%list. auto.
Qed.

Lemma parse_windows_log_file_shape (n : nat) :
  forall lines ls sec, length lines <= n -> win_buffer_ok ls ->
  In sec (fst (parse_windows_log_file ls lines)) -> win_section_shape sec.
Proof.
  induction n as [|n IH]; intros lines ls sec Hn Hls Hin.
  { destruct lines; [destruct Hin | simpl in Hn; lia]. }
  destruct lines as [|line rest]; [destruct Hin|]. simpl in Hn.
  cbn [parse_windows_log_file] in Hin.
  destruct (Nat.eqb (length ls) 0 && Py.startswith ">>>" line) eqn:E1.
  - apply andb_prop in E1. destruct E1 as [E1 E2]. apply Nat.eqb_eq in E1.
    destruct ls; [|discriminate].
    destruct rest as [|next rest']; [destruct Hin|].
    simpl in Hn.
    destruct (Py.startswith ">>>" next) eqn:E3.
    + apply (IH rest' ([] ++ [line; next])%list); [lia| |exact Hin].
      right. exists line, next, []. auto.
    + apply (IH rest' []); [lia|now left|exact Hin].
  - destruct (Nat.ltb 0 (length ls) && Py.startswith "<<<" line) eqn:E2.
    + apply andb_prop in E2. destruct E2 as [E2 E4]. apply Nat.ltb_lt in E2.
      destruct rest as [|next rest']; [destruct Hin|]. simpl in Hn.
      destruct (Py.startswith "<<<" next) eqn:E3.
      * destruct (parse_windows_log_file [] rest') as [ys e] eqn:Ey.
        simpl in Hin. destruct Hin as [<- | Hin].
        -- destruct Hls as [->|(s1 & s2 & r & -> & H1 & H2)]; [simpl in E2; lia|].
           exists s1, s2, r, line, next. repeat split; auto.
        -- apply (IH rest' []); [lia|now left|]. rewrite Ey. exact Hin.
      * apply (IH rest' (ls ++ [line])%list); [lia| |exact Hin].
        now apply win_buffer_ok_app.
    + destruct (Nat.ltb 0 (length ls)) eqn:E5.
      * apply Nat.ltb_lt in E5.
        apply (IH rest (ls ++ [line])%list); [lia| |exact Hin].
        now apply win_buffer_ok_app.
      * apply (IH rest ls); [lia|exact Hls|exact Hin].
Qed.

(** Every section [parse_windows_log_file] yields has at least four lines:
    it opens with two lines that start with [>>>] and closes with two lines
    that start with [<<<].  Lines in between may start with [<<<]. *)
Theorem parse_windows_log_shape (lines sec : list string) :
  In sec (fst (parse_windows_log lines)) ->
  exists s1 s2 body e1 e2,
    sec = ([s1; s2] ++ body ++ [e1; e2])%list /\
    Py.startswith ">>>" s1 = true /\ Py.startswith ">>>" s2 = true /\
    Py.startswith "<<<" e1 = true /\ Py.startswith "<<<" e2 = true.
Proof.
  intros Hin. apply (parse_windows_log_file_shape (length lines) lines []);
    [lia|now left|exact Hin].
Qed.

Lemma parse_windows_log_shape_witness :
  In (setupapi_section sample_usb_header "02/01")
     (fst (parse_windows_log sample_setupapi_log)) /\
  exists s1 s2 body e1 e2,
    setupapi_section sample_usb_header "02/01" = ([s1; s2] ++ body ++ [e1; e2])%list /\
    Py.startswith ">>>" s1 = true /\ Py.startswith ">>>" s2 = true /\
    Py.startswith "<<<" e1 = true /\ Py.startswith "<<<" e2 = true.
Proof.
  assert (Hin : In (setupapi_section sample_usb_header "02/01")
                   (fst (parse_windows_log sample_setupapi_log)))
    by (vm_compute; right; left; reflexivity).
  split; [exact Hin|]. exact (parse_windows_log_shape _ _ Hin).
Defined.

Lemma parse_linux_log_file_shape (lines : list string) :
  forall section sec, linux_buffer_ok section ->
  In sec (parse_linux_log_file section lines) ->
  exists first body last, sec = first :: (body ++ [last])%list /\
    Py.contains "New USB device found" first = true /\
    Py.contains "Mounted /dev/sd" last = true.
Proof.
  induction lines as [|line rest IH]; intros section sec Hs Hin; [destruct Hin|].
  cbn [parse_linux_log_file] in Hin.
  destruct (Py.contains "New USB device found" line) eqn:E1.
  - destruct (Nat.eqb (length section) 0) eqn:E2.
    + apply Nat.eqb_eq in E2. destruct section; [|discriminate].
      apply (IH [line]); [|exact Hin]. right. exists line, []. auto.
    + destruct (Py.contains "Mounted /dev/sd" line) eqn:E3.
      * destruct Hin as [<- | Hin].
        -- exists line, [], line. auto.
        -- apply (IH []); [now left|exact Hin].
      * apply (IH ([line] ++ [line])%list); [|exact Hin].
        right. exists line, [line]. auto.
  - destruct (Nat.ltb 0 (length section)) eqn:E2.
    + apply Nat.ltb_lt in E2.
      destruct Hs as [->|(first & r & -> & Hf)]; [simpl in E2; lia|].
      destruct (Py.contains "Mounted /dev/sd" line) eqn:E3.
      * destruct Hin as [<- | Hin].
        -- exists first, r, line. auto.
        -- apply (IH []); [now left|exact Hin].
      * apply (IH ((first :: r) ++ [line])%list); [|exact Hin].
        right. exists first, (r ++ [line])%list. auto.
    + apply (IH section); [exact Hs|exact Hin].
Qed.

(** Every section [parse_linux_log_file] yields is non-empty, opens with a
    line holding [New USB device found] and closes with a line holding
    [Mounted /dev/sd]. *)
Theorem parse_linux_log_shape (lines sec : list string) :
  In sec (parse_linux_log lines) ->
  exists first body last, sec = first :: (body ++ [last])%list /\
    Py.contains "New USB device found" first = true /\
    Py.contains "Mounted /dev/sd" last = true.
Proof. intros Hin. apply (parse_linux_log_file_shape lines []); [now left|exact Hin]. Qed.

Lemma parse_linux_log_shape_witness :
  let lines := ["Jan  5 10:00:00 host kernel: usb 1-1: New USB device found, idVendor=0781";
                "Jan  5 10:00:01 host kernel: usb 1-1: SerialNumber: 4C53";
                "Jan  5 10:00:02 host udisksd: Mounted /dev/sdb1 at /media/usb"] in
  In lines (parse_linux_log lines) /\
  exists first body last, lines = first :: (body ++ [last])%list /\
    Py.contains "New USB device found" first = true /\
    Py.contains "Mounted /dev/sd" last = true.
Proof.
  intros lines.
  assert (Hin : In lines (parse_linux_log lines)) by (vm_compute; left; reflexivity).
  split; [exact Hin|]. exact (parse_linux_log_shape _ _ Hin).
Defined.

End LogFacts.

(* ------------------------------------------------------------------ *)
(** ** [__set_first_connect_dates] *)

Module FirstConnectFacts.

Lemma strptime_ymd_hms_raise (s : string) (e : exn) :
  strptime_ymd_hms s = Raise e -> e = ValueError.
Proof.
  unfold strptime_ymd_hms.
  repeat match goal with
         | |- context [match ?x with _ => _ end] => destruct x
         | |- context [if ?b then _ else _] => destruct b
         end; congruence.
Qed.

Lemma parse_windows_log_file_end (n : nat) :
  forall lines ls, length lines <= n ->
  snd (parse_windows_log_file ls lines) = Finished \/
  snd (parse_windows_log_file ls lines) = Raised RuntimeError.
Proof.
  induction n as [|n IH]; intros lines ls Hn.
  { destruct lines; [now left | simpl in Hn; lia]. }
  destruct lines as [|line rest]; [now left|]. simpl in Hn.
  cbn [parse_windows_log_file].
  destruct (Nat.eqb (length ls) 0 && Py.startswith ">>>" line).
  - destruct rest as [|next rest']; [now right|]. simpl in Hn.
    destruct (Py.startswith ">>>" next); apply IH; lia.
  - destruct (Nat.ltb 0 (length ls) && Py.startswith "<<<" line).
    + destruct rest as [|next rest']; [now right|]. simpl in Hn.
      destruct (Py.startswith "<<<" next); [|apply IH; lia].
      destruct (parse_windows_log_file [] rest') as [ys e] eqn:Ey.
      simpl. replace e with (snd (parse_windows_log_file [] rest')) by now rewrite Ey.
      apply IH. lia.
    + destruct (Nat.ltb 0 (length ls)); apply IH; lia.
Qed.

Lemma add_install_time_raise (td : list (string * datetime)) (sec : list string) (e : exn) :
  win_section_shape sec -> WindowsViewer.add_install_time td sec = Raise e ->
  e = ValueError.
Proof.
  intros (s1 & s2 & body & e1 & e2 & -> & _) H.
  set (sec := ([s1; s2] ++ body ++ [e1; e2])%list) in *.
  assert (Hlen : 4 <= length sec)
    by (unfold sec; rewrite !length_app; simpl; lia).
  assert (Hlast : Py.last_item sec = Ok e2).
  { unfold Py.last_item, sec. rewrite app_assoc, rev_app_distr. reflexivity. }
  assert (Hend : exists y, WindowsViewer.get_item_from_end sec 2 = Ok y).
  { unfold WindowsViewer.get_item_from_end.
    replace (length sec <? 2)%nat with false by (symmetry; apply Nat.ltb_ge; lia).
    unfold Py.get_item.
    destruct (nth_error sec (length sec - 2)) eqn:En; [eexists; reflexivity|].
    apply nth_error_None in En. lia. }
  destruct Hend as (y & Hy).
  unfold WindowsViewer.add_install_time in H. rewrite Hlast in H.
  change (Py.get_item sec 0) with (Ok (A:=string) s1) in H. simpl in H.
  destruct (Py.contains "Device Install " s1 && Py.contains "SUCCESS" e2);
    [|discriminate].
  rewrite Hy in H. simpl in H.
  destruct (strptime_ymd_hms _) as [t|e'] eqn:Es; [discriminate|].
  simpl in H. inversion H; subst e'. exact (strptime_ymd_hms_raise _ _ Es).
Qed.

Lemma sections_fold_raise (secs : list (list string)) :
  forall acc e, Forall win_section_shape secs ->
  (forall e', acc = Raise e' -> e' = ValueError) ->
  fold_left (fun acc s => let* td := acc in WindowsViewer.add_install_time td s)
            secs acc = Raise e -> e = ValueError.
Proof.
  induction secs as [|sec secs IH]; intros acc e Hs Hacc H.
  - exact (Hacc e H).
  - inversion Hs as [|? ? Hsec Hsecs]; subst. simpl in H.
    apply (IH (let* td := acc in WindowsViewer.add_install_time td sec) e Hsecs); [|exact H].
    intros e' He'. destruct acc as [td|e0].
    + exact (add_install_time_raise td sec e' Hsec He').
    + apply Hacc. exact He'.
Qed.

(** A Windows scan's first-connect pass raises only [ValueError] (a time
    stamp [strptime] rejects) or [RuntimeError] (a log ending just after a
    marker line) when every record has a serial number, as the records of
    [__get_base_device_info] do: the sections it indexes always have the
    lines it reads. *)
Theorem set_first_connect_dates_errors (logs : list (list string))
  (devs : list USBDeviceWindows) (e : exn) :
  Forall (fun d => serial_number (w_base d) <> None) devs ->
  WindowsViewer.set_first_connect_dates logs devs = Raise e ->
  e = ValueError \/ e = RuntimeError.
Proof.
  intros Hdevs H. unfold WindowsViewer.set_first_connect_dates in H.
  destruct (WindowsViewer.install_time_dict logs) as [td|e0] eqn:Etd.
  - exfalso. simpl in H. revert H. clear Etd.
    induction devs as [|d devs IH]; intros H; [discriminate|].
    inversion Hdevs as [|? ? Hd Hds]; subst.
    assert (Hloop : forall items d, serial_number (w_base d) <> None ->
              exists d', WindowsViewer.first_date_loop items d = Ok d').
    { induction items as [|[key t] items IHi]; intros d0 Hd0; [eexists; reflexivity|].
      simpl. destruct (serial_number (w_base d0)) as [sn|] eqn:Es; [|congruence].
      simpl. destruct (Py.contains sn key); apply IHi; simpl; congruence. }
    destruct (Hloop td d Hd) as (d' & Hd'). simpl in H. rewrite Hd' in H.
    simpl in H. destruct (WindowsViewer.map_result _ devs) as [ys|e0] eqn:Em;
      [discriminate|].
    simpl in H. inversion H; subst e0. exact (IH Hds eq_refl).
  - simpl in H. inversion H; subst e0. clear H.
    unfold WindowsViewer.install_time_dict in Etd.
    assert (Hgen : forall (logs : list (list string)) acc,
      (forall e', acc = Raise e' -> e' = ValueError \/ e' = RuntimeError) ->
      fold_left (fun acc lines =>
               let* td := acc in
               let (sections, e) := parse_windows_log lines in
               let* td := fold_left (fun acc s => let* td := acc in
                                                  WindowsViewer.add_install_time td s)
                                    sections (Ok td) in
               match e with Finished => Ok td | Raised ex => Raise ex end)
            logs acc = Raise e -> e = ValueError \/ e = RuntimeError).
    { induction logs0 as [|lines logs0 IH]; intros acc Hacc Hf; [exact (Hacc e Hf)|].
      simpl in Hf. refine (IH _ _ Hf).
      intros e' He'. destruct acc as [td0|e0]; [|apply Hacc; exact He'].
      simpl in He'.
      pose proof (parse_windows_log_file_end (length lines) lines [] (le_n _)) as Hend.
      assert (Hsh : Forall win_section_shape (fst (parse_windows_log lines))).
      { apply Forall_forall. intros sec Hsec.
        exact (LogFacts.parse_windows_log_file_shape (length lines) lines [] sec
                 (le_n _) (or_introl eq_refl) Hsec). }
      unfold parse_windows_log in He', Hsh.
      destruct (parse_windows_log_file [] lines) as [secs en]. simpl in Hend, Hsh.
      destruct (fold_left _ secs (Ok td0)) as [td1|e1] eqn:Ef.
      - simpl in He'. destruct en as [|ex]; [discriminate|].
        inversion He'; subst. destruct Hend as [Hend|Hend]; inversion Hend. now right.
      - simpl in He'. inversion He'; subst e1. left.
        apply (sections_fold_raise secs (Ok td0) e' Hsh); [congruence|exact Ef]. }
    apply (Hgen logs (Ok [])); [congruence|exact Etd].
Qed.

Lemma set_first_connect_dates_errors_witness :
  Forall (fun d => serial_number (w_base d) <> None) [sample_device] /\
  WindowsViewer.set_first_connect_dates
    [setupapi_section sample_usbstor_header "13/01"] [sample_device] = Raise ValueError /\
  (ValueError = ValueError \/ ValueError = RuntimeError).
Proof.
  assert (Hf : Forall (fun d => serial_number (w_base d) <> None) [sample_device]).
  { constructor; [simpl; discriminate | constructor]. }
  assert (Hr : WindowsViewer.set_first_connect_dates
                 [setupapi_section sample_usbstor_header "13/01"] [sample_device]
               = Raise ValueError) by (vm_compute; reflexivity).
  split; [exact Hf|]. split; [exact Hr|].
  exact (set_first_connect_dates_errors _ _ _ Hf Hr).
Defined.

Lemma first_date_loop_spec (items : list (string * datetime)) (sn : string) :
  forall d d', serial_number (w_base d) = Some sn ->
  WindowsViewer.first_date_loop items d = Ok d' ->
  match last_opt (time_candidates sn items) with
  | Some (_, t) => d' = with_base (set_first_connect_date (Some t) (base d)) d
  | None => d' = d
  end.
Proof.
  induction items as [|[key t] items IH]; intros d d' Hs H; simpl in H.
  - inversion H; subst d'. reflexivity.
  - rewrite Hs in H. simpl in H. unfold time_candidates. simpl filter.
    fold (time_candidates sn items).
    destruct (Py.contains sn key) eqn:Ec; simpl in H; simpl; [|exact (IH d d' Hs H)].
    rewrite last_opt_cons.
    specialize (IH (with_base (set_first_connect_date (Some t) (base d)) d) d' Hs H).
    destruct (last_opt (time_candidates sn items)) as [[k t']|].
    + rewrite IH. reflexivity.
    + exact IH.
Qed.

(** In a Windows scan's first-connect pass, a record with serial number [sn]
    takes as its first connect date the install time of the last key of
    [time_dict] (in dict order) that contains [sn], and stays unchanged when
    no key contains it. *)
Theorem set_first_connect_dates_last_key (logs : list (list string))
  (devs devs' : list USBDeviceWindows) (i : nat) (d : USBDeviceWindows) (sn : string) :
  WindowsViewer.set_first_connect_dates logs devs = Ok devs' ->
  nth_error devs i = Some d -> serial_number (w_base d) = Some sn ->
  exists td d', WindowsViewer.install_time_dict logs = Ok td /\
    nth_error devs' i = Some d' /\
    match last_opt (time_candidates sn td) with
    | Some (_, t) => d' = with_base (set_first_connect_date (Some t) (base d)) d
    | None => d' = d
    end.
Proof.
  intros H Hi Hs. unfold WindowsViewer.set_first_connect_dates in H.
  destruct (WindowsViewer.install_time_dict logs) as [td|e]; [|discriminate].
  simpl in H. destruct (map_result_nth _ _ _ _ _ H Hi) as (d' & Hd' & Hf).
  exists td, d'. split; [reflexivity|]. split; [exact Hd'|].
  exact (first_date_loop_spec td sn d d' Hs Hf).
Qed.

Lemma set_first_connect_dates_last_key_witness :
  exists devs', WindowsViewer.set_first_connect_dates [sample_setupapi_log] [sample_device]
                = Ok devs' /\
  nth_error [sample_device] 0 = Some sample_device /\
  serial_number (w_base sample_device) = Some "1234" /\
  exists td d', WindowsViewer.install_time_dict [sample_setupapi_log] = Ok td /\
    nth_error devs' 0 = Some d' /\
    match last_opt (time_candidates "1234" td) with
    | Some (_, t) => d' = with_base (set_first_connect_date (Some t) (base sample_device))
                                    sample_device
    | None => d' = sample_device
    end.
Proof.
  destruct (WindowsViewer.set_first_connect_dates [sample_setupapi_log] [sample_device])
    as [devs'|e] eqn:H; [|vm_compute in H; discriminate].
  exists devs'. split; [reflexivity|]. split; [reflexivity|]. split; [reflexivity|].
  exact (set_first_connect_dates_last_key _ _ _ 0 _ _ H eq_refl eq_refl).
Defined.

Lemma dict_set_keys_in {V} (k k' : string) (v : V) (d : list (string * V)) :
  In k (map fst (dict_set k' v d)) -> k = k' \/ In k (map fst d).
Proof.
  rewrite dict_set_keys. destruct (dict_mem k' d); [now right|].
  intros H. apply in_app_or in H as [H|[H|[]]]; [now right | now left].
Qed.

Lemma add_install_time_keys (td td' : list (string * datetime)) (sec : list string) :
  NoDup (map fst td) -> WindowsViewer.add_install_time td sec = Ok td' ->
  NoDup (map fst td') /\
  forall k, In k (map fst td') -> In k (map fst td) \/ installed_header sec k.
Proof.
  intros Hnd H. unfold WindowsViewer.add_install_time in H.
  destruct (Py.get_item sec 0) as [s0|e] eqn:E0; [|discriminate]. simpl in H.
  destruct (Py.last_item sec) as [sl|e] eqn:El; [|discriminate]. simpl in H.
  destruct (Py.contains "Device Install " s0) eqn:Ed; simpl in H;
    [|inversion H; subst td'; split; [exact Hnd | now left]].
  destruct (Py.contains "SUCCESS" sl) eqn:Es; simpl in H;
    [|inversion H; subst td'; split; [exact Hnd | now left]].
  destruct (WindowsViewer.get_item_from_end sec 2) as [s2|e]; [|discriminate].
  simpl in H. destruct (strptime_ymd_hms _) as [t|e]; [|discriminate].
  simpl in H. inversion H; subst td'. split; [exact (dict_set_NoDup _ _ _ Hnd)|].
  intros k Hk. destruct (dict_set_keys_in _ _ _ _ Hk) as [->|Hin]; [right|now left].
  unfold Py.get_item in E0. destruct sec as [|x sec']; [discriminate|].
  simpl in E0. inversion E0; subst x.
  split; [reflexivity|]. split; [exact Ed|]. exists sl. split; [exact El | exact Es].
Qed.

(** [time_dict] has distinct keys, and each of them is the header line of a
    device-install section of one of the setupapi logs that ended in
    [SUCCESS]: no other line is ever used as a key. *)
Theorem install_time_dict_keys (logs : list (list string))
  (td : list (string * datetime)) :
  WindowsViewer.install_time_dict logs = Ok td ->
  NoDup (map fst td) /\
  forall k, In k (map fst td) ->
    exists lines sec, In lines logs /\ In sec (fst (parse_windows_log lines)) /\
      installed_header sec k.
Proof.
  unfold WindowsViewer.install_time_dict.
  set (G := fun k => exists lines sec, In lines logs /\
              In sec (fst (parse_windows_log lines)) /\ installed_header sec k).
  assert (Hsecs : forall secs lines acc td',
            In lines logs -> (forall sec, In sec secs -> In sec (fst (parse_windows_log lines))) ->
            NoDup (map fst acc) -> (forall k, In k (map fst acc) -> G k) ->
            fold_left (fun acc s => let* td := acc in WindowsViewer.add_install_time td s)
                      secs (Ok acc) = Ok td' ->
            NoDup (map fst td') /\ forall k, In k (map fst td') -> G k).
  { induction secs as [|sec secs IH]; intros lines acc td' Hl Hs Hnd HG H.
    - simpl in H. inversion H; subst. split; assumption.
    - simpl in H. destruct (WindowsViewer.add_install_time acc sec) as [acc'|e] eqn:Ea.
      + destruct (add_install_time_keys _ _ _ Hnd Ea) as (Hnd' & Hk).
        apply (IH lines acc' td' Hl); [intros s' Hs'; apply Hs; now right | exact Hnd' | |
                                       exact H].
        intros k Hin. destruct (Hk k Hin) as [Hin'|Hh]; [exact (HG k Hin')|].
        exists lines, sec. split; [exact Hl|]. split; [apply Hs; now left | exact Hh].
      + exfalso. clear -H. induction secs as [|s secs IH]; [discriminate|].
        simpl in H. exact (IH H). }
  assert (Hlogs : forall ls acc td',
            (forall lines, In lines ls -> In lines logs) ->
            NoDup (map fst acc) -> (forall k, In k (map fst acc) -> G k) ->
            fold_left (fun acc lines =>
               let* td := acc in
               let (sections, e) := parse_windows_log lines in
               let* td := fold_left (fun acc s => let* td := acc in
                                                  WindowsViewer.add_install_time td s)
                                    sections (Ok td) in
               match e with Finished => Ok td | Raised ex => Raise ex end)
              ls (Ok acc) = Ok td' ->
            NoDup (map fst td') /\ forall k, In k (map fst td') -> G k).
  { induction ls as [|lines ls IH]; intros acc td' Hin Hnd HG H.
    - simpl in H. inversion H; subst. split; assumption.
    - simpl in H.
      destruct (parse_windows_log lines) as [secs en] eqn:Ep.
      destruct (fold_left _ secs (Ok acc)) as [acc'|e] eqn:Ef.
      + destruct (Hsecs secs lines acc acc' (Hin lines (or_introl eq_refl)))
          as (Hnd' & HG'); [rewrite Ep; simpl; tauto | exact Hnd | exact HG | exact Ef |].
        simpl in H. destruct en as [|ex].
        * apply (IH acc'); [intros l Hl; apply Hin; now right | exact Hnd' | exact HG' |
                            exact H].
        * exfalso. clear -H. induction ls as [|l ls IH]; [discriminate|].
          simpl in H. exact (IH H).
      + exfalso. simpl in H. clear -H. induction ls as [|l ls IH]; [discriminate|].
        simpl in H. exact (IH H). }
  intros H. apply (Hlogs logs [] td); [tauto | constructor | intros k [] | exact H].
Qed.

Lemma install_time_dict_keys_witness :
  exists td, WindowsViewer.install_time_dict [sample_setupapi_log] = Ok td /\
  NoDup (map fst td) /\
  forall k, In k (map fst td) ->
    exists lines sec, In lines [sample_setupapi_log] /\
      In sec (fst (parse_windows_log lines)) /\ installed_header sec k.
Proof.
  destruct (WindowsViewer.install_time_dict [sample_setupapi_log]) as [td|e] eqn:H;
    [|vm_compute in H; discriminate].
  exists td. split; [reflexivity|]. exact (install_time_dict_keys _ _ H).
Defined.

End FirstConnectFacts.

(* ------------------------------------------------------------------ *)
(** ** [__set_last_connect_dates] *)

Module LastConnectFacts.

Lemma last_date_loop_guid (fromtimestamp : Z -> result datetime)
  (mps : list (string * Z)) (g : string) :
  forall d d', guid d = Some g ->
  WindowsViewerScan.last_date_loop fromtimestamp mps d = Ok d' ->
  match last_opt (filter (fun gk => String.eqb (fst gk) g) mps) with
  | Some (_, lwt) => exists t, fromtimestamp (convert_windows_time_to_unix lwt) = Ok t /\
                       d' = with_base (set_last_connect_date (Some t) (base d)) d
  | None => d' = d
  end.
Proof.
  induction mps as [|[k lwt] mps IH]; intros d d' Hg H; simpl in H.
  - inversion H; subst d'. reflexivity.
  - replace (opt_str_eqb (guid d) (Some k)) with (String.eqb g k) in H
      by (rewrite Hg; reflexivity).
    simpl filter. rewrite (String.eqb_sym k g).
    destruct (String.eqb g k) eqn:E; simpl in H; [|exact (IH d d' Hg H)].
    rewrite last_opt_cons.
    unfold WindowsViewerScan.get_registry_timestamp in H.
    destruct (fromtimestamp (convert_windows_time_to_unix lwt)) as [t|e] eqn:Et;
      [|discriminate].
    simpl in H.
    specialize (IH (with_base (set_last_connect_date (Some t) (base d)) d) d' Hg H).
    destruct (last_opt (filter (fun gk => String.eqb (fst gk) g) mps)) as [[k' lwt']|].
    + destruct IH as (t' & Ht' & ->). exists t'. split; [exact Ht' | reflexivity].
    + exists t. split; [exact Et | exact IH].
Qed.

Lemma last_date_loop_no_guid (fromtimestamp : Z -> result datetime)
  (mps : list (string * Z)) (d d' : USBDeviceWindows) :
  guid d = None ->
  WindowsViewerScan.last_date_loop fromtimestamp mps d = Ok d' -> d' = d.
Proof.
  intros Hg. induction mps as [|[k lwt] mps IH]; intros H; simpl in H.
  - inversion H. reflexivity.
  - rewrite Hg in H. simpl in H. exact (IH H).
Qed.

(** In a Windows scan's last-connect pass, a record with GUID [g] takes as
    its last connect date the local time of the last-write time (converted
    from FILETIME to unix time) of the last [MountPoints2] subkey named [g],
    and stays unchanged when there is none or when it has no GUID. *)
Theorem set_last_connect_dates_guid (fromtimestamp : Z -> result datetime)
  (mps : list (string * Z)) (devs devs' : list USBDeviceWindows) (i : nat)
  (d : USBDeviceWindows) :
  WindowsViewerScan.set_last_connect_dates fromtimestamp mps devs = Ok devs' ->
  nth_error devs i = Some d ->
  exists d', nth_error devs' i = Some d' /\
    match guid d with
    | Some g =>
        match last_opt (filter (fun gk => String.eqb (fst gk) g) mps) with
        | Some (_, lwt) =>
            exists t, fromtimestamp (convert_windows_time_to_unix lwt) = Ok t /\
              d' = with_base (set_last_connect_date (Some t) (base d)) d
        | None => d' = d
        end
    | None => d' = d
    end.
Proof.
  intros H Hi. unfold WindowsViewerScan.set_last_connect_dates in H.
  destruct (map_result_nth _ _ _ _ _ H Hi) as (d' & Hd' & Hf).
  exists d'. split; [exact Hd'|].
  destruct (guid d) as [g|] eqn:Hg.
  - exact (last_date_loop_guid fromtimestamp mps g d d' Hg Hf).
  - exact (last_date_loop_no_guid fromtimestamp mps d d' Hg Hf).
Qed.

Lemma set_last_connect_dates_guid_witness :
  let fromtimestamp := fun ts : Z => Ok (mkdatetime 2023 3 1 10 0 (ts mod 60)) in
  let d := set_guid (Some "{11111111-aaaa}") sample_device in
  let mps := [("{11111111-aaaa}", 133221456000000000%Z); ("{22222222-bbbb}", 0%Z)] in
  exists devs',
    WindowsViewerScan.set_last_connect_dates fromtimestamp mps [d] = Ok devs' /\
    nth_error [d] 0 = Some d /\
    exists d', nth_error devs' 0 = Some d' /\
    match guid d with
    | Some g =>
        match last_opt (filter (fun gk => String.eqb (fst gk) g) mps) with
        | Some (_, lwt) =>
            exists t, fromtimestamp (convert_windows_time_to_unix lwt) = Ok t /\
              d' = with_base (set_last_connect_date (Some t) (base d)) d
        | None => d' = d
        end
    | None => d' = d
    end.
Proof.
  intros fromtimestamp d mps.
  destruct (WindowsViewerScan.set_last_connect_dates fromtimestamp mps [d])
    as [devs'|e] eqn:H; [|vm_compute in H; discriminate].
  exists devs'. split; [reflexivity|]. split; [reflexivity|].
  exact (set_last_connect_dates_guid fromtimestamp mps [d] devs' 0 d H eq_refl).
Defined.

End LastConnectFacts.

(* ------------------------------------------------------------------ *)
(** ** Errors of the Windows correlation passes *)

Module PassErrors.

Lemma map_result_raise {A B} (f : A -> result B) (xs : list A) (e : exn) :
  WindowsViewer.map_result f xs = Raise e -> exists x, In x xs /\ f x = Raise e.
Proof.
  induction xs as [|x xs IH]; simpl; [discriminate|].
  destruct (f x) as [y|e0] eqn:E; simpl.
  - destruct (WindowsViewer.map_result f xs) as [ys|e1]; simpl; [discriminate|].
    intros H. inversion H; subst e1. destruct (IH eq_refl) as (x' & Hin & Hx).
    exists x'. split; [now right | exact Hx].
  - intros H. inversion H; subst e0. exists x. split; [now left | exact E].
Qed.

Lemma map_result_ok {A B} (f : A -> result B) (xs : list A) :
  (forall x, In x xs -> exists y, f x = Ok y) ->
  exists ys, WindowsViewer.map_result f xs = Ok ys.
Proof.
  induction xs as [|x xs IH]; intros H; simpl; [now exists []|].
  destruct (H x (or_introl eq_refl)) as [y Hy]. rewrite Hy. simpl.
  destruct IH as [ys Hys]; [intros x' Hx'; apply H; now right|].
  rewrite Hys. now exists (y :: ys).
Qed.

Lemma split_on_nonempty (sep : ascii) (s : string) : Py.split_on sep s <> [].
Proof.
  destruct s as [|c s]; simpl; [discriminate|].
  destruct (Ascii.eqb c sep); [discriminate|].
  destruct (Py.split_on sep s); discriminate.
Qed.

(** [str.index] raises only [ValueError], and only when the needle is absent. *)
Lemma index_raise (s sub : string) (e : exn) :
  Py.index s sub = Raise e -> e = ValueError /\ Py.contains sub s = false.
Proof.
  unfold Py.index, Py.index_from, Py.find_from, Py.contains. simpl.
  rewrite Nat.sub_0_r, substring_0_length.
  destruct (Py.find0 sub s) as [[|k]|]; simpl; intros H; inversion H; auto.
Qed.

Lemma usb_device_dict_raise (usb : list (string * list string)) (e : exn) :
  WindowsViewer.usb_device_dict usb = Raise e ->
  e = IndexError /\
  exists did, In (did, []) usb /\ Py.contains "VID" did = true /\
              Py.contains "PID" did = true.
Proof.
  unfold WindowsViewer.usb_device_dict.
  assert (Hgen : forall usb acc,
    fold_left (fun acc '(device_id, subkeys) =>
               let* dd := acc in
               if negb (Py.contains "VID" device_id) || negb (Py.contains "PID" device_id)
               then Ok dd
               else let* serial_number := Py.get_item subkeys 0 in
                    Ok (dict_set serial_number device_id dd))
            usb acc = Raise e ->
    acc = Raise e \/
    (e = IndexError /\
     exists did, In (did, []) usb /\ Py.contains "VID" did = true /\
                 Py.contains "PID" did = true)).
  { induction usb0 as [|[did subs] usb0 IH]; intros acc H; simpl in H; [now left|].
    destruct (IH _ H) as [Hacc | (He & did' & Hin & Hv & Hp)].
    - destruct acc as [dd|e0]; simpl in Hacc; [|now left].
      destruct (Py.contains "VID" did) eqn:Ev; destruct (Py.contains "PID" did) eqn:Ep;
        simpl in Hacc; try discriminate.
      destruct subs as [|s0 subs]; simpl in Hacc; [|discriminate].
      inversion Hacc; subst e. right. split; [reflexivity|].
      exists did. split; [now left | now split].
    - right. split; [exact He|]. exists did'. split; [now right | now split]. }
  intros H. destruct (Hgen usb (Ok []) H) as [Hacc | Hr]; [discriminate | exact Hr].
Qed.

Lemma ids_loop_raise (items : list (string * string)) (d : USBDeviceWindows) (e : exn) :
  NoDup (map fst items) ->
  WindowsViewer.ids_loop items d = Raise e ->
  e = IndexError /\
  exists sn did x, serial_number (w_base d) = Some sn /\
    dict_get sn items = Some did /\ Py.split_on "&" did = [x].
Proof.
  revert d. induction items as [|[k v] items IH]; intros d Hnd H; simpl in H;
    [discriminate|].
  inversion Hnd as [|? ? Hk Hnd']; subst.
  destruct (opt_str_eqb (serial_number (w_base d)) (Some k)) eqn:E; simpl in H.
  - apply opt_str_eqb_eq in E.
    destruct (WindowsViewer.assign_ids v d) as [d1|e1] eqn:Ea; simpl in H.
    + destruct (WindowsPasses.assign_ids_spec v d d1 Ea) as (i0 & i1 & r & _ & ->).
      rewrite WindowsPasses.ids_loop_nomatch in H; [discriminate|].
      intros k' Hk' Heq. simpl in Heq. rewrite E in Heq. inversion Heq; subst k'.
      exact (Hk Hk').
    + inversion H; subst e1. unfold WindowsViewer.assign_ids in Ea.
      destruct (Py.split_on "&" v) as [|i0 [|i1 r]] eqn:Es; simpl in Ea.
      * exfalso. exact (split_on_nonempty "&" v Es).
      * inversion Ea; subst e. split; [reflexivity|].
        exists k, v, i0. split; [exact E|]. split; [simpl; now rewrite String.eqb_refl|].
        exact Es.
      * discriminate.
  - destruct (IH d Hnd' H) as (He & sn & did & x & Hs & Hg & Hx).
    split; [exact He|]. exists sn, did, x. split; [exact Hs|]. split; [|exact Hx].
    simpl. rewrite Hs in E. simpl in E. rewrite E. exact Hg.
Qed.

Lemma guid_loop_raise (vals : list (string * list Byte.byte)) (p : string)
  (d : USBDeviceWindows) (e : exn) :
  parent_prefix_id d = Some p ->
  WindowsViewer.guid_loop vals d = Raise e ->
  e = ValueError /\
  exists key v, In (key, v) (guid_candidates p vals) /\ Py.contains "{" key = false.
Proof.
  revert d. induction vals as [|[key value] vals IH]; intros d Hp H; simpl in H;
    [discriminate|].
  rewrite Hp in H. simpl in H. unfold guid_candidates. simpl filter.
  fold (guid_candidates p vals).
  destruct (Py.contains p (convert_binary_to_ascii_string value)) eqn:Ec;
    simpl in H; simpl.
  - destruct (Py.contains "\Volume" key) eqn:Ev; simpl.
    + destruct (Py.index key "{") as [gi|e0] eqn:Ei; simpl in H.
      * destruct (IH (set_guid (Some (Py.slice_from key (Z.of_nat gi))) d) Hp H)
          as (He & k & v & Hin & Hk).
        split; [exact He|]. exists k, v. split; [now right | exact Hk].
      * inversion H; subst e0. destruct (index_raise _ _ _ Ei) as [He Hk].
        split; [exact He|]. exists key, value. split; [now left | exact Hk].
    + exact (IH d Hp H).
  - exact (IH d Hp H).
Qed.

Lemma drive_loop_ok (keys : list (string * list (string * string))) (p : string)
  (d : USBDeviceWindows) :
  parent_prefix_id d = Some p -> exists d', WindowsViewer.drive_loop keys d = Ok d'.
Proof.
  revert d. induction keys as [|[key vals] keys IH]; intros d Hp; simpl;
    [now exists d|].
  rewrite Hp. simpl. destruct (Py.contains p key); simpl; apply IH; exact Hp.
Qed.

Lemma first_date_loop_ok (items : list (string * datetime)) (sn : string)
  (d : USBDeviceWindows) :
  serial_number (w_base d) = Some sn ->
  exists d', WindowsViewer.first_date_loop items d = Ok d'.
Proof.
  revert d. induction items as [|[key t] items IH]; intros d Hs; simpl;
    [now exists d|].
  rewrite Hs. simpl. destruct (Py.contains sn key); apply IH; exact Hs.
Qed.

Lemma last_date_loop_raise (fromtimestamp : Z -> result datetime)
  (mps : list (string * Z)) (d : USBDeviceWindows) (e : exn) :
  WindowsViewerScan.last_date_loop fromtimestamp mps d = Raise e ->
  exists g lwt, guid d = Some g /\ In (g, lwt) mps /\
    fromtimestamp (convert_windows_time_to_unix lwt) = Raise e.
Proof.
  revert d. induction mps as [|[g0 lwt] mps IH]; intros d H; simpl in H;
    [discriminate|].
  destruct (opt_str_eqb (guid d) (Some g0)) eqn:E; simpl in H.
  - unfold WindowsViewerScan.get_registry_timestamp in H.
    destruct (fromtimestamp (convert_windows_time_to_unix lwt)) as [t|e0] eqn:Et;
      simpl in H.
    + destruct (IH _ H) as (g & lwt' & Hg & Hin & Hf).
      exists g, lwt'. split; [exact Hg|]. split; [now right | exact Hf].
    + inversion H; subst e0. apply opt_str_eqb_eq in E.
      exists g0, lwt. split; [exact E|]. split; [now left | exact Et].
  - destruct (IH _ H) as (g & lwt' & Hg & Hin & Hf).
    exists g, lwt'. split; [exact Hg|]. split; [now right | exact Hf].
Qed.

End PassErrors.

(** Claim C9 (amended): in the vendor/product-id, GUID, drive-letter and
    last-connect-date passes of [WindowsViewer], a record takes its value
    from the last entry, in scan order, that matches it; a pass that returns
    leaves the field as it was only when no entry matches.  The matching
    entries are, for the ids pass, the keys of [USB] whose name holds [VID]
    and [PID] and whose first subkey equals the serial number; for the GUID
    pass, the [MountedDevices] values whose data holds the parent prefix id
    and whose name holds [\Volume]; for the drive-letter pass, the
    [Portable Devices] keys whose name holds the parent prefix id; for the
    last-connect pass, the [MountPoints2] subkeys named by the GUID.  The
    first-connect pass matches the keys of [time_dict] holding the serial
    number, in dict order, and takes the last one.  A match can raise: the
    ids pass raises only [IndexError], when a [VID]/[PID] key has no subkey
    or when the name of the last matching key has no ['&']; the GUID pass
    raises only [ValueError], when a matching value name has no ['{']; the
    drive-letter pass never raises; the first-connect pass raises only while
    building [time_dict]; the last-connect pass raises only what
    [datetime.fromtimestamp] raises at a matching subkey.  (Records are
    assumed to carry their serial number and parent prefix id, as
    [__get_base_device_info] builds them; the value names of a registry key
    are distinct.) *)
Theorem correlation_last_match :
  (forall usb devs devs' i d,
     WindowsViewer.set_vendor_and_product_ids usb devs = Ok devs' ->
     nth_error devs i = Some d ->
     exists d', nth_error devs' i = Some d' /\
       match serial_number (w_base d) with
       | Some sn =>
           match last_opt (usb_candidates sn usb) with
           | Some (did, _) =>
               exists i0 i1 r, Py.split_on "&" did = i0 :: i1 :: r /\
                 d' = with_base (set_ids (Some (Py.replace i0 "VID_" ""))
                                         (Some (Py.replace i1 "PID_" "")) (base d)) d
           | None => d' = d
           end
       | None => d' = d
       end) /\
  (forall mounted devs devs' i d p,
     NoDup (map fst mounted) ->
     WindowsViewer.set_guids mounted devs = Ok devs' ->
     nth_error devs i = Some d -> parent_prefix_id d = Some p ->
     exists d', nth_error devs' i = Some d' /\
       match last_opt (guid_candidates p mounted) with
       | Some (key, _) =>
           exists gi, Py.index key "{" = Ok gi /\
             d' = set_guid (Some (Py.slice_from key (Z.of_nat gi))) d
       | None => d' = d
       end) /\
  (forall portable devs devs' i d p,
     WindowsViewer.set_drive_letters portable devs = Ok devs' ->
     nth_error devs i = Some d -> parent_prefix_id d = Some p ->
     exists d', nth_error devs' i = Some d' /\
       match last_opt (drive_candidates p portable) with
       | Some (_, vals) =>
           d' = set_drive_letter (dict_get "FriendlyName" (registry_values vals)) d
       | None => d' = d
       end) /\
  (forall logs devs devs' i d sn,
     WindowsViewer.set_first_connect_dates logs devs = Ok devs' ->
     nth_error devs i = Some d -> serial_number (w_base d) = Some sn ->
     exists td d', WindowsViewer.install_time_dict logs = Ok td /\
       nth_error devs' i = Some d' /\
       match last_opt (time_candidates sn td) with
       | Some (_, t) => d' = with_base (set_first_connect_date (Some t) (base d)) d
       | None => d' = d
       end) /\
  (forall fromtimestamp mps devs devs' i d g,
     WindowsViewerScan.set_last_connect_dates fromtimestamp mps devs = Ok devs' ->
     nth_error devs i = Some d -> guid d = Some g ->
     exists d', nth_error devs' i = Some d' /\
       match last_opt (filter (fun gk => String.eqb (fst gk) g) mps) with
       | Some (_, lwt) =>
           exists t, fromtimestamp (convert_windows_time_to_unix lwt) = Ok t /\
             d' = with_base (set_last_connect_date (Some t) (base d)) d
       | None => d' = d
       end) /\
  (forall usb devs e,
     WindowsViewer.set_vendor_and_product_ids usb devs = Raise e ->
     e = IndexError /\
     ((exists did, In (did, []) usb /\ Py.contains "VID" did = true /\
                   Py.contains "PID" did = true) \/
      (exists d sn did subs x, In d devs /\ serial_number (w_base d) = Some sn /\
         last_opt (usb_candidates sn usb) = Some (did, subs) /\
         Py.split_on "&" did = [x]))) /\
  (forall mounted devs e,
     NoDup (map fst mounted) ->
     Forall (fun d => parent_prefix_id d <> None) devs ->
     WindowsViewer.set_guids mounted devs = Raise e ->
     e = ValueError /\
     exists d p key v, In d devs /\ parent_prefix_id d = Some p /\
       In (key, v) (guid_candidates p mounted) /\ Py.contains "{" key = false) /\
  (forall portable devs,
     Forall (fun d => parent_prefix_id d <> None) devs ->
     exists devs', WindowsViewer.set_drive_letters portable devs = Ok devs') /\
  (forall logs devs e,
     Forall (fun d => serial_number (w_base d) <> None) devs ->
     WindowsViewer.set_first_connect_dates logs devs = Raise e ->
     WindowsViewer.install_time_dict logs = Raise e) /\
  (forall fromtimestamp mps devs e,
     WindowsViewerScan.set_last_connect_dates fromtimestamp mps devs = Raise e ->
     exists d g lwt, In d devs /\ guid d = Some g /\ In (g, lwt) mps /\
       fromtimestamp (convert_windows_time_to_unix lwt) = Raise e).
Proof.
  split; [|split; [|split; [|split; [|split; [|split; [|split; [|split; [|split]]]]]]]].
  - intros usb devs devs' i d H Hi.
    unfold WindowsViewer.set_vendor_and_product_ids in H.
    destruct (WindowsViewer.usb_device_dict usb) as [dd|e] eqn:Ed; [|discriminate].
    simpl in H. destruct (map_result_nth _ _ _ _ _ H Hi) as (d' & Hd' & Hl).
    exists d'. split; [exact Hd'|].
    destruct (WindowsPasses.usb_device_dict_spec _ _ Ed) as [Hn Hg].
    pose proof (WindowsPasses.ids_loop_spec dd d d' Hn Hl) as Hs.
    destruct (serial_number (w_base d)) as [sn|]; [|exact Hs].
    rewrite Hg in Hs.
    destruct (last_opt (usb_candidates sn usb)) as [[did subs]|]; simpl in Hs;
      [apply WindowsPasses.assign_ids_spec|]; exact Hs.
  - intros mounted devs devs' i d p Hn H Hi Hp.
    unfold WindowsViewer.set_guids in H. rewrite (registry_values_unique _ Hn) in H.
    destruct (map_result_nth _ _ _ _ _ H Hi) as (d' & Hd' & Hl).
    exists d'. split; [exact Hd'|].
    exact (WindowsPasses.guid_loop_spec mounted p d d' Hp Hl).
  - intros portable devs devs' i d p H Hi Hp.
    unfold WindowsViewer.set_drive_letters in H.
    destruct (map_result_nth _ _ _ _ _ H Hi) as (d' & Hd' & Hl).
    exists d'. split; [exact Hd'|].
    exact (WindowsPasses.drive_loop_spec portable p d d' Hp Hl).
  - intros logs devs devs' i d sn H Hi Hs.
    unfold WindowsViewer.set_first_connect_dates in H.
    destruct (WindowsViewer.install_time_dict logs) as [td|e]; [|discriminate].
    simpl in H. destruct (map_result_nth _ _ _ _ _ H Hi) as (d' & Hd' & Hf).
    exists td, d'. split; [reflexivity|]. split; [exact Hd'|].
    exact (FirstConnectFacts.first_date_loop_spec td sn d d' Hs Hf).
  - intros fromtimestamp mps devs devs' i d g H Hi Hg.
    unfold WindowsViewerScan.set_last_connect_dates in H.
    destruct (map_result_nth _ _ _ _ _ H Hi) as (d' & Hd' & Hf).
    exists d'. split; [exact Hd'|].
    exact (LastConnectFacts.last_date_loop_guid fromtimestamp mps g d d' Hg Hf).
  - intros usb devs e H.
    unfold WindowsViewer.set_vendor_and_product_ids in H.
    destruct (WindowsViewer.usb_device_dict usb) as [dd|e0] eqn:Ed; simpl in H.
    + destruct (PassErrors.map_result_raise _ _ _ H) as (d & Hin & Hl).
      destruct (WindowsPasses.usb_device_dict_spec _ _ Ed) as [Hn Hg].
      destruct (PassErrors.ids_loop_raise dd d e Hn Hl)
        as (He & sn & did & x & Hs & Hd & Hx).
      split; [exact He|]. right. rewrite Hg in Hd.
      destruct (last_opt (usb_candidates sn usb)) as [[did' subs]|] eqn:El;
        simpl in Hd; inversion Hd; subst did'.
      exists d, sn, did, subs, x. repeat split; assumption.
    + inversion H; subst e0. destruct (PassErrors.usb_device_dict_raise _ _ Ed)
        as [He Hr]. split; [exact He | left; exact Hr].
  - intros mounted devs e Hn Hf H.
    unfold WindowsViewer.set_guids in H. rewrite (registry_values_unique _ Hn) in H.
    destruct (PassErrors.map_result_raise _ _ _ H) as (d & Hin & Hl).
    rewrite Forall_forall in Hf.
    destruct (parent_prefix_id d) as [p|] eqn:Hp; [|exfalso; exact (Hf d Hin Hp)].
    destruct (PassErrors.guid_loop_raise mounted p d e Hp Hl)
      as (He & key & v & Hk & Hb).
    split; [exact He|]. exists d, p, key, v. repeat split; assumption.
  - intros portable devs Hf. unfold WindowsViewer.set_drive_letters.
    apply PassErrors.map_result_ok. intros d Hin. rewrite Forall_forall in Hf.
    destruct (parent_prefix_id d) as [p|] eqn:Hp; [|exfalso; exact (Hf d Hin Hp)].
    exact (PassErrors.drive_loop_ok portable p d Hp).
  - intros logs devs e Hf H. unfold WindowsViewer.set_first_connect_dates in H.
    destruct (WindowsViewer.install_time_dict logs) as [td|e0]; simpl in H;
      [|inversion H; reflexivity].
    exfalso.
    destruct (PassErrors.map_result_ok (WindowsViewer.first_date_loop td) devs)
      as [ys Hys]; [|congruence].
    intros d Hin. rewrite Forall_forall in Hf.
    destruct (serial_number (w_base d)) as [sn|] eqn:Hs; [|exfalso; exact (Hf d Hin Hs)].
    exact (PassErrors.first_date_loop_ok td sn d Hs).
  - intros fromtimestamp mps devs e H.
    unfold WindowsViewerScan.set_last_connect_dates in H.
    destruct (PassErrors.map_result_raise _ _ _ H) as (d & Hin & Hl).
    destruct (PassErrors.last_date_loop_raise _ _ _ _ Hl) as (g & lwt & Hg & Hm & Hr).
    exists d, g, lwt. repeat split; assumption.
Qed.

Lemma correlation_last_match_witness :
  NoDup (map fst sample_mounted) /\
  parent_prefix_id sample_device = Some "1234&0" /\
  (exists devs d',
     WindowsViewer.set_vendor_and_product_ids sample_usb [sample_device] = Ok devs /\
     nth_error devs 0 = Some d' /\
     vendor_id (w_base d') = Some "090C" /\ product_id (w_base d') = Some "1000") /\
  (exists devs d',
     WindowsViewer.set_guids sample_mounted [sample_device] = Ok devs /\
     nth_error devs 0 = Some d' /\ guid d' = Some "{22222222-bbbb}") /\
  (exists devs d',
     WindowsViewer.set_drive_letters sample_portable [sample_device] = Ok devs /\
     nth_error devs 0 = Some d' /\ drive_letter d' = Some "KINGSTON (F:)") /\
  (exists devs d',
     WindowsViewer.set_first_connect_dates [sample_setupapi_log] [sample_device]
       = Ok devs /\
     nth_error devs 0 = Some d' /\
     first_connect_date (w_base d') = Some (mkdatetime 2023 2 1 10 0 1)) /\
  (exists devs d',
     WindowsViewerScan.set_last_connect_dates
       (fun ts => Ok (mkdatetime 2023 3 1 10 0 (ts mod 60)))
       [("{11111111-aaaa}", 133221456000000000%Z); ("{22222222-bbbb}", 0%Z);
        ("{11111111-aaaa}", 133221456010000000%Z)]
       [set_guid (Some "{11111111-aaaa}") sample_device] = Ok devs /\
     nth_error devs 0 = Some d' /\
     last_connect_date (w_base d') = Some (mkdatetime 2023 3 1 10 0 1)) /\
  (WindowsViewer.set_vendor_and_product_ids sample_usb_no_amp [sample_device]
     = Raise IndexError /\
   exists d sn did subs x, In d [sample_device] /\
     serial_number (w_base d) = Some sn /\
     last_opt (usb_candidates sn sample_usb_no_amp) = Some (did, subs) /\
     Py.split_on "&" did = [x]) /\
  (WindowsViewer.set_guids sample_mounted_no_brace [sample_device] = Raise ValueError /\
   exists d p key v, In d [sample_device] /\ parent_prefix_id d = Some p /\
     In (key, v) (guid_candidates p sample_mounted_no_brace) /\
     Py.contains "{" key = false) /\
  (exists devs, WindowsViewer.set_drive_letters sample_portable [sample_device]
                = Ok devs) /\
  (WindowsViewer.set_first_connect_dates
     [setupapi_section sample_usbstor_header "13/01"] [sample_device]
   = Raise ValueError /\
   WindowsViewer.install_time_dict [setupapi_section sample_usbstor_header "13/01"]
   = Raise ValueError) /\
  (WindowsViewerScan.set_last_connect_dates (fun _ => Raise ValueError)
     [("{11111111-aaaa}", 0%Z)] [set_guid (Some "{11111111-aaaa}") sample_device]
   = Raise ValueError /\
   exists d g lwt, In d [set_guid (Some "{11111111-aaaa}") sample_device] /\
     guid d = Some g /\ In (g, lwt) [("{11111111-aaaa}", 0%Z)] /\
     (fun _ : Z => @Raise datetime ValueError) (convert_windows_time_to_unix lwt)
     = Raise ValueError).
Proof.
  destruct correlation_last_match
    as [H1 [H2 [H3 [H4 [H5 [H6 [H7 [H8 [H9 H10]]]]]]]]].
  assert (Hn : NoDup (map fst sample_mounted)).
  { vm_compute. repeat constructor; vm_compute; intuition discriminate. }
  assert (Hp : parent_prefix_id sample_device = Some "1234&0") by reflexivity.
  assert (Hpf : Forall (fun d => parent_prefix_id d <> None) [sample_device]).
  { constructor; [discriminate | constructor]. }
  split; [exact Hn|]. split; [exact Hp|].
  split; [|split; [|split; [|split; [|split; [|split; [|split; [|split; [|split]]]]]]]].
  - destruct (WindowsViewer.set_vendor_and_product_ids sample_usb [sample_device])
      as [devs|e] eqn:Hr; [|vm_compute in Hr; discriminate].
    destruct (H1 _ _ _ 0 _ Hr eq_refl) as (d' & Hd' & Hs).
    exists devs, d'. split; [reflexivity|]. split; [exact Hd'|].
    vm_compute in Hs. destruct Hs as (i0 & i1 & r & Hsp & ->).
    injection Hsp as <- <- _. split; reflexivity.
  - destruct (WindowsViewer.set_guids sample_mounted [sample_device])
      as [devs|e] eqn:Hr; [|vm_compute in Hr; discriminate].
    destruct (H2 _ _ _ 0 _ _ Hn Hr eq_refl Hp) as (d' & Hd' & Hs).
    exists devs, d'. split; [reflexivity|]. split; [exact Hd'|].
    vm_compute in Hs. destruct Hs as (gi & Hgi & ->).
    injection Hgi as <-. reflexivity.
  - destruct (WindowsViewer.set_drive_letters sample_portable [sample_device])
      as [devs|e] eqn:Hr; [|vm_compute in Hr; discriminate].
    destruct (H3 _ _ _ 0 _ _ Hr eq_refl Hp) as (d' & Hd' & Hs).
    exists devs, d'. split; [reflexivity|]. split; [exact Hd'|].
    vm_compute in Hs. rewrite Hs. reflexivity.
  - destruct (WindowsViewer.set_first_connect_dates [sample_setupapi_log] [sample_device])
      as [devs|e] eqn:Hr; [|vm_compute in Hr; discriminate].
    destruct (H4 _ _ _ 0 _ "1234" Hr eq_refl eq_refl) as (td & d' & Htd & Hd' & Hs).
    exists devs, d'. split; [reflexivity|]. split; [exact Hd'|].
    vm_compute in Htd. injection Htd as <-. vm_compute in Hs. rewrite Hs. reflexivity.
  - destruct (WindowsViewerScan.set_last_connect_dates
                (fun ts => Ok (mkdatetime 2023 3 1 10 0 (ts mod 60)))
                [("{11111111-aaaa}", 133221456000000000%Z); ("{22222222-bbbb}", 0%Z);
                 ("{11111111-aaaa}", 133221456010000000%Z)]
                [set_guid (Some "{11111111-aaaa}") sample_device])
      as [devs|e] eqn:Hr; [|vm_compute in Hr; discriminate].
    destruct (H5 _ _ _ _ 0 _ "{11111111-aaaa}" Hr eq_refl eq_refl) as (d' & Hd' & Hs).
    exists devs, d'. split; [reflexivity|]. split; [exact Hd'|].
    vm_compute in Hs. destruct Hs as (t & Ht & ->). injection Ht as <-.
    vm_compute. reflexivity.
  - assert (Hr : WindowsViewer.set_vendor_and_product_ids sample_usb_no_amp
                   [sample_device] = Raise IndexError) by (vm_compute; reflexivity).
    split; [exact Hr|].
    destruct (H6 _ _ _ Hr) as [_ [(did & Hin & _) | Hs]]; [|exact Hs].
    exfalso. vm_compute in Hin. intuition discriminate.
  - assert (Hnb : NoDup (map fst sample_mounted_no_brace)).
    { vm_compute. repeat constructor; vm_compute; intuition discriminate. }
    assert (Hr : WindowsViewer.set_guids sample_mounted_no_brace [sample_device]
                 = Raise ValueError) by (vm_compute; reflexivity).
    split; [exact Hr|]. exact (proj2 (H7 _ _ _ Hnb Hpf Hr)).
  - exact (H8 _ _ Hpf).
  - assert (Hsf : Forall (fun d => serial_number (w_base d) <> None) [sample_device]).
    { constructor; [discriminate | constructor]. }
    assert (Hr : WindowsViewer.set_first_connect_dates
                   [setupapi_section sample_usbstor_header "13/01"] [sample_device]
                 = Raise ValueError) by (vm_compute; reflexivity).
    split; [exact Hr|]. exact (H9 _ _ _ Hsf Hr).
  - assert (Hr : WindowsViewerScan.set_last_connect_dates (fun _ => Raise ValueError)
                   [("{11111111-aaaa}", 0%Z)]
                   [set_guid (Some "{11111111-aaaa}") sample_device]
                 = Raise ValueError) by (vm_compute; reflexivity).
    split; [exact Hr|]. exact (H10 _ _ _ _ Hr).
Defined.

(** Claim C9, as stated, fails.  An ambiguous match can be an error: of the
    two [USB] keys filed under [1234] the last one has no ['&'], so the ids
    pass raises [IndexError]; of the two volume values holding [1234&0] the
    second one has no ['{'], so the GUID pass raises [ValueError].  And the
    first-connect pass does not take the last matching section scanned: the
    install times are first gathered in a dict keyed by section header, where
    a header seen again keeps its first place and takes its later time.  The
    last section of [sample_setupapi_log] naming the serial number [1234] was
    installed on March 1, but the record takes the February 1 time of the
    [USB] header, which comes after the [USBSTOR] header in the dict. *)
Lemma correlation_ambiguous_match_raises :
  WindowsViewer.set_vendor_and_product_ids sample_usb_no_amp [sample_device]
  = Raise IndexError /\
  WindowsViewer.set_guids sample_mounted_no_brace [sample_device] = Raise ValueError /\
  last_opt (filter (fun section => Py.contains "1234" (hd EmptyString section))
                   (fst (parse_windows_log sample_setupapi_log)))
  = Some (setupapi_section sample_usbstor_header "03/01") /\
  WindowsViewer.set_first_connect_dates [sample_setupapi_log] [sample_device]
  = Ok [with_base (set_first_connect_date (Some (mkdatetime 2023 2 1 10 0 1))
                                          (base sample_device)) sample_device].
Proof. repeat split; vm_compute; reflexivity. Qed.


(* ------------------------------------------------------------------ *)
(** ** [WindowsViewer.get_usb_devices] *)

Module ScanFacts.

Lemma map_result_keeps {A C} (f : A -> result A) (k : A -> C) (xs ys : list A) :
  (forall x y, f x = Ok y -> k y = k x) ->
  WindowsViewer.map_result f xs = Ok ys -> map k ys = map k xs.
Proof.
  intros Hf. revert ys. induction xs as [|x xs IH]; intros ys H; simpl in H.
  - inversion H. reflexivity.
  - destruct (f x) as [y|e] eqn:Ex; [|discriminate]. simpl in H.
    destruct (WindowsViewer.map_result f xs) as [ys0|e]; [|discriminate].
    simpl in H. inversion H; subst ys. simpl. rewrite (Hf _ _ Ex), (IH ys0 eq_refl).
    reflexivity.
Qed.

Lemma ids_loop_keeps (items : list (string * string)) :
  forall d d', WindowsViewer.ids_loop items d = Ok d' ->
  identity_fields d' = identity_fields d.
Proof.
  induction items as [|[sn did] items IH]; intros d d' H; simpl in H;
    [inversion H; reflexivity|].
  destruct (negb (opt_str_eqb (serial_number (w_base d)) (Some sn)));
    [exact (IH _ _ H)|].
  unfold WindowsViewer.assign_ids in H.
  destruct (Py.get_item (Py.split_on "&" did) 0) as [i0|e]; [|discriminate].
  simpl in H.
  destruct (Py.get_item (Py.split_on "&" did) 1) as [i1|e]; [|discriminate].
  simpl in H. rewrite (IH _ _ H). reflexivity.
Qed.

Lemma guid_loop_keeps (vals : list (string * list Byte.byte)) :
  forall d d', WindowsViewer.guid_loop vals d = Ok d' ->
  identity_fields d' = identity_fields d.
Proof.
  induction vals as [|[key value] vals IH]; intros d d' H; simpl in H;
    [inversion H; reflexivity|].
  unfold opt_in in H. destruct (parent_prefix_id d); [|discriminate]. simpl in H.
  destruct (Py.contains _ (convert_binary_to_ascii_string value)); simpl in H;
    [|exact (IH _ _ H)].
  destruct (Py.contains "\Volume" key); [|exact (IH _ _ H)].
  destruct (Py.index key "{") as [gi|e]; [|discriminate]. simpl in H.
  rewrite (IH _ _ H). reflexivity.
Qed.

Lemma drive_loop_keeps (keys : list (string * list (string * string))) :
  forall d d', WindowsViewer.drive_loop keys d = Ok d' ->
  identity_fields d' = identity_fields d.
Proof.
  induction keys as [|[key vals] keys IH]; intros d d' H; simpl in H;
    [inversion H; reflexivity|].
  unfold opt_in in H. destruct (parent_prefix_id d); [|discriminate]. simpl in H.
  destruct (Py.contains _ key); simpl in H; [|exact (IH _ _ H)].
  rewrite (IH _ _ H). reflexivity.
Qed.

Lemma first_date_loop_keeps (items : list (string * datetime)) :
  forall d d', WindowsViewer.first_date_loop items d = Ok d' ->
  identity_fields d' = identity_fields d.
Proof.
  induction items as [|[key t] items IH]; intros d d' H; simpl in H;
    [inversion H; reflexivity|].
  unfold opt_in in H. destruct (serial_number (w_base d)); [|discriminate].
  simpl in H. destruct (Py.contains _ key); [|exact (IH _ _ H)].
  rewrite (IH _ _ H). reflexivity.
Qed.

Lemma last_date_loop_keeps (fromtimestamp : Z -> result datetime)
  (mps : list (string * Z)) :
  forall d d', WindowsViewerScan.last_date_loop fromtimestamp mps d = Ok d' ->
  identity_fields d' = identity_fields d.
Proof.
  induction mps as [|[g lwt] mps IH]; intros d d' H; simpl in H;
    [inversion H; reflexivity|].
  destruct (negb (opt_str_eqb (guid d) (Some g))); [exact (IH _ _ H)|].
  destruct (fromtimestamp _) as [t|e]; [|discriminate]. simpl in H.
  rewrite (IH _ _ H). reflexivity.
Qed.

Lemma set_device_info_keeps (fetch : string -> string -> result string)
  (d d' : USBDeviceWindows) :
  Web.set_device_info fetch d = Ok d' -> identity_fields d' = identity_fields d.
Proof.
  unfold Web.set_device_info. intros H.
  destruct (vendor_id (base d)) as [v|]; [|inversion H; reflexivity].
  destruct (product_id (base d)) as [p|]; [|inversion H; reflexivity].
  destruct (Web.get_device_info_from_web fetch v p 3) as [[vn pd]|e]; [|discriminate].
  simpl in H. inversion H. reflexivity.
Qed.

(** A Windows scan that succeeds returns exactly the records built from the
    [USBSTOR] keys, in the same order: no pass adds, drops or reorders
    records, and none changes a record's serial number, version, friendly
    name, vendor, product or parent prefix id. *)
Theorem get_usb_devices_keeps_records (fromtimestamp : Z -> result datetime)
  (fetch : string -> string -> result string) (reg : Registry)
  (mps : list (string * Z)) (logs : list (list string)) (devs : list USBDeviceWindows) :
  WindowsViewerScan.get_usb_devices fromtimestamp fetch reg mps logs = Ok devs ->
  map identity_fields devs =
  map identity_fields (WindowsViewer.get_base_device_info (reg_usbstor reg)).
Proof.
  unfold WindowsViewerScan.get_usb_devices. intros H.
  set (b := WindowsViewer.get_base_device_info (reg_usbstor reg)) in *.
  destruct (WindowsViewer.set_vendor_and_product_ids (reg_usb reg) b) as [d1|e] eqn:E1;
    [|discriminate]. simpl in H.
  destruct (WindowsViewer.set_guids (reg_mounted_devices reg) d1) as [d2|e] eqn:E2;
    [|discriminate]. simpl in H.
  destruct (WindowsViewer.set_drive_letters (reg_portable_devices reg) d2) as [d3|e] eqn:E3;
    [|discriminate]. simpl in H.
  destruct (WindowsViewer.set_first_connect_dates logs d3) as [d4|e] eqn:E4;
    [|discriminate]. simpl in H.
  destruct (WindowsViewerScan.set_last_connect_dates fromtimestamp mps d4) as [d5|e] eqn:E5;
    [|discriminate]. simpl in H.
  unfold WindowsViewer.set_vendor_and_product_ids in E1.
  destruct (WindowsViewer.usb_device_dict (reg_usb reg)) as [dd|e]; [|discriminate].
  simpl in E1.
  unfold WindowsViewer.set_first_connect_dates in E4.
  destruct (WindowsViewer.install_time_dict logs) as [td|e]; [|discriminate].
  simpl in E4.
  rewrite (map_result_keeps _ _ _ _ (set_device_info_keeps fetch) H).
  rewrite (map_result_keeps _ _ _ _ (last_date_loop_keeps fromtimestamp mps) E5).
  rewrite (map_result_keeps _ _ _ _ (first_date_loop_keeps td) E4).
  rewrite (map_result_keeps _ _ _ _ (drive_loop_keeps _) E3).
  rewrite (map_result_keeps _ _ _ _ (guid_loop_keeps _) E2).
  exact (map_result_keeps _ _ _ _ (ids_loop_keeps dd) E1).
Qed.

Lemma get_usb_devices_keeps_records_witness :
  let fromtimestamp := fun ts : Z => Ok (mkdatetime 2023 3 1 10 0 (ts mod 60)) in
  let fetch := fun _ _ : string => Ok "<h1>Kingston</h1><h2>DataTraveler</h2>" in
  let reg := mkRegistry
    [("Disk&Ven_Kingston&Prod_DataTraveler&Rev_1.00", [("1234&0", [])])]
    sample_usb sample_mounted sample_portable in
  let mps := [("{11111111-aaaa}", 133221456000000000%Z)] in
  exists devs,
    WindowsViewerScan.get_usb_devices fromtimestamp fetch reg mps [sample_setupapi_log]
      = Ok devs /\
    map identity_fields devs =
    map identity_fields (WindowsViewer.get_base_device_info (reg_usbstor reg)).
Proof.
  intros fromtimestamp fetch reg mps.
  destruct (WindowsViewerScan.get_usb_devices fromtimestamp fetch reg mps
              [sample_setupapi_log]) as [devs|e] eqn:H; [|vm_compute in H; discriminate].
  exists devs. split; [reflexivity|].
  exact (get_usb_devices_keeps_records fromtimestamp fetch reg mps _ devs H).
Defined.

Lemma set_device_info_info_only_windows (fetch : string -> string -> result string)
  (d d' : USBDeviceWindows) :
  Web.set_device_info fetch d = Ok d' -> without_info d' = without_info d.
Proof.
  unfold Web.set_device_info. intros H.
  destruct (vendor_id (base d)) as [v|]; [|inversion H; reflexivity].
  destruct (product_id (base d)) as [p|]; [|inversion H; reflexivity].
  destruct (Web.get_device_info_from_web fetch v p 3) as [[vn pd]|e]; [|discriminate].
  simpl in H. inversion H. reflexivity.
Qed.

Lemma set_device_info_info_only_linux (fetch : string -> string -> result string)
  (d d' : USBDeviceLinux) :
  Web.set_device_info fetch d = Ok d' -> without_info d' = without_info d.
Proof.
  unfold Web.set_device_info. intros H.
  destruct (vendor_id (base d)) as [v|]; [|inversion H; reflexivity].
  destruct (product_id (base d)) as [p|]; [|inversion H; reflexivity].
  destruct (Web.get_device_info_from_web fetch v p 3) as [[vn pd]|e]; [|discriminate].
  simpl in H. inversion H. reflexivity.
Qed.

(** [_set_devices_info] keeps the list of records, their order and every
    field other than [vendor_name] and [product_description], on Windows and
    on Linux records alike; so a Linux scan returns the records of
    [__get_base_device_info] with only these two fields filled in. *)
Theorem set_devices_info_info_only :
  (forall fetch (devs devs' : list USBDeviceWindows),
     Web.set_devices_info fetch devs = Ok devs' ->
     map without_info devs' = map without_info devs) /\
  (forall fetch (devs devs' : list USBDeviceLinux),
     Web.set_devices_info fetch devs = Ok devs' ->
     map without_info devs' = map without_info devs) /\
  (forall get_device_connect_time fetch files devs,
     LinuxViewerScan.get_usb_devices get_device_connect_time fetch files = Ok devs ->
     exists base_devs,
       LinuxViewer.get_base_device_info get_device_connect_time files = Ok base_devs /\
       map without_info devs = map without_info base_devs).
Proof.
  split; [|split].
  - intros fetch devs devs' H.
    exact (map_result_keeps _ _ _ _ (set_device_info_info_only_windows fetch) H).
  - intros fetch devs devs' H.
    exact (map_result_keeps _ _ _ _ (set_device_info_info_only_linux fetch) H).
  - intros gct fetch files devs H. unfold LinuxViewerScan.get_usb_devices in H.
    destruct (LinuxViewer.get_base_device_info gct files) as [b|e]; [|discriminate].
    exists b. split; [reflexivity|]. simpl in H.
    exact (map_result_keeps _ _ _ _ (set_device_info_info_only_linux fetch) H).
Qed.

Lemma set_devices_info_info_only_witness :
  let dev := with_base (set_ids (Some "090C") (Some "1000") (base sample_device))
                       sample_device in
  let fetch := fun _ _ : string => Ok "<h1>none</h1>" in
  let ldev := mkUSBDeviceLinux (base dev) None None None in
  let gct := fun (_ : string) (y : Z) => Ok (mkdatetime y 3 1 10 0 0) in
  let files := [(["usb 1-1: New USB device found, idVendor=0781, idProduct=5567, bcdDevice= 1.00";
                  "usb 1-1: SerialNumber: 4C53";
                  "sd 2:0:0:0: Attached SCSI removable disk";
                  "EXT4-fs: Mounted /dev/sdb1"], 2023%Z)] in
  (exists devs', Web.set_devices_info fetch [dev] = Ok devs' /\
     map without_info devs' = map without_info [dev]) /\
  (exists devs', Web.set_devices_info fetch [ldev] = Ok devs' /\
     map without_info devs' = map without_info [ldev]) /\
  (exists devs, LinuxViewerScan.get_usb_devices gct fetch files = Ok devs /\
     exists base_devs,
       LinuxViewer.get_base_device_info gct files = Ok base_devs /\
       map without_info devs = map without_info base_devs).
Proof.
  intros dev fetch ldev gct files. destruct set_devices_info_info_only as (H1 & H2 & H3).
  split; [|split].
  - destruct (Web.set_devices_info fetch [dev]) as [devs'|e] eqn:E;
      [|vm_compute in E; discriminate].
    exists devs'. split; [reflexivity | exact (H1 fetch _ _ E)].
  - destruct (Web.set_devices_info fetch [ldev]) as [devs'|e] eqn:E;
      [|vm_compute in E; discriminate].
    exists devs'. split; [reflexivity | exact (H2 fetch _ _ E)].
  - destruct (LinuxViewerScan.get_usb_devices gct fetch files) as [devs|e] eqn:E;
      [|vm_compute in E; discriminate].
    exists devs. split; [reflexivity | exact (H3 gct fetch files devs E)].
Defined.

End ScanFacts.

(* ------------------------------------------------------------------ *)
(** ** Facts on the string routines *)

Module StringFacts.

Lemma substring_app_l (a b : string) (m : nat) :
  substring (String.length a) m (a ++ b) = substring 0 m b.
Proof. induction a as [|c a IH]; [reflexivity|]. simpl. exact IH. Qed.

Lemma substring_full (b : string) : substring 0 (String.length b) b = b.
Proof. induction b as [|c b IH]; [reflexivity|]. simpl. now rewrite IH. Qed.

Lemma substring_prefix (a b : string) : substring 0 (String.length a) (a ++ b) = a.
Proof. induction a as [|c a IH]; [destruct b; reflexivity|]. simpl. now rewrite IH. Qed.

Lemma length_app (a b : string) :
  String.length (a ++ b) = String.length a + String.length b.
Proof. induction a as [|c a IH]; simpl; [reflexivity | now rewrite IH]. Qed.

Lemma prefix_app (a b : string) : String.prefix a (a ++ b) = true.
Proof.
  induction a as [|c a IH]; [destruct b; reflexivity|].
  simpl. destruct (Ascii.ascii_dec c c) as [_|n]; [exact IH | congruence].
Qed.

Lemma slice_from_app (a b : string) :
  Py.slice_from (a ++ b) (Z.of_nat (String.length a)) = b.
Proof.
  unfold Py.slice_from, Py.slice, Py.slice_bound.
  rewrite length_app.
  replace (Z.of_nat (String.length a) <? 0)%Z with false by (symmetry; apply Z.ltb_ge; lia).
  replace (Z.of_nat (String.length a + String.length b) <? 0)%Z with false
    by (symmetry; apply Z.ltb_ge; lia).
  rewrite !Nat2Z.id.
  replace (Nat.min (String.length a) (String.length a + String.length b))
    with (String.length a) by lia.
  replace (Nat.min (String.length a + String.length b)
                   (String.length a + String.length b))
    with (String.length a + String.length b) by lia.
  replace (String.length a + String.length b - String.length a) with (String.length b)
    by lia.
  rewrite substring_app_l. apply substring_full.
Qed.

Lemma slice_app_mid (a b c : string) :
  Py.slice (a ++ b ++ c) (Z.of_nat (String.length a))
           (Z.of_nat (String.length a + String.length b)) = b.
Proof.
  unfold Py.slice, Py.slice_bound. rewrite !length_app.
  replace (Z.of_nat (String.length a) <? 0)%Z with false by (symmetry; apply Z.ltb_ge; lia).
  replace (Z.of_nat (String.length a + String.length b) <? 0)%Z with false
    by (symmetry; apply Z.ltb_ge; lia).
  rewrite !Nat2Z.id.
  replace (Nat.min (String.length a) (String.length a + (String.length b + String.length c)))
    with (String.length a) by lia.
  replace (Nat.min (String.length a + String.length b)
                   (String.length a + (String.length b + String.length c)))
    with (String.length a + String.length b) by lia.
  replace (String.length a + String.length b - String.length a) with (String.length b)
    by lia.
  rewrite substring_app_l. apply substring_prefix.
Qed.

Lemma find0_prefix_false (sub s : string) :
  Py.find0 sub s = None -> String.prefix sub s = false.
Proof.
  destruct s; cbn [Py.find0]; destruct (String.prefix sub _); congruence.
Qed.

Lemma find0_none_rfind0 (sub s : string) :
  Py.find0 sub s = None -> Py.rfind0 sub s = None.
Proof.
  induction s as [|c s IH]; intros H; pose proof (find0_prefix_false _ _ H) as Hp.
  - cbn [Py.rfind0]. rewrite Hp. reflexivity.
  - cbn [Py.rfind0]. cbn [Py.find0] in H. rewrite Hp in H.
    destruct (Py.find0 sub s); [discriminate|]. rewrite (IH eq_refl).
    rewrite Hp. reflexivity.
Qed.

Lemma index_of_find0 (sub s : string) (k : nat) :
  Py.find0 sub s = Some k -> Py.index s sub = Ok k.
Proof.
  intros H. unfold Py.index, Py.index_from, Py.find_from. simpl.
  rewrite Nat.sub_0_r, substring_full, H. simpl.
  replace (Z.of_nat k <? 0)%Z with false by (symmetry; apply Z.ltb_ge; lia).
  now rewrite Nat2Z.id.
Qed.

Lemma prefix_char (c x : ascii) (s : string) :
  String.prefix (String c EmptyString) (String x s) =
  if Ascii.ascii_dec c x then true else false.
Proof. simpl. destruct (Ascii.ascii_dec c x); [destruct s|]; reflexivity. Qed.

Lemma find0_char_app (c : ascii) (a b : string) :
  Py.find0 (String c EmptyString) a = None ->
  Py.find0 (String c EmptyString) (a ++ b) =
  option_map (Nat.add (String.length a)) (Py.find0 (String c EmptyString) b).
Proof.
  induction a as [|x a IH]; intros H.
  - simpl. destruct (Py.find0 _ b); reflexivity.
  - cbn [Py.find0 String.append] in H |- *. rewrite prefix_char in H |- *.
    destruct (Ascii.ascii_dec c x); [discriminate|].
    cbn [String.length].
    destruct (Py.find0 (String c EmptyString) a) eqn:Ea; [discriminate|].
    rewrite (IH eq_refl). destruct (Py.find0 _ b); reflexivity.
Qed.

Lemma replace_fuel_none (fuel : nat) (old new s : string) :
  Py.find0 old s = None -> Py.replace_fuel fuel old new s = s.
Proof.
  revert s. induction fuel as [|fuel IH]; intros s H; [reflexivity|].
  pose proof (find0_prefix_false _ _ H) as Hp.
  cbn [Py.replace_fuel]. rewrite Hp.
  destruct s as [|c s]; [reflexivity|].
  cbn [Py.find0] in H. rewrite Hp in H.
  destruct (Py.find0 old s) eqn:Es; [discriminate|].
  now rewrite (IH s Es).
Qed.

Lemma replace_prefix_once (old v : string) :
  Py.find0 old v = None ->
  Py.replace (old ++ v) old "" = v.
Proof.
  intros H. unfold Py.replace. simpl. rewrite prefix_app.
  rewrite length_app. replace (String.length old + String.length v - String.length old)
    with (String.length v) by lia.
  rewrite substring_app_l, substring_full. simpl.
  apply replace_fuel_none. exact H.
Qed.

Lemma lstrip_all_space (sp s : string) :
  all_space sp = true -> Py.lstrip (sp ++ s) = Py.lstrip s.
Proof.
  induction sp as [|c sp IH]; intros H; [reflexivity|].
  unfold all_space in H. simpl in H. apply andb_prop in H as [Hc H].
  simpl. rewrite Hc. exact (IH H).
Qed.

Lemma lstrip_start (s : string) :
  starts_non_space s = true -> Py.lstrip s = s.
Proof.
  destruct s as [|c s]; [discriminate|]. simpl. intros H.
  destruct (Py.is_space c); [discriminate | reflexivity].
Qed.

Lemma take_token_app (tok r : string) :
  no_space tok = true -> (r = EmptyString \/ negb (starts_non_space r) = true) ->
  Py.take_token (tok ++ r) = (tok, r).
Proof.
  induction tok as [|c tok IH]; intros Ht Hr.
  - destruct Hr as [->|Hr]; [reflexivity|].
    destruct r as [|c r]; [reflexivity|]. simpl in Hr |- *.
    destruct (Py.is_space c); [reflexivity | discriminate].
  - unfold no_space in Ht. simpl in Ht. apply andb_prop in Ht as [Hc Ht].
    simpl. destruct (Py.is_space c); [discriminate|]. rewrite (IH Ht Hr). reflexivity.
Qed.

Lemma starts_non_space_app (a b : string) :
  starts_non_space a = true -> starts_non_space (a ++ b) = true.
Proof. destruct a; [discriminate | exact (fun H => H)]. Qed.

Lemma no_space_starts (tok : string) :
  tok <> EmptyString -> no_space tok = true -> starts_non_space tok = true.
Proof.
  destruct tok as [|c tok]; [congruence|]. unfold no_space. simpl.
  intros _ H. apply andb_prop in H as [H _]. exact H.
Qed.

Lemma all_space_starts (sp : string) :
  sp <> EmptyString -> all_space sp = true -> negb (starts_non_space sp) = true.
Proof.
  destruct sp as [|c sp]; [congruence|]. unfold all_space. simpl.
  intros _ H. apply andb_prop in H as [H _]. rewrite H. reflexivity.
Qed.

Lemma all_space_app_start (sp v : string) :
  all_space sp = true -> sp <> EmptyString ->
  negb (starts_non_space (sp ++ v)) = true.
Proof.
  destruct sp as [|c sp]; [congruence|]. unfold all_space. simpl.
  intros H _. apply andb_prop in H as [H _]. rewrite H. reflexivity.
Qed.

Lemma lstrip_all_space_empty (sp : string) :
  all_space sp = true -> Py.lstrip sp = EmptyString.
Proof.
  intros H. induction sp as [|c sp IH]; [reflexivity|].
  unfold all_space in H. simpl in H. apply andb_prop in H as [Hc H].
  simpl. rewrite Hc. exact (IH H).
Qed.

Lemma append_nil_r (s : string) : (s ++ EmptyString)%string = s.
Proof. induction s as [|c s IH]; simpl; [reflexivity | now rewrite IH]. Qed.

Lemma append_assoc' (a b c : string) : ((a ++ b) ++ c)%string = (a ++ (b ++ c))%string.
Proof. induction a as [|x a IH]; simpl; [reflexivity | now rewrite IH]. Qed.

Lemma rev_string_app (a b : string) :
  Py.rev_string (a ++ b) = (Py.rev_string b ++ Py.rev_string a)%string.
Proof.
  induction a as [|c a IH]; simpl.
  - rewrite append_nil_r. reflexivity.
  - rewrite IH. rewrite append_assoc'. reflexivity.
Qed.

Lemma rev_string_involutive (s : string) : Py.rev_string (Py.rev_string s) = s.
Proof.
  induction s as [|c s IH]; [reflexivity|]. simpl.
  rewrite rev_string_app, IH. reflexivity.
Qed.

Lemma list_ascii_of_string_app' (a b : string) :
  list_ascii_of_string (a ++ b) = (list_ascii_of_string a ++ list_ascii_of_string b)%list.
Proof. induction a as [|c a IH]; simpl; [reflexivity | now rewrite IH]. Qed.

Lemma no_space_rev (s : string) : no_space s = true -> no_space (Py.rev_string s) = true.
Proof.
  unfold no_space. induction s as [|c s IH]; intros H; [reflexivity|].
  simpl in H |- *. apply andb_prop in H as [Hc H].
  rewrite list_ascii_of_string_app', forallb_app. rewrite (IH H). simpl.
  rewrite Hc. reflexivity.
Qed.

Lemma strip_no_space (tok : string) : no_space tok = true -> Py.strip tok = tok.
Proof.
  intros H. unfold Py.strip, Py.rstrip.
  destruct tok as [|c t] eqn:Et; [reflexivity|]. rewrite <- Et in *.
  assert (Hne : tok <> EmptyString) by (subst; discriminate).
  rewrite (lstrip_start tok (no_space_starts tok Hne H)).
  rewrite lstrip_start; [apply rev_string_involutive|].
  apply no_space_starts; [|exact (no_space_rev _ H)].
  intros Hr. apply (f_equal Py.rev_string) in Hr.
  rewrite rev_string_involutive in Hr. exact (Hne Hr).
Qed.

End StringFacts.

(* ------------------------------------------------------------------ *)
(** ** [__get_device_info_from_section], [__get_device_size] and
       [__get_device_id_by_type] *)

Module LinuxFieldFacts.

Import StringFacts.

Lemma split_max1_two (sp1 tok sp2 v : string) :
  all_space sp1 = true -> tok <> EmptyString -> no_space tok = true ->
  sp2 <> EmptyString -> all_space sp2 = true -> starts_non_space v = true ->
  Py.split_max1 (sp1 ++ tok ++ sp2 ++ v) = [tok; v].
Proof.
  intros H1 Ht Hnt H2 Hs2 Hv. unfold Py.split_max1.
  rewrite (lstrip_all_space sp1 _ H1).
  rewrite (lstrip_start _ (starts_non_space_app _ _ (no_space_starts _ Ht Hnt))).
  assert (Htk : Py.take_token (tok ++ sp2 ++ v) = (tok, (sp2 ++ v)%string)).
  { apply take_token_app; [exact Hnt|]. right. exact (all_space_app_start _ _ Hs2 H2). }
  assert (Hw : exists c w', (tok ++ sp2 ++ v)%string = String c w')
    by (destruct tok; [congruence | eexists _, _; reflexivity]).
  destruct Hw as (c & w' & Hw). rewrite Hw. cbv beta iota.
  rewrite <- Hw, Htk. cbv beta iota.
  rewrite (lstrip_all_space sp2 _ Hs2), (lstrip_start _ Hv).
  destruct v as [|c' v']; [discriminate | reflexivity].
Qed.

Lemma split_max1_one (sp1 tok sp2 : string) :
  all_space sp1 = true -> tok <> EmptyString -> no_space tok = true ->
  all_space sp2 = true ->
  Py.split_max1 (sp1 ++ tok ++ sp2) = [tok].
Proof.
  intros H1 Ht Hnt Hs2. unfold Py.split_max1.
  rewrite (lstrip_all_space sp1 _ H1).
  rewrite (lstrip_start _ (starts_non_space_app _ _ (no_space_starts _ Ht Hnt))).
  assert (Htk : Py.take_token (tok ++ sp2) = (tok, sp2)).
  { apply take_token_app; [exact Hnt|].
    destruct sp2 as [|c s]; [now left|]. right.
    apply all_space_starts; [discriminate | exact Hs2]. }
  assert (Hw : exists c w', (tok ++ sp2)%string = String c w')
    by (destruct tok; [congruence | eexists _, _; reflexivity]).
  destruct Hw as (c & w' & Hw). rewrite Hw. cbv beta iota.
  rewrite <- Hw, Htk. cbv beta iota.
  rewrite (lstrip_all_space_empty sp2 Hs2). reflexivity.
Qed.

Lemma info_skip (before after : list string) (line info : string) :
  Forall (fun l => Py.contains info l = false) before ->
  LinuxViewer.get_device_info_from_section (before ++ line :: after) info =
  LinuxViewer.get_device_info_from_section (line :: after) info.
Proof.
  induction 1 as [|l before Hl _ IH]; [reflexivity|].
  simpl. rewrite Hl. exact IH.
Qed.

Lemma info_at_line (after : list string) (pre info rest : string) :
  Py.find0 info (pre ++ info ++ rest) = Some (String.length pre) ->
  LinuxViewer.get_device_info_from_section ((pre ++ info ++ rest)%string :: after) info =
  let* v := Py.last_item (Py.split_max1 rest) in Ok (Some (Py.strip v)).
Proof.
  intros Hf. cbn [LinuxViewer.get_device_info_from_section].
  unfold Py.contains. rewrite Hf.
  rewrite (index_of_find0 _ _ _ Hf). simpl bind.
  rewrite <- append_assoc'.
  replace (String.length pre + String.length info) with (String.length (pre ++ info))
    by apply length_app.
  rewrite slice_from_app. reflexivity.
Qed.

(** [__get_device_info_from_section] reads the first line holding the label;
    when the label is followed by two or more words, the value returned is
    the text after the first of them: the first word is dropped (a
    [Manufacturer: SanDisk Corp] line gives [Corp]). *)
Theorem get_device_info_from_section_drops_first_word (before after : list string)
  (pre info sp1 tok sp2 v : string) :
  Forall (fun l => Py.contains info l = false) before ->
  Py.find0 info (pre ++ info ++ sp1 ++ tok ++ sp2 ++ v) = Some (String.length pre) ->
  all_space sp1 = true -> tok <> EmptyString -> no_space tok = true ->
  sp2 <> EmptyString -> all_space sp2 = true -> starts_non_space v = true ->
  LinuxViewer.get_device_info_from_section
    (before ++ (pre ++ info ++ sp1 ++ tok ++ sp2 ++ v)%string :: after) info
  = Ok (Some (Py.strip v)).
Proof.
  intros Hb Hf H1 Ht Hnt H2 Hs2 Hv.
  rewrite (info_skip _ _ _ _ Hb), (info_at_line _ _ _ _ Hf).
  rewrite (split_max1_two _ _ _ _ H1 Ht Hnt H2 Hs2 Hv). reflexivity.
Qed.

Lemma get_device_info_from_section_drops_first_word_witness :
  Forall (fun l => Py.contains "Manufacturer:" l = false)
    ["usb 1-1: New USB device found, idVendor=0781, idProduct=5567";
     "usb 1-1: Product: Cruzer Blade"] /\
  Py.find0 "Manufacturer:" ("usb 1-1: " ++ "Manufacturer:" ++ " " ++ "SanDisk" ++ " " ++ "Corp")
    = Some (String.length "usb 1-1: ") /\
  LinuxViewer.get_device_info_from_section
    (["usb 1-1: New USB device found, idVendor=0781, idProduct=5567";
      "usb 1-1: Product: Cruzer Blade"] ++
     ("usb 1-1: " ++ "Manufacturer:" ++ " " ++ "SanDisk" ++ " " ++ "Corp")%string ::
     ["usb 1-1: SerialNumber: 4C530001"]) "Manufacturer:"
  = Ok (Some (Py.strip "Corp")).
Proof.
  assert (Hb : Forall (fun l => Py.contains "Manufacturer:" l = false)
    ["usb 1-1: New USB device found, idVendor=0781, idProduct=5567";
     "usb 1-1: Product: Cruzer Blade"]) by (repeat constructor).
  assert (Hf : Py.find0 "Manufacturer:"
                 ("usb 1-1: " ++ "Manufacturer:" ++ " " ++ "SanDisk" ++ " " ++ "Corp")
               = Some (String.length "usb 1-1: ")) by (vm_compute; reflexivity).
  split; [exact Hb|]. split; [exact Hf|].
  apply (get_device_info_from_section_drops_first_word _ _ _ _ _ _ _ _ Hb Hf);
    first [reflexivity | discriminate].
Defined.

(** When the label is followed by a single word, [__get_device_info_from_section]
    returns that word. *)
Theorem get_device_info_from_section_one_word (before after : list string)
  (pre info sp1 tok sp2 : string) :
  Forall (fun l => Py.contains info l = false) before ->
  Py.find0 info (pre ++ info ++ sp1 ++ tok ++ sp2) = Some (String.length pre) ->
  all_space sp1 = true -> tok <> EmptyString -> no_space tok = true ->
  all_space sp2 = true ->
  LinuxViewer.get_device_info_from_section
    (before ++ (pre ++ info ++ sp1 ++ tok ++ sp2)%string :: after) info
  = Ok (Some tok).
Proof.
  intros Hb Hf H1 Ht Hnt Hs2.
  rewrite (info_skip _ _ _ _ Hb), (info_at_line _ _ _ _ Hf).
  rewrite (split_max1_one _ _ _ H1 Ht Hnt Hs2). simpl.
  rewrite (strip_no_space _ Hnt). reflexivity.
Qed.

Lemma get_device_info_from_section_one_word_witness :
  Forall (fun l => Py.contains "SerialNumber:" l = false)
    ["usb 1-1: New USB device found, idVendor=0781, idProduct=5567"] /\
  Py.find0 "SerialNumber:" ("usb 1-1: " ++ "SerialNumber:" ++ " " ++ "4C530001" ++ "")
    = Some (String.length "usb 1-1: ") /\
  LinuxViewer.get_device_info_from_section
    (["usb 1-1: New USB device found, idVendor=0781, idProduct=5567"] ++
     ("usb 1-1: " ++ "SerialNumber:" ++ " " ++ "4C530001" ++ "")%string :: [])
    "SerialNumber:"
  = Ok (Some "4C530001").
Proof.
  assert (Hb : Forall (fun l => Py.contains "SerialNumber:" l = false)
    ["usb 1-1: New USB device found, idVendor=0781, idProduct=5567"])
    by (repeat constructor).
  assert (Hf : Py.find0 "SerialNumber:"
                 ("usb 1-1: " ++ "SerialNumber:" ++ " " ++ "4C530001" ++ "")
               = Some (String.length "usb 1-1: ")) by (vm_compute; reflexivity).
  split; [exact Hb|]. split; [exact Hf|].
  apply (get_device_info_from_section_one_word _ _ _ _ _ _ _ Hb Hf);
    first [reflexivity | discriminate].
Defined.

Lemma contains_false (sub s : string) :
  Py.contains sub s = false -> Py.find0 sub s = None.
Proof. unfold Py.contains. destruct (Py.find0 sub s); congruence. Qed.

Lemma rfind0_last_bracket (a b : string) :
  Py.find0 "]" b = None -> Py.rfind0 "]" (a ++ "]" ++ b) = Some (String.length a).
Proof.
  intros Hb. induction a as [|c a IH].
  - change ("" ++ "]" ++ b)%string with (String "]" b).
    cbn [Py.rfind0]. rewrite (find0_none_rfind0 _ _ Hb).
    change (String "]" b) with ("]" ++ b)%string. rewrite prefix_app. reflexivity.
  - change (String c a ++ "]" ++ b)%string with (String c (a ++ "]" ++ b)).
    cbn [Py.rfind0]. rewrite IH. reflexivity.
Qed.

Lemma size_skip (before after : list string) (line : string) :
  Forall (fun l => Py.contains "logical blocks" l = false) before ->
  LinuxViewer.get_device_size (before ++ line :: after) =
  LinuxViewer.get_device_size (line :: after).
Proof.
  induction 1 as [|l before Hl _ IH]; [reflexivity|].
  simpl. rewrite Hl. exact IH.
Qed.

(** [__get_device_size] reads the first line holding [logical blocks] and
    returns its text after the last [']'], stripped; when that line has no
    [']'] it raises [ValueError]. *)
Theorem get_device_size_after_bracket :
  (forall before after a b,
     Forall (fun l => Py.contains "logical blocks" l = false) before ->
     Py.contains "logical blocks" (a ++ "]" ++ b) = true ->
     Py.contains "]" b = false ->
     LinuxViewer.get_device_size (before ++ (a ++ "]" ++ b)%string :: after)
     = Ok (Some (Py.strip b))) /\
  (forall before after line,
     Forall (fun l => Py.contains "logical blocks" l = false) before ->
     Py.contains "logical blocks" line = true ->
     Py.contains "]" line = false ->
     LinuxViewer.get_device_size (before ++ line :: after) = Raise ValueError).
Proof.
  split.
  - intros before after a b Hb Hl Hr. rewrite (size_skip _ _ _ Hb).
    cbn [LinuxViewer.get_device_size]. rewrite Hl.
    unfold Py.rindex. rewrite (rfind0_last_bracket _ _ (contains_false _ _ Hr)).
    assert (Hs : Py.slice_from (a ++ "]" ++ b) (Z.of_nat (String.length a + 1)) = b).
    { rewrite <- append_assoc'.
      replace (String.length a + 1) with (String.length (a ++ "]")) by
        (rewrite length_app; reflexivity).
      apply slice_from_app. }
    cbv beta iota delta [bind]. rewrite Hs. reflexivity.
  - intros before after line Hb Hl Hr. rewrite (size_skip _ _ _ Hb).
    cbn [LinuxViewer.get_device_size]. rewrite Hl.
    unfold Py.rindex. rewrite (find0_none_rfind0 _ _ (contains_false _ _ Hr)).
    reflexivity.
Qed.

Lemma get_device_size_after_bracket_witness :
  LinuxViewer.get_device_size
    ([] ++ ("sd 6:0:0:0: [sdb" ++ "]" ++
            " 30031872 512-byte logical blocks: (15.4 GB/14.3 GiB)")%string :: [])
  = Ok (Some (Py.strip " 30031872 512-byte logical blocks: (15.4 GB/14.3 GiB)")) /\
  LinuxViewer.get_device_size (["usb 1-1: Product: Cruzer Blade"] ++
    "sd 6:0:0:0: 30031872 512-byte logical blocks" :: [])
  = Raise ValueError.
Proof.
  destruct get_device_size_after_bracket as [H1 H2]. split.
  - apply H1; [constructor | vm_compute; reflexivity | vm_compute; reflexivity].
  - apply H2; [repeat constructor | vm_compute; reflexivity | vm_compute; reflexivity].
Defined.

Lemma substring_suffix (pre s : string) :
  substring (String.length pre) (String.length (pre ++ s) - String.length pre) (pre ++ s)
  = s.
Proof.
  rewrite length_app. replace (String.length pre + String.length s - String.length pre)
    with (String.length s) by lia.
  rewrite substring_app_l. apply substring_full.
Qed.

Lemma index_from_comma (pre m post : string) :
  Py.find0 "," m = None -> Py.startswith "," post = true ->
  Py.index_from (pre ++ m ++ post) "," (String.length pre)
  = Ok (String.length pre + String.length m).
Proof.
  intros Hm Hp. unfold Py.index_from, Py.find_from.
  replace (String.length (pre ++ m ++ post) <? String.length pre)%nat with false
    by (symmetry; apply Nat.ltb_ge; rewrite !length_app; lia).
  rewrite substring_suffix, (find0_char_app _ _ _ Hm).
  destruct post as [|c post']; [discriminate|].
  unfold Py.startswith in Hp. rewrite prefix_char in Hp.
  destruct (Ascii.ascii_dec ","%char c) as [Ec|]; [subst c|discriminate].
  replace (Py.find0 "," (String "," post')) with (Some 0)
    by (cbn [Py.find0]; rewrite prefix_char; reflexivity).
  simpl option_map. cbv beta iota.
  replace (Z.of_nat (String.length pre + (String.length m + 0)) <? 0)%Z with false
    by (symmetry; apply Z.ltb_ge; lia).
  rewrite Nat2Z.id. f_equal. lia.
Qed.

(** [__get_device_id_by_type] on a line where the first occurrence of the
    id type [t] is followed by [=], the value [v] and then a comma or the end
    of the line returns [v] stripped, provided [v] holds no comma and no
    further [t=]. *)
Theorem get_device_id_by_type_value (pre t v post : string) :
  Py.find0 t (pre ++ t ++ "=" ++ v ++ post) = Some (String.length pre) ->
  Py.contains "," (t ++ "=" ++ v) = false ->
  Py.contains (t ++ "=") v = false ->
  post = EmptyString \/ Py.startswith "," post = true ->
  LinuxViewer.get_device_id_by_type (pre ++ t ++ "=" ++ v ++ post) t = Ok (Py.strip v).
Proof.
  intros Hf Hc Hr Hp. unfold LinuxViewer.get_device_id_by_type.
  rewrite (index_of_find0 _ _ _ Hf). cbv beta iota delta [bind].
  set (m := (t ++ "=" ++ v)%string).
  assert (Hcm : Py.find0 "," m = None) by exact (contains_false _ _ Hc).
  replace (pre ++ t ++ "=" ++ v ++ post)%string with (pre ++ m ++ post)%string
    by (unfold m; rewrite !append_assoc'; reflexivity).
  rewrite slice_from_app.
  assert (Hm : Py.replace (Py.slice (pre ++ m ++ post) (Z.of_nat (String.length pre))
                 (Z.of_nat (String.length pre + String.length m))) (t ++ "=") ""
               = v).
  { rewrite slice_app_mid. unfold m. rewrite <- append_assoc'.
    apply replace_prefix_once. apply contains_false. exact Hr. }
  destruct Hp as [->|Hp].
  - unfold Py.contains at 1. rewrite append_nil_r, Hcm.
    cbv beta iota.
    replace (String.length (pre ++ m)) with (String.length pre + String.length m)
      by (symmetry; apply length_app).
    rewrite <- Hm. rewrite append_nil_r. reflexivity.
  - assert (Hin : Py.contains "," (m ++ post) = true).
    { unfold Py.contains. rewrite (find0_char_app _ _ _ Hcm).
      destruct post as [|c post']; [discriminate|].
      unfold Py.startswith in Hp. rewrite prefix_char in Hp.
      destruct (Ascii.ascii_dec ","%char c) as [Ec|]; [subst c|discriminate].
      cbn [Py.find0]. rewrite prefix_char. reflexivity. }
    rewrite Hin, (index_from_comma _ _ _ Hcm Hp).
    cbv beta iota. rewrite Hm. reflexivity.
Qed.

Lemma get_device_id_by_type_value_witness :
  LinuxViewer.get_device_id_by_type
    ("usb 1-1: New USB device found, " ++ "idVendor" ++ "=" ++ "0781" ++
     ", idProduct=5567, bcdDevice= 1.00")%string "idVendor" = Ok (Py.strip "0781") /\
  LinuxViewer.get_device_id_by_type
    ("usb 1-1: New USB device found, idVendor=0781, idProduct=5567, " ++
     "bcdDevice" ++ "=" ++ " 1.00" ++ "")%string "bcdDevice" = Ok (Py.strip " 1.00").
Proof.
  split; apply get_device_id_by_type_value;
    first [vm_compute; reflexivity | left; reflexivity | right; reflexivity].
Defined.

End LinuxFieldFacts.

(* ------------------------------------------------------------------ *)
(** ** The page parsing of [get_device_info_from_web] *)

Module HeadingFacts.

Import StringFacts.
Import LinuxFieldFacts.

Lemma find_from_suffix (a s sub : string) (k : nat) :
  Py.find0 sub s = Some k ->
  Py.find_from (a ++ s) sub (String.length a) = Z.of_nat (String.length a + k).
Proof.
  intros H. unfold Py.find_from.
  replace (String.length (a ++ s) <? String.length a)%nat with false
    by (symmetry; apply Nat.ltb_ge; rewrite length_app; lia).
  rewrite substring_suffix, H. reflexivity.
Qed.

Lemma list_ascii_of_rev_string (s : string) :
  list_ascii_of_string (Py.rev_string s) = rev (list_ascii_of_string s).
Proof.
  induction s as [|c s IH]; [reflexivity|]. simpl.
  rewrite list_ascii_of_string_app', IH. reflexivity.
Qed.

Lemma lstrip_app_not_all_space (x y : string) :
  all_space x = false -> Py.lstrip (x ++ y) = (Py.lstrip x ++ y)%string.
Proof.
  induction x as [|c x IH]; intros H; [discriminate|].
  unfold all_space in H. simpl in H |- *.
  destruct (Py.is_space c); simpl in H; [exact (IH H) | reflexivity].
Qed.

Lemma rstrip_app (a b : string) :
  all_space b = false -> Py.rstrip (a ++ b) = (a ++ Py.rstrip b)%string.
Proof.
  intros H. unfold Py.rstrip. rewrite rev_string_app.
  rewrite lstrip_app_not_all_space.
  - rewrite rev_string_app, rev_string_involutive. reflexivity.
  - unfold all_space in *. rewrite list_ascii_of_rev_string.
    destruct (forallb Py.is_space (rev (list_ascii_of_string b))) eqn:E; [|reflexivity].
    exfalso. rewrite forallb_forall in E. rewrite <- not_true_iff_false in H. apply H.
    apply forallb_forall. intros c Hc. apply E. apply in_rev. rewrite rev_involutive. exact Hc.
Qed.

(** The text of a heading: [get_device_info_from_web] takes the first
    [details__heading] after the marker, skips the character after it, and
    returns the text up to the next ['<'] with the leading ['>\n'] removed
    and trailing white space stripped; white space after that newline is
    kept. *)
Theorem extract_heading_text (pre marker mid : string) (q : ascii)
  (name post : string) :
  Py.find0 marker (pre ++ marker ++ mid ++ "details__heading" ++
                   String q (Web.gt_newline ++ name ++ "<" ++ post))
    = Some (String.length pre) ->
  Py.find0 "details__heading" (marker ++ mid ++ "details__heading" ++
                   String q (Web.gt_newline ++ name ++ "<" ++ post))
    = Some (String.length marker + String.length mid) ->
  Py.contains "<" name = false ->
  all_space name = false ->
  Py.contains Web.gt_newline (Py.rstrip name) = false ->
  Web.extract_heading (pre ++ marker ++ mid ++ "details__heading" ++
                       String q (Web.gt_newline ++ name ++ "<" ++ post)) marker
  = Some (Py.rstrip name).
Proof.
  intros H1 H2 H3 H4 H5.
  set (rest := String q (Web.gt_newline ++ name ++ "<" ++ post)).
  set (html := (pre ++ marker ++ mid ++ "details__heading" ++ rest)%string).
  unfold Web.extract_heading.
  assert (Hm : Py.find html marker = Z.of_nat (String.length pre)).
  { unfold Py.find. exact (find_from_suffix "" html marker _ H1). }
  rewrite Hm.
  replace (Z.of_nat (String.length pre) =? -1)%Z with false by (symmetry; apply Z.eqb_neq; lia).
  rewrite Nat2Z.id.
  assert (Hd : Py.find_from html "details__heading" (String.length pre)
               = Z.of_nat (String.length pre + (String.length marker + String.length mid)))
    by exact (find_from_suffix pre _ _ _ H2).
  rewrite Hd.
  set (A := (pre ++ marker ++ mid ++ "details__heading" ++ String q EmptyString)%string).
  assert (HA : html = (A ++ (Web.gt_newline ++ name ++ "<" ++ post))%string).
  { unfold html, A, rest. rewrite !append_assoc'. reflexivity. }
  assert (HlA : String.length A =
                String.length pre + (String.length marker + String.length mid) + 17).
  { unfold A. rewrite !length_app. simpl. lia. }
  replace (Z.of_nat (String.length pre + (String.length marker + String.length mid)) + 17)%Z
    with (Z.of_nat (String.length A)) by lia.
  rewrite Nat2Z.id.
  assert (Hlt : Py.find0 "<" (Web.gt_newline ++ name ++ "<" ++ post)
                = Some (2 + String.length name)).
  { replace (Web.gt_newline ++ name ++ "<" ++ post)%string
      with ((Web.gt_newline ++ name) ++ "<" ++ post)%string by apply append_assoc'.
    rewrite find0_char_app.
    - change ("<" ++ post)%string with (String "<" post).
      cbn [Py.find0]. rewrite prefix_char. rewrite length_app. simpl.
      f_equal. lia.
    - rewrite find0_char_app; [|reflexivity]. rewrite (contains_false _ _ H3). reflexivity. }
  rewrite HA at 2. rewrite (find_from_suffix A _ _ _ Hlt).
  replace (String.length A + (2 + String.length name))
    with (String.length A + String.length (Web.gt_newline ++ name))
    by (rewrite length_app; reflexivity).
  rewrite HA.
  replace (A ++ Web.gt_newline ++ name ++ "<" ++ post)%string
    with (A ++ (Web.gt_newline ++ name) ++ ("<" ++ post))%string
    by (rewrite append_assoc'; reflexivity).
  rewrite slice_app_mid.
  unfold Py.strip. rewrite (lstrip_start (Web.gt_newline ++ name) eq_refl).
  rewrite (rstrip_app _ _ H4).
  rewrite replace_prefix_once; [reflexivity|]. exact (contains_false _ _ H5).
Qed.

Lemma extract_heading_text_witness :
  Web.extract_heading
    (("<div class=" ++ Web.dq ++ "details ") ++ "--type-vendor" ++
     (Web.dq ++ "><h3 class=" ++ Web.dq) ++ "details__heading" ++
     String (ascii_of_nat 34) (Web.gt_newline ++ "    SanDisk Corp.  " ++ "<" ++ "/h3>"))
    "--type-vendor"
  = Some (Py.rstrip "    SanDisk Corp.  ").
Proof.
  apply (extract_heading_text ("<div class=" ++ Web.dq ++ "details ") "--type-vendor"
           (Web.dq ++ "><h3 class=" ++ Web.dq) (ascii_of_nat 34) "    SanDisk Corp.  "
           "/h3>"); vm_compute; reflexivity.
Defined.

End HeadingFacts.

(* ------------------------------------------------------------------ *)
(** ** [convert_windows_time_to_unix] on whole seconds *)

Module TimeFacts.

Local Open Scope Z_scope.

(** [convert_windows_time_to_unix] inverts the FILETIME encoding of a whole
    unix second: for every second [u] from 1601 on whose FILETIME
    [10^7 * (u + 11644473600)] fits in 64 bits, converting that FILETIME
    gives back exactly [u], before and after 1970 alike. *)
Theorem convert_windows_time_to_unix_whole_seconds (u : Z) :
  0 <= u + 11644473600 -> 10000000 * (u + 11644473600) < 2 ^ 64 ->
  convert_windows_time_to_unix (10000000 * (u + 11644473600)) = u.
Proof.
  intros H0 H64. set (k := u + 11644473600) in *.
  assert (Hk : k < 2 ^ 41) by lia.
  unfold convert_windows_time_to_unix, Float64.true_div.
  pose proof (WindowsTime.of_ratio_bounds (10000000 * k) 10000000 k k
                ltac:(lia) ltac:(rewrite Z.abs_eq by lia; lia)
                ltac:(lia) ltac:(lia)) as H1.
  destruct (Float64.of_ratio (10000000 * k) 10000000) as [m1 e1].
  destruct H1 as (He1 & Hm1).
  unfold Float64.sub_int. rewrite WindowsTime.to_ratio_nonpos by exact He1.
  assert (HP1 : 0 < 2 ^ (- e1)) by (apply Z.pow_pos_nonneg; lia).
  set (P1 := 2 ^ (- e1)) in *.
  assert (Hm1' : m1 = k * P1) by lia.
  assert (Hu : Z.abs u < 2 ^ 52) by (apply Z.abs_lt; lia).
  pose proof (WindowsTime.of_ratio_bounds (m1 - 11644473600 * P1) P1 u u HP1
                ltac:(rewrite Hm1'; unfold k;
                      replace ((u + 11644473600) * P1 - 11644473600 * P1) with (u * P1)
                        by ring;
                      rewrite Z.abs_mul, (Z.abs_eq P1) by lia; nia)
                ltac:(unfold k in Hm1'; nia) ltac:(unfold k in Hm1'; nia)) as H2.
  destruct (Float64.of_ratio (m1 - 11644473600 * P1) P1) as [m2 e2].
  destruct H2 as (He2 & Hm2).
  unfold Float64.trunc. rewrite WindowsTime.to_ratio_nonpos by exact He2.
  pose proof (WindowsTime.quot_bounds m2 (2 ^ (- e2)) u u
                ltac:(apply Z.pow_pos_nonneg; lia) Hm2) as Hq.
  lia.
Qed.

Lemma convert_windows_time_to_unix_whole_seconds_witness :
  (0 <= 1700000000 + 11644473600 /\ 10000000 * (1700000000 + 11644473600) < 2 ^ 64 /\
   convert_windows_time_to_unix (10000000 * (1700000000 + 11644473600)) = 1700000000) /\
  (0 <= -86400 + 11644473600 /\ 10000000 * (-86400 + 11644473600) < 2 ^ 64 /\
   convert_windows_time_to_unix (10000000 * (-86400 + 11644473600)) = -86400).
Proof.
  split; (split; [lia|]); (split; [lia|]);
    apply convert_windows_time_to_unix_whole_seconds; lia.
Defined.

End TimeFacts.
